(** * ReconX dashboards: a shallow embedding of the client code

    The development follows the TypeScript sources of the two ReconX
    front ends, one module per source file:

    - [viz-recon-main/src/utils/api.ts]              (module [Api])
    - [viz-recon-main/src/utils/date.ts]             (module [DateUtil])
    - [viz-recon-main/src/components/Dashboard.tsx]  (module [Viz])
    - [reconx/ui/src/modules/Dashboard.tsx]          (module [Ui])

    Module [Js] holds the JavaScript primitives the sources call, and
    module [Spec] the vocabulary of the statements.  The properties
    come after the definitions, one section per subject.

    JavaScript strings are modelled by [string]: one [ascii] per code
    unit, so the model covers strings whose code units are below 256.
    The two characters outside that range that occur in literals of the
    sources (the dash and the bullet of the report title) are written
    with their UTF-8 bytes; no definition inspects them.  The same
    is done for the upper case of the code units 181 and 255, the only
    results of a primitive below that leave the range.

    JavaScript numbers are modelled by [Js.number]: [NaN], the two
    infinities and the integer-valued finite numbers, carried by [Z].
    Identifiers, ports, HTTP status codes and lengths are integers in
    the backend.

    A value that may be missing, null or undefined is an [option]; a
    request that may fail is an [Api.Exchange]; a handler that may
    throw returns an [option]; the export, which talks to the backend
    and to the browser, passes a [Viz.World] along. *)

From Stdlib Require Import ZArith List Bool Ascii String Lia.
From Stdlib Require Import Numbers.DecimalString.
From Stdlib Require Import Numbers.DecimalZ.
Import ListNotations.

Open Scope string_scope.
Open Scope Z_scope.

(* ================================================================== *)
(** ** JavaScript primitives used by the sources *)
(* ================================================================== *)

Module Js.

(** *** Characters *)

Definition LF : ascii := "010"%char.
Definition CR : ascii := "013"%char.
Definition TAB : ascii := "009"%char.

Definition is_lf (c : ascii) : bool := Ascii.eqb c LF.
Definition is_cr (c : ascii) : bool := Ascii.eqb c CR.

(** WhiteSpace and LineTerminator code units below 256 (ECMAScript
    [String.prototype.trim], [parseInt]): TAB, LF, VT, FF, CR, SP, NBSP. *)
Definition is_whitespace (c : ascii) : bool :=
  let n := N_of_ascii c in
  (((9 <=? n) && (n <=? 13)) || (n =? 32) || (n =? 160))%N.

Definition is_digit (c : ascii) : bool :=
  let n := N_of_ascii c in ((48 <=? n) && (n <=? 57))%N.

Definition digit_value (c : ascii) : Z := Z.of_N (N_of_ascii c) - 48.

(** *** Strings *)

(** Truthiness of a string: [!!s]. *)
Definition truthy (s : string) : bool :=
  match s with "" => false | _ => true end.

(** [s.startsWith(p)]. *)
Fixpoint startsWith (s p : string) {struct p} : bool :=
  match p with
  | "" => true
  | String a p' =>
      match s with
      | "" => false
      | String b s' => Ascii.eqb a b && startsWith s' p'
      end
  end.

(** [s.endsWith(c)] for a single code unit. *)
Fixpoint ends_with_char (s : string) (c : ascii) : bool :=
  match s with
  | "" => false
  | String a "" => Ascii.eqb a c
  | String _ s' => ends_with_char s' c
  end.

(** [s.replace(/\/$/, '')]: the pattern matches one ['/'] that is the
    last code unit of [s]; that single code unit is removed. *)
Fixpoint strip_trailing_slash (s : string) : string :=
  match s with
  | "" => ""
  | String a "" => if Ascii.eqb a "/" then "" else s
  | String a s' => String a (strip_trailing_slash s')
  end.

(** [s.trimStart()], [s.trimEnd()] and [s.trim()]. *)
Fixpoint trimStart (s : string) : string :=
  match s with
  | "" => ""
  | String c s' => if is_whitespace c then trimStart s' else s
  end.

Fixpoint trimEnd (s : string) : string :=
  match s with
  | "" => ""
  | String c s' =>
      match trimEnd s' with
      | "" => if is_whitespace c then "" else String c ""
      | t => String c t
      end
  end.

Definition trim (s : string) : string := trimEnd (trimStart s).

(** [s.split(c)] for a one-character separator string.  The result is
    never empty: [''.split(c)] is [['']]. *)
Fixpoint split_char (sep : ascii) (s : string) : list string :=
  match s with
  | "" => [""]
  | String c s' =>
      if Ascii.eqb c sep then "" :: split_char sep s'
      else match split_char sep s' with
           | l :: ls => String c l :: ls
           | [] => [String c ""]
           end
  end.

(** [s.split(/\r?\n/)].  At each position the pattern is tried first
    with the optional CR taken (a CR followed by LF), then without it
    (a LF); a CR that is not followed by LF stays in the piece. *)
Fixpoint split_newlines (s : string) : list string :=
  match s with
  | "" => [""]
  | String c s' =>
      let keep :=
        match split_newlines s' with
        | l :: ls => String c l :: ls
        | [] => [String c ""]
        end in
      if is_lf c then "" :: split_newlines s'
      else if is_cr c then
        match s' with
        | String d s'' => if is_lf d then "" :: split_newlines s'' else keep
        | "" => keep
        end
      else keep
  end.

(** [l.join(sep)]. *)
Fixpoint join (sep : string) (l : list string) : string :=
  match l with
  | [] => ""
  | [x] => x
  | x :: tl => x ++ sep ++ join sep tl
  end.

(** [s.toUpperCase()], code unit by code unit.  The letters a-z and
    the letters 224 to 254 of the upper half (247, the division sign,
    apart) move down by 32; 223, the sharp s, becomes [SS].  The upper
    case of 181 and of 255 lies above 255 (U+039C and U+0178): like
    the dash of the report title it is written with its UTF-8 bytes. *)
Definition upper_unit (c : ascii) : string :=
  let n := N_of_ascii c in
  if ((97 <=? n) && (n <=? 122))%N then String (ascii_of_N (n - 32)) ""
  else if ((224 <=? n) && (n <=? 254) && negb (n =? 247))%N
  then String (ascii_of_N (n - 32)) ""
  else if (n =? 223)%N then "SS"
  else if (n =? 181)%N then String (ascii_of_N 206) (String (ascii_of_N 156) "")
  else if (n =? 255)%N then String (ascii_of_N 197) (String (ascii_of_N 184) "")
  else String c "".

Fixpoint toUpperCase (s : string) : string :=
  match s with
  | "" => ""
  | String c s' => upper_unit c ++ toUpperCase s'
  end.

(** [s.toLowerCase()]: the letters A-Z and the letters 192 to 222 of
    the upper half (215, the multiplication sign, apart) move up by
    32; every other code unit below 256 is its own lower case. *)
Definition lower_char (c : ascii) : ascii :=
  let n := N_of_ascii c in
  if ((65 <=? n) && (n <=? 90))%N then ascii_of_N (n + 32)
  else if ((192 <=? n) && (n <=? 222) && negb (n =? 215))%N
  then ascii_of_N (n + 32)
  else c.

Fixpoint toLowerCase (s : string) : string :=
  match s with
  | "" => ""
  | String c s' => String (lower_char c) (toLowerCase s')
  end.

(** [s.includes(t)]. *)
Fixpoint includes (s t : string) : bool :=
  startsWith s t
  || match s with
     | "" => false
     | String _ s' => includes s' t
     end.

(** [s.padStart(n, '0')]. *)
Fixpoint zeros (n : nat) : string :=
  match n with O => "" | S k => String "0" (zeros k) end.

Definition padStart0 (n : nat) (s : string) : string :=
  zeros (n - String.length s) ++ s.

(** *** Numbers *)

Inductive number : Type :=
| NaN : number
| Infinity (negative : bool) : number
| Int (z : Z) : number.

(** [Number.isFinite(n)]. *)
Definition isFinite (n : number) : bool :=
  match n with Int _ => true | _ => false end.

(** [n >= k] for an integer literal [k]. *)
Definition geq (n : number) (k : Z) : bool :=
  match n with
  | NaN => false
  | Infinity negative => negb negative
  | Int z => k <=? z
  end.

(** Truthiness of a number: neither 0 nor NaN. *)
Definition truthy_num (n : number) : bool :=
  match n with
  | NaN => false
  | Infinity _ => true
  | Int z => negb (z =? 0)
  end.

(** Decimal numeral of an integer. *)
Definition string_of_Z (z : Z) : string :=
  NilZero.string_of_int (Z.to_int z).

(** [String(n)].  For an integer of magnitude below 10^21 JavaScript
    prints the decimal numeral. *)
Definition String_of_number (n : number) : string :=
  match n with
  | NaN => "NaN"
  | Infinity false => "Infinity"
  | Infinity true => "-Infinity"
  | Int z => string_of_Z z
  end.

(** The Number value of a mathematical integer: magnitudes from
    2^1024 - 2^970 on round to an infinity.  A finite value keeps the
    exact integer where JavaScript stores the nearest double; rounding
    is monotone and fixes every integer below 2^53, so comparisons with
    such integers are not affected. *)
Definition number_of_integer (z : Z) : number :=
  if Z.abs z <? 2 ^ 1024 - 2 ^ 970 then Int z else Infinity (z <? 0).

(** The digits at the front of [s], read in base 10 with [acc] as the
    value read so far; [None] when [s] does not start with a digit. *)
Fixpoint leading_digits (acc : option Z) (s : string) : option Z :=
  match s with
  | "" => acc
  | String c s' =>
      if is_digit c then
        leading_digits
          (Some (10 * match acc with Some a => a | None => 0 end + digit_value c)) s'
      else acc
  end.

(** [parseInt(s, 10)]: leading white space is skipped, one sign is
    read, then the longest run of decimal digits; no digit gives NaN. *)
Definition parseInt10 (s : string) : number :=
  let t := trimStart s in
  let '(negative, body) :=
    match t with
    | String c t' =>
        if Ascii.eqb c "-" then (true, t')
        else if Ascii.eqb c "+" then (false, t')
        else (false, t)
    | "" => (false, t)
    end in
  match leading_digits None body with
  | None => NaN
  | Some v => number_of_integer (if negative then - v else v)
  end.

(** A JSON scalar of type [string | number]. *)
Inductive scalar : Type :=
| Num (n : number)
| Str (s : string).

(** [String(v)]. *)
Definition String_of (v : scalar) : string :=
  match v with
  | Num n => String_of_number n
  | Str s => s
  end.

Definition truthy_scalar (v : scalar) : bool :=
  match v with
  | Num n => truthy_num n
  | Str s => truthy s
  end.

(** [a ?? b] on a possibly null or undefined value ([None]). *)
Definition nullish {A} (a : option A) (b : A) : A :=
  match a with Some v => v | None => b end.

(** [a ?? b] where [b] may be null or undefined as well. *)
Definition nullish_opt {A} (a b : option A) : option A :=
  match a with Some v => Some v | None => b end.

(** [s || d] on a possibly absent string. *)
Definition or_string (a : option string) (d : string) : string :=
  match a with
  | Some s => if truthy s then s else d
  | None => d
  end.

(** [a || b] on possibly absent strings, with an absent result when
    both are falsy and [b] is absent. *)
Definition or_opt (a b : option string) : option string :=
  match a with
  | Some s => if truthy s then Some s else b
  | None => b
  end.

(** *** Splitting at separators *)

(** The class [[\s,]]: white space or a comma. *)
Definition is_space_or_comma (c : ascii) : bool :=
  is_whitespace c || Ascii.eqb c ",".

(** [s.split(/[\s,]+/)].  The pattern matches a longest run of white
    space and commas; [in_run] tells that the code units before [s]
    ended in such a run, which then goes on.  The first piece is
    empty when [s] starts with a separator, the last one when it ends
    with one. *)
Fixpoint split_runs (in_run : bool) (s : string) : list string :=
  match s with
  | "" => [""]
  | String c s' =>
      if is_space_or_comma c then
        if in_run then split_runs true s' else "" :: split_runs true s'
      else
        match split_runs false s' with
        | l :: ls => String c l :: ls
        | [] => [String c ""]
        end
  end.

Definition split_space_comma (s : string) : list string := split_runs false s.

(** Where the matcher of [/\r?\n|,|\s+/] stands: between matches, in
    a run of white space matched by [\s+], or between the CR and the
    LF of a match of [\r?\n]. *)
Inductive SepState : Type := Between | InSpaces | AfterCR.

(** [s.split(/\r?\n|,|\s+/)].  At each position the alternatives are
    tried in order: a line end (CR LF, or LF), then a comma, then a
    longest run of white space, which may take line ends in. *)
Fixpoint split_line_comma_space (st : SepState) (s : string) : list string :=
  match s with
  | "" => [""]
  | String c s' =>
      let between :=
        if is_lf c then "" :: split_line_comma_space Between s'
        else if is_cr c && match s' with
                           | String d _ => is_lf d
                           | "" => false
                           end
        then "" :: split_line_comma_space AfterCR s'
        else if Ascii.eqb c "," then "" :: split_line_comma_space Between s'
        else if is_whitespace c then "" :: split_line_comma_space InSpaces s'
        else match split_line_comma_space Between s' with
             | l :: ls => String c l :: ls
             | [] => [String c ""]
             end in
      match st with
      | Between => between
      | InSpaces =>
          if is_whitespace c then split_line_comma_space InSpaces s'
          else between
      | AfterCR => split_line_comma_space Between s'
      end
  end.

End Js.

(* ================================================================== *)
(** ** utils/api.ts *)
(* ================================================================== *)

Module Api.

(** What [apiBase] reads from its surroundings: the build-time
    variable [VITE_API_BASE_URL], whether [window] is defined, the
    [API_BASE_URL] entry of local storage, and the [DEV] flag of
    [import.meta.env] (absent counts as false). *)
Record Env : Type := mkEnv {
  VITE_API_BASE_URL : option string;
  has_window : bool;
  stored_API_BASE_URL : option string;
  DEV : bool
}.

Definition apiBase (e : Env) : string :=
  let envBase := VITE_API_BASE_URL e in
  let storedBase :=
    if has_window e then Js.or_opt (stored_API_BASE_URL e) None else None in
  let devDefault := if DEV e then Some "http://127.0.0.1:8000" else None in
  let baseUrl := Js.or_opt (Js.or_opt envBase storedBase) devDefault in
  match baseUrl with
  | Some b =>
      if Js.truthy b
         && (Js.startsWith b "http://" || Js.startsWith b "https://")
      then Js.strip_trailing_slash b
      else ""
  | None => ""
  end.

(** The path with a leading slash. *)
Definition with_slash (path : string) : string :=
  if Js.startsWith path "/" then path else "/" ++ path.

Definition needsApiPrefix (p : string) : bool :=
  let isHealth := Js.startsWith p "/healthz" in
  negb isHealth && negb (Js.startsWith p "/api/").

Definition api (e : Env) (path : string) : string :=
  let base := apiBase e in
  let p := with_slash path in
  if Js.truthy base then
    base ++ (if needsApiPrefix p then "/api" else "") ++ p
  else
    (if needsApiPrefix p then "/api" else "") ++ p.

(** The interfaces of the module.  A field that may be missing, null
    or undefined is an [option]; the sources treat the three alike. *)
Record Metrics : Type := mkMetrics {
  findings_total : Js.number;
  findings_per_min : Js.number;
  started_jobs : option Js.number;
  completed_jobs : option Js.number;
  failed_jobs : option Js.number
}.

Record Job : Type := mkJob {
  id : Js.scalar;
  type : string;
  state : string;
  progress : Js.number;
  created_at : option string;
  targets : option (list string);
  domain : option string;
  base_url : option string
}.

(** [JobDetails extends Job]; the [config] object is not read by the
    dashboard. *)
Record JobDetails : Type := mkJobDetails {
  details_job : Job;
  error : option string
}.

(** [Finding], with the fields the dashboard reads through [any]
    ([kind], [code], [http_status], [content_type], [redirected_to]);
    its own [id] is not read. *)
Record Finding : Type := mkFinding {
  job_id : option Js.scalar;
  kind : option string;
  subdomain : option string;
  resolved_ips : option (list string);
  first_seen : option string;
  last_seen : option string;
  target : option string;
  port : option Js.number;
  status : option Js.scalar;
  code : option Js.scalar;
  http_status : option Js.scalar;
  banner : option string;
  url : option string;
  length : option Js.number;
  title : option string;
  content_type : option string;
  redirected_to : option string
}.

(** A create-job request (the scan request types of the module, sent
    by POST): what is kept is its URL, the [authorized] flag it
    carries, the [wordlist] of a JSON body and the uploaded file of a
    multipart body. *)
Record ScanPost : Type := mkScanPost {
  post_url : string;
  post_authorized : bool;
  post_wordlist : option (list string);
  post_file : option string
}.

(** [fetchJson]'s view of one HTTP exchange: the request fails before a
    response arrives, or a response arrives with its [ok] flag and a
    body that [response.json()] turns into a value or rejects. *)
Inductive Exchange (A : Type) : Type :=
| NetworkError
| Response (ok : bool) (json : option A).

Arguments NetworkError {A}.
Arguments Response {A} ok json.

(** The [ok] flag seen by [fetch(...)] followed by [res.ok]; [None]
    when [fetch] rejects. *)
Definition fetch_ok {A} (x : Exchange A) : option bool :=
  match x with
  | NetworkError => None
  | Response ok _ => Some ok
  end.

(** [fetchJson]: the parsed body, or [None] when it throws (no
    response, a response that is not ok, or a body that is not JSON). *)
Definition fetchJson {A} (x : Exchange A) : option A :=
  match x with
  | NetworkError => None
  | Response ok body => if ok then body else None
  end.

End Api.

(* ================================================================== *)
(** ** utils/date.ts *)
(* ================================================================== *)

Module DateUtil.

(** What the JavaScript host decides for dates: [Date.parse] on a
    string (a time value in milliseconds, or [None] for NaN) and the
    offset of local time from UTC, in milliseconds, at a time value. *)
Record Host : Type := mkHost {
  date_parse : string -> option Z;
  local_offset : Z -> Z
}.

(** [DateLike = string | number | Date | null | undefined].  A [Date]
    carries its time value, [None] for an invalid date. *)
Inductive DateLike : Type :=
| DNull
| DUndefined
| DString (s : string)
| DNumber (n : Js.number)
| DDate (tv : option Z).

Record Opts : Type := mkOpts {
  utc : option bool;
  fallback : option string
}.

(** *** ECMAScript time values *)

Definition msPerDay : Z := 86400000.

(** TimeClip on the numbers of the model. *)
Definition TimeClip (n : Js.number) : option Z :=
  match n with
  | Js.Int z => if Z.abs z <=? 8640000000000000 then Some z else None
  | _ => None
  end.

Definition Day (t : Z) : Z := t / msPerDay.

(** Year, month (1-12) and day of the month (1-31) of a day number
    counted from 1970-01-01, in the proleptic Gregorian calendar. *)
Definition civil_from_days (z0 : Z) : Z * Z * Z :=
  let z := z0 + 719468 in
  let era := z / 146097 in
  let doe := z - era * 146097 in
  let yoe := (doe - doe / 1460 + doe / 36524 - doe / 146096) / 365 in
  let y := yoe + era * 400 in
  let doy := doe - (365 * yoe + yoe / 4 - yoe / 100) in
  let mp := (5 * doy + 2) / 153 in
  let d := doy - (153 * mp + 2) / 5 + 1 in
  let m := if mp <? 10 then mp + 3 else mp - 9 in
  (if m <=? 2 then y + 1 else y, m, d).

Definition YearFromTime (t : Z) : Z := fst (fst (civil_from_days (Day t))).
(** MonthFromTime counts from 0. *)
Definition MonthFromTime (t : Z) : Z := snd (fst (civil_from_days (Day t))) - 1.
Definition DateFromTime (t : Z) : Z := snd (civil_from_days (Day t)).
Definition HourFromTime (t : Z) : Z := (t / 3600000) mod 24.
Definition MinFromTime (t : Z) : Z := (t / 60000) mod 60.
Definition SecFromTime (t : Z) : Z := (t / 1000) mod 60.

Definition LocalTime (h : Host) (t : Z) : Z := t + local_offset h t.

(** [value instanceof Date ? value : new Date(value)], as the time
    value of the resulting date; [null] and [undefined] do not reach
    this point in [formatDateTime]. *)
Definition new_Date (h : Host) (value : DateLike) : option Z :=
  match value with
  | DDate tv => tv
  | DString s => date_parse h s
  | DNumber n => TimeClip n
  | DNull => Some 0
  | DUndefined => None
  end.

(** *** The module's functions *)

Definition pad (n : Z) : string := Js.padStart0 2 (Js.string_of_Z n).

Definition opt_utc (opts : option Opts) : option bool :=
  match opts with Some o => utc o | None => None end.

Definition opt_fallback (opts : option Opts) : option string :=
  match opts with Some o => fallback o | None => None end.

Definition formatDateTime (host : Host) (value : DateLike)
    (opts : option Opts) : string :=
  let utc := Js.nullish (opt_utc opts) false in
  let fallback := Js.nullish (opt_fallback opts) "N/A" in
  match value with
  | DNull | DUndefined => fallback
  | _ =>
      match new_Date host value with
      | None => fallback
      | Some t =>
          let lt := LocalTime host t in
          let Y := if utc then YearFromTime t else YearFromTime lt in
          let M := pad ((if utc then MonthFromTime t else MonthFromTime lt) + 1) in
          let D := pad (if utc then DateFromTime t else DateFromTime lt) in
          let h := pad (if utc then HourFromTime t else HourFromTime lt) in
          let m := pad (if utc then MinFromTime t else MinFromTime lt) in
          let s := pad (if utc then SecFromTime t else SecFromTime lt) in
          Js.string_of_Z Y ++ "-" ++ M ++ "-" ++ D ++ " " ++ h ++ ":" ++ m
            ++ ":" ++ s ++ (if utc then " UTC" else "")
      end
  end.

End DateUtil.

(* ================================================================== *)
(** ** components/Dashboard.tsx (viz-recon-main) *)
(* ================================================================== *)

Module Viz.

Import Api.

(** The dash and the bullet of the report title, as UTF-8 bytes. *)
Definition em_dash : string :=
  String "226" (String "128" (String "148" "")).
Definition bullet : string :=
  String "226" (String "128" (String "162" "")).

(** *** JobDetailsModal *)

Record DirFilter : Type := mkDirFilter {
  filter_text : string;
  filter_status : string
}.

(** The state of the modal: [job], [findings], [dirFilter]. *)
Record Modal : Type := mkModal {
  modal_job : option JobDetails;
  modal_findings : list Finding;
  dirFilter : DirFilter
}.

(** The modal as mounted: [initial] job with an empty [config] and no
    [error], no findings, the empty filter. *)
Definition modal_init (initial : option Job) : Modal :=
  mkModal
    (match initial with
     | Some j => Some (mkJobDetails j None)
     | None => None
     end)
    [] (mkDirFilter "" "").

Definition expectedKind (jobData : JobDetails) : option string :=
  let ty := type (details_job jobData) in
  if (ty =? "dirs")%string then Some "dir"
  else if (ty =? "ports")%string then Some "port"
  else if (ty =? "subdomains")%string then Some "subdomain"
  else None.

(** [f?.kind === expectedKind]. *)
Definition kind_is (f : Finding) (k : string) : bool :=
  match kind f with
  | Some k' => (k' =? k)%string
  | None => false
  end.

(** The defensive filter of [refresh]. *)
Definition purified (jobId : Js.scalar) (jobData : JobDetails)
    (findingsData : option (list Finding)) : list Finding :=
  let sid := Js.String_of jobId in
  let expectedKind := expectedKind jobData in
  filter
    (fun f =>
       (Js.String_of (Js.nullish (job_id f) (Js.Str "")) =? sid)%string
       && match expectedKind with
          | None => true
          | Some k => kind_is f k
          end)
    (Js.nullish findingsData []).

(** [refresh]: both requests are awaited together; when either throws
    the state is left as it is, otherwise the job and the purified
    findings are stored.  The body of the findings response is an
    array or null. *)
Definition refresh (jobId : Js.scalar) (st : Modal)
    (job_x : Exchange JobDetails)
    (findings_x : Exchange (option (list Finding))) : Modal :=
  match fetchJson job_x, fetchJson findings_x with
  | Some jobData, Some findingsData =>
      mkModal (Some jobData) (purified jobId jobData findingsData)
        (dirFilter st)
  | _, _ => st
  end.

(** The number tested by the status bucket: [raw] itself when it is a
    number, [parseInt(String(raw ?? ''), 10)] otherwise. *)
Definition status_number (raw : option Js.scalar) : Js.number :=
  match raw with
  | Some (Js.Num n) => n
  | _ => Js.parseInt10 (Js.String_of (Js.nullish raw (Js.Str "")))
  end.

Definition bucket (s : Js.number) : string :=
  if Js.isFinite s then
    if Js.geq s 500 then "5xx"
    else if Js.geq s 400 then "4xx"
    else if Js.geq s 300 then "3xx"
    else "2xx"
  else "".

(** The predicate of [findings.filter] in the table body of a dirs
    job. *)
Definition dir_row_shown (flt : DirFilter) (f : Finding) : bool :=
  let raw := status f in
  let s := status_number raw in
  let bucket := bucket s in
  let statusOk :=
    negb (Js.truthy (filter_status flt))
    || (filter_status flt =? bucket)%string in
  let t := Js.toLowerCase (Js.trim (filter_text flt)) in
  let textOk :=
    negb (Js.truthy t)
    || Js.includes
         (Js.toLowerCase
            (Js.join " "
               [Js.or_string (url f) ""; Js.or_string (title f) "";
                Js.or_string (content_type f) ""]))
         t in
  statusOk && textOk.

(** [job?.type]: the type of the stored job, if any. *)
Definition modal_type (st : Modal) : option string :=
  match modal_job st with
  | Some jd => Some (type (details_job jd))
  | None => None
  end.

(** The findings mapped to table rows. *)
Definition rows_shown (st : Modal) : list Finding :=
  match modal_type st with
  | Some "dirs" => filter (dir_row_shown (dirFilter st)) (modal_findings st)
  | _ => modal_findings st
  end.

(** The status cell of a dirs row: the bucket that picks the colours
    and the label. *)
Definition status_cell (finding : Finding) : string * string :=
  let raw :=
    Js.nullish_opt (status finding)
      (Js.nullish_opt (code finding) (http_status finding)) in
  let s := status_number raw in
  let isNum := Js.isFinite s in
  let bucket := bucket s in
  let label :=
    if isNum then Js.String_of_number s
    else match raw with
         | Some v => Js.String_of v
         | None => "N/A"
         end in
  (bucket, label).

(** *** Dashboard: reports *)

Section Reports.

Variable env : Env.
Variable host : DateUtil.Host.

Definition formatJobLabel (j : Job) : string :=
  let when :=
    match created_at j with
    | Some c =>
        if Js.truthy c then DateUtil.formatDateTime host (DateUtil.DString c) None
        else ""
    | None => ""
    end in
  if (type j =? "dirs")%string then
    Js.or_string (base_url j) "URL" ++ " " ++ bullet ++ " " ++ when
  else if (type j =? "subdomains")%string then
    Js.or_string (domain j) "Domain" ++ " " ++ bullet ++ " " ++ when
  else if (type j =? "ports")%string then
    Js.or_string
      (match targets j with
       | Some (t0 :: _) => Some t0
       | _ => None
       end) "Targets" ++ " " ++ bullet ++ " " ++ when
  else Js.String_of (id j) ++ " " ++ bullet ++ " " ++ when.

Record Table : Type := mkTable {
  headers : list string;
  rows : list (list string)
}.

(** [String(v ?? '')] and [String(v || '')]. *)
Definition string_or_empty (v : option Js.scalar) : string :=
  Js.String_of (Js.nullish v (Js.Str "")).

Definition number_or_empty (v : option Js.number) : string :=
  match v with
  | Some n => Js.String_of_number n
  | None => ""
  end.

Definition truthy_or_empty (v : option Js.scalar) : string :=
  match v with
  | Some x => if Js.truthy_scalar x then Js.String_of x else ""
  | None => ""
  end.

(** [v ? formatDateTime(v) : '']. *)
Definition seen (v : option string) : string :=
  match v with
  | Some c =>
      if Js.truthy c then DateUtil.formatDateTime host (DateUtil.DString c) None
      else ""
  | None => ""
  end.

Definition dirs_row (f : Finding) : list string :=
  [ Js.or_string (url f) "";
    string_or_empty
      (Js.nullish_opt (status f) (Js.nullish_opt (code f) (http_status f)));
    number_or_empty (length f);
    Js.or_string (title f) "";
    Js.or_string (content_type f) "";
    Js.nullish (redirected_to f) "" ].

Definition ports_row (f : Finding) : list string :=
  [ Js.or_string (target f) "";
    number_or_empty (port f);
    truthy_or_empty (status f);
    Js.or_string (banner f) "" ].

Definition subdomains_row (f : Finding) : list string :=
  [ Js.or_string (subdomain f) "";
    match resolved_ips f with
    | Some ips => Js.join ", " ips
    | None => ""
    end;
    seen (first_seen f);
    seen (last_seen f) ].

Definition buildReportTable (job : Job) (findings : list Finding) : Table :=
  if (type job =? "dirs")%string then
    let headers := ["URL"; "Status"; "Length"; "Title"; "Type"; "Redirect"] in
    let rows := map dirs_row findings in
    mkTable headers rows
  else if (type job =? "ports")%string then
    let headers := ["Target"; "Port"; "Status"; "Banner"] in
    let rows := map ports_row findings in
    mkTable headers rows
  else
    let headers := ["Subdomain"; "IPs"; "First Seen"; "Last Seen"] in
    let rows := map subdomains_row findings in
    mkTable headers rows.

(** The surroundings of an export: the clock, the backend's answer to
    a GET of a findings URL as the n-th request of the page, and what
    the page has done so far (requests, downloads, toasts). *)
Record World : Type := mkWorld {
  now : Z;
  findings_endpoint : string -> nat -> Exchange (option (list Finding));
  requests : list string;
  downloads : list (string * string);
  toasts : list string
}.

(** State passing over the world. *)
Definition M (A : Type) : Type := World -> A * World.

Definition ret {A} (a : A) : M A := fun w => (a, w).

Definition bind {A B} (m : M A) (k : A -> M B) : M B :=
  fun w => let (a, w') := m w in k a w'.

Notation "x <- m ;; k" := (bind m (fun x => k))
  (at level 61, m at next level, right associativity).
Notation "m ;;; k" := (bind m (fun _ => k))
  (at level 61, right associativity).

Definition Date_now : M Z := fun w => (now w, w).

(** [fetchJson<Finding[]>(url)]: the request is logged and answered. *)
Definition fetch_findings (url : string)
  : M (option (option (list Finding))) :=
  fun w =>
    (fetchJson (findings_endpoint w url (List.length (requests w))),
     mkWorld (now w) (findings_endpoint w) (requests w ++ [url])
       (downloads w) (toasts w)).

Definition downloadBlob (content filename : string) : M unit :=
  fun w =>
    (tt, mkWorld (now w) (findings_endpoint w) (requests w)
           (downloads w ++ [(filename, content)]) (toasts w)).

Definition toast (message : string) : M unit :=
  fun w =>
    (tt, mkWorld (now w) (findings_endpoint w) (requests w) (downloads w)
           (toasts w ++ [message])).

Definition report_title (job : Job) : string :=
  "# ReconX Report " ++ em_dash ++ " " ++ Js.toUpperCase (type job)
    ++ " (" ++ formatJobLabel job ++ ")".

(** The lines pushed by [exportTXT] for a table, at time value [t]. *)
Definition report_lines (job : Job) (table : Table) (t : Z) : list string :=
  [ report_title job;
    "Generated: "
      ++ DateUtil.formatDateTime host (DateUtil.DDate (Some t)) None;
    "";
    Js.join (String Js.TAB "") (headers table) ]
  ++ map (fun row => Js.join (String Js.TAB "") row) (rows table).

Definition findings_url (job : Job) (t : Z) : string :=
  api env ("/jobs/" ++ Js.String_of (id job) ++ "/findings")
    ++ "?t=" ++ Js.string_of_Z t.

(** [exportTXT]: a thrown error (the request fails, or the body is
    null where an array is mapped) ends in the error toast. *)
Definition exportTXT (job : Job) : M unit :=
  t0 <- Date_now ;;
  r <- fetch_findings (findings_url job t0) ;;
  match r with
  | Some (Some data) =>
      let table := buildReportTable job data in
      t1 <- Date_now ;;
      let lines := report_lines job table t1 in
      downloadBlob (Js.join (String Js.LF "") lines)
        ("reconx_" ++ type job ++ "_" ++ Js.String_of (id job) ++ ".txt") ;;;
      toast "TXT exported"
  | _ => toast "TXT export failed"
  end.

End Reports.

(** *** Dashboard: polling and job controls *)

(** The part of the dashboard state read below. *)
Record Dash : Type := mkDash {
  metrics : option Metrics;
  jobs : list Job;
  isBackendOnline : bool;
  rightPanelTab : string
}.

Definition setIsBackendOnline (b : bool) (st : Dash) : Dash :=
  mkDash (metrics st) (jobs st) b (rightPanelTab st).

Definition setMetrics (m : Metrics) (st : Dash) : Dash :=
  mkDash (Some m) (jobs st) (isBackendOnline st) (rightPanelTab st).

(** [fetchMetrics], given the exchanges for the metrics URL and for
    the health URL (the second is requested only in the fallback). *)
Definition fetchMetrics (st : Dash) (metrics_x : Exchange Metrics)
    (health_x : Exchange unit) : Dash :=
  match fetchJson metrics_x with
  | Some data => setIsBackendOnline true (setMetrics data st)
  | None =>
      match fetch_ok health_x with
      | Some res_ok =>
          if res_ok then setIsBackendOnline true st
          else setIsBackendOnline false st
      | None => setIsBackendOnline false st
      end
  end.

Definition setJobs (js : list Job) (st : Dash) : Dash :=
  mkDash (metrics st) js (isBackendOnline st) (rightPanelTab st).

(** [fetchJobs]: the jobs list is replaced when the request succeeds. *)
Definition fetchJobs (st : Dash) (jobs_x : Exchange (list Job)) : Dash :=
  match fetchJson jobs_x with
  | Some data => setJobs data st
  | None => st
  end.

(** One tick of the polling effect: [fetchMetrics] and [fetchJobs]. *)
Definition poll (st : Dash) (metrics_x : Exchange Metrics)
    (health_x : Exchange unit) (jobs_x : Exchange (list Job)) : Dash :=
  fetchJobs (fetchMetrics st metrics_x health_x) jobs_x.

(** The URL of the fallback health request. *)
Definition healthUrl (env : Env) : string :=
  let base := apiBase env in
  if Js.truthy base then base ++ "/healthz" else "/healthz".

Inductive Action : Type := pause | resume | cancel.

Definition action_name (a : Action) : string :=
  match a with
  | pause => "pause"
  | resume => "resume"
  | cancel => "cancel"
  end.

Definition Action_eqb (a b : Action) : bool :=
  match a, b with
  | pause, pause | resume, resume | cancel, cancel => true
  | _, _ => false
  end.

(** The control buttons rendered for a job of the right panel, in the
    order of the markup. *)
Definition job_controls (rightPanelTab : string) (job : Job) : list Action :=
  (if (rightPanelTab =? "jobs")%string && (state job =? "running")%string
   then [pause] else [])
  ++ (if (rightPanelTab =? "jobs")%string && (state job =? "paused")%string
      then [resume] else [])
  ++ (if (rightPanelTab =? "jobs")%string
         && ((state job =? "running")%string || (state job =? "paused")%string)
      then [cancel] else []).

(** The URL posted by [handleJobAction]. *)
Definition handleJobAction (env : Env) (jobId : Js.scalar) (action : Action)
  : string :=
  api env ("/jobs/" ++ Js.String_of jobId ++ "/" ++ action_name action).

(** A click on the control [a] of a job card: only a rendered button
    can be clicked, and its handler posts the action. *)
Definition click_control (env : Env) (rightPanelTab : string) (job : Job)
    (a : Action) : option string :=
  if existsb (Action_eqb a) (job_controls rightPanelTab job)
  then Some (handleJobAction env (id job) a)
  else None.

(** The job cards of the right panel outside the report tab. *)
Definition jobs_shown (st : Dash) (resultsTab : string) : list Job :=
  if (rightPanelTab st =? "jobs")%string then jobs st
  else filter (fun j => (type j =? resultsTab)%string) (jobs st).

(** *** Dashboard: new scans *)

(** The form fields read by the guards and the handlers below; the
    tuning fields (concurrency, timeout, ports, extensions, ...) are
    copied into the request and left out here. *)
Record SubdomainForm : Type := mkSubdomainForm {
  sub_domain : string;
  sub_authorized : bool;
  useResolversFile : bool
}.

Record PortForm : Type := mkPortForm {
  port_targets : string;
  port_authorized : bool;
  useTargetsFile : bool;
  usePortsFile : bool
}.

Record DirForm : Type := mkDirForm {
  dir_base_url : string;
  dir_authorized : bool;
  useUpload : bool;
  wordlistText : string
}.

(** The [disabled] attribute of the three submit buttons. *)
Definition subdomain_disabled (f : SubdomainForm) : bool :=
  negb (Js.truthy (sub_domain f)) || negb (sub_authorized f).

Definition port_disabled (f : PortForm) : bool :=
  negb (Js.truthy (port_targets f)) || negb (port_authorized f).

Definition dir_disabled (f : DirForm) : bool :=
  negb (Js.truthy (dir_base_url f)) || negb (dir_authorized f).

(** The handlers: [None] when the handler throws before a request is
    made (a file mode without a chosen file). *)
Definition handleSubdomainScan (env : Env) (f : SubdomainForm)
    (resolvers_file : option string) : option ScanPost :=
  match useResolversFile f, resolvers_file with
  | true, None => None
  | _, _ =>
      Some (mkScanPost (api env "/recon/subdomains/scan") (sub_authorized f)
              None None)
  end.

Definition handlePortScan (env : Env) (f : PortForm)
    (targets_file ports_file : option string) : option ScanPost :=
  match useTargetsFile f, targets_file with
  | true, None => None
  | _, _ =>
      match usePortsFile f, ports_file with
      | true, None => None
      | _, _ =>
          Some (mkScanPost (api env "/recon/ports/scan") (port_authorized f)
                  None None)
      end
  end.

Definition handleDirScan (env : Env) (f : DirForm)
    (wordlist_file : option string) : option ScanPost :=
  if useUpload f && Js.truthy (wordlistText f) then
    Some (mkScanPost (api env "/recon/dirs/scan") (dir_authorized f)
            (Some (filter Js.truthy
                     (map Js.trim (Js.split_newlines (wordlistText f)))))
            None)
  else if useUpload f then
    match wordlist_file with
    | None => None
    | Some file =>
        Some (mkScanPost (api env "/recon/dirs/scan/upload")
                (dir_authorized f) None (Some file))
    end
  else
    Some (mkScanPost (api env "/recon/dirs/scan") (dir_authorized f) None None).

(** A click on a submit button: a disabled button submits nothing. *)
Definition click_subdomain_scan (env : Env) (f : SubdomainForm)
    (resolvers_file : option string) : option ScanPost :=
  if subdomain_disabled f then None
  else handleSubdomainScan env f resolvers_file.

Definition click_port_scan (env : Env) (f : PortForm)
    (targets_file ports_file : option string) : option ScanPost :=
  if port_disabled f then None
  else handlePortScan env f targets_file ports_file.

Definition click_dir_scan (env : Env) (f : DirForm)
    (wordlist_file : option string) : option ScanPost :=
  if dir_disabled f then None
  else handleDirScan env f wordlist_file.

(** *** Dashboard: the lists of a new scan *)

(** The resolvers read from a file, and the resolvers typed into the
    form. *)
Definition resolvers_of_file (txt : string) : list string :=
  filter Js.truthy (map Js.trim (Js.split_line_comma_space Js.Between txt)).

Definition resolvers_of_text (resolvers : string) : list string :=
  filter Js.truthy (map Js.trim (Js.split_char "," resolvers)).

(** The [resolvers] of the request of [handleSubdomainScan], for the
    form's [resolvers] text: [None] when the handler throws, [Some
    None] when the request has no such field. *)
Definition request_resolvers (f : SubdomainForm) (resolvers : string)
    (resolvers_file : option string) : option (option (list string)) :=
  if useResolversFile f then
    match resolvers_file with
    | None => None
    | Some txt => Some (Some (resolvers_of_file txt))
    end
  else if Js.truthy resolvers then Some (Some (resolvers_of_text resolvers))
  else Some None.

(** The [targets] of the request of [handlePortScan]: the text of the
    form or of the chosen file, split; [None] when the handler throws. *)
Definition targets_of (targetsStr : string) : list string :=
  filter Js.truthy (map Js.trim (Js.split_space_comma targetsStr)).

Definition request_targets (f : PortForm) (targets_file : option string)
  : option (list string) :=
  if useTargetsFile f then
    match targets_file with
    | None => None
    | Some txt => Some (targets_of txt)
    end
  else Some (targets_of (port_targets f)).

(** The [ports] of that request, for the form's [ports] text: absent
    for an empty text, else the numbers read from its pieces. *)
Definition ports_of (portsStr : string) : option (list Js.number) :=
  if Js.truthy portsStr then
    Some (filter Js.isFinite
            (map (fun p => Js.parseInt10 (Js.trim p))
               (Js.split_space_comma portsStr)))
  else None.

Definition request_ports (f : PortForm) (ports : string)
    (ports_file : option string) : option (option (list Js.number)) :=
  if usePortsFile f then
    match ports_file with
    | None => None
    | Some txt => Some (ports_of txt)
    end
  else Some (ports_of ports).

(** *** Dashboard: actions on a job *)

(** [a === b] on two ids. *)
Definition strict_eq (a b : Js.scalar) : bool :=
  match a, b with
  | Js.Str x, Js.Str y => (x =? y)%string
  | Js.Num (Js.Int x), Js.Num (Js.Int y) => x =? y
  | Js.Num (Js.Infinity s), Js.Num (Js.Infinity s') => Bool.eqb s s'
  | _, _ => false
  end.

(** The dashboard with the job of the open modal and the toasts shown
    so far. *)
Record Page : Type := mkPage {
  page_dash : Dash;
  selectedJob : option Job;
  notices : list string
}.

Definition notify (message : string) (st : Page) : Page :=
  mkPage (page_dash st) (selectedJob st) (notices st ++ [message]).

Definition refresh_jobs (jobs_x : Exchange (list Job)) (st : Page) : Page :=
  mkPage (fetchJobs (page_dash st) jobs_x) (selectedJob st) (notices st).

(** [handleJobAction], given the exchange of its POST and the exchange
    of the [fetchJobs] that follows a success. *)
Definition handleJobAction_run (st : Page) (action : Action)
    (action_x : Exchange unit) (jobs_x : Exchange (list Job)) : Page :=
  match fetchJson action_x with
  | Some _ =>
      refresh_jobs jobs_x
        (notify ("Job " ++ action_name action ++ " requested") st)
  | None => notify ("Failed to " ++ action_name action ++ " job") st
  end.

(** [handleDeleteJob]: the DELETE goes through [fetch], whose answer
    is not looked at. *)
Definition handleDeleteJob (st : Page) (jobId : Js.scalar)
    (delete_x : Exchange unit) (jobs_x : Exchange (list Job)) : Page :=
  match fetch_ok delete_x with
  | Some _ =>
      let st' := refresh_jobs jobs_x (notify "Job deleted" st) in
      if match selectedJob st with
         | Some j => strict_eq (id j) jobId
         | None => false
         end
      then mkPage (page_dash st') None (notices st')
      else st'
  | None => notify "Failed to delete job" st
  end.

(** *** JobDetailsModal: the cells of a row *)

(** A cell shows a string or a number as its text and nothing for a
    value that is missing.  [{x || 'N/A'}] on a string: *)
Definition or_na (s : string) : string := if Js.truthy s then s else "N/A".

Definition subdomain_cells (host : DateUtil.Host) (finding : Finding)
  : list string :=
  [ Js.nullish (subdomain finding) "";
    or_na match resolved_ips finding with
          | Some ips => Js.join ", " ips
          | None => ""
          end;
    match first_seen finding with
    | Some c =>
        if Js.truthy c
        then DateUtil.formatDateTime host (DateUtil.DString c) None
        else "N/A"
    | None => "N/A"
    end;
    match last_seen finding with
    | Some c =>
        if Js.truthy c
        then DateUtil.formatDateTime host (DateUtil.DString c) None
        else "N/A"
    | None => "N/A"
    end ].

Definition port_cells (finding : Finding) : list string :=
  [ Js.nullish (target finding) "";
    number_or_empty (port finding);
    string_or_empty (status finding);
    Js.or_string (banner finding) "N/A" ].

Definition dir_cells (finding : Finding) : list string :=
  [ Js.nullish (url finding) "";
    snd (status_cell finding);
    match length finding with
    | Some n => if Js.truthy_num n then Js.String_of_number n else "N/A"
    | None => "N/A"
    end;
    Js.or_string (title finding) "N/A";
    Js.or_string (content_type finding) "N/A";
    Js.nullish (redirected_to finding) "N/A" ].

(** *** Dashboard: the form after a scan request *)

(** The three handlers through their request: the request made, if
    any, and the form afterwards.  The form is reset when the backend
    accepts the request (an ok answer with a JSON body) and left as it
    is when the handler throws. *)
Definition handleSubdomainScan_run (env : Env) (f : SubdomainForm)
    (resolvers_file : option string) (scan_x : Exchange Z)
  : option ScanPost * SubdomainForm :=
  match handleSubdomainScan env f resolvers_file with
  | None => (None, f)
  | Some r =>
      (Some r,
       match fetchJson scan_x with
       | Some _ => mkSubdomainForm "" false false
       | None => f
       end)
  end.

Definition handlePortScan_run (env : Env) (f : PortForm)
    (targets_file ports_file : option string) (scan_x : Exchange Z)
  : option ScanPost * PortForm :=
  match handlePortScan env f targets_file ports_file with
  | None => (None, f)
  | Some r =>
      (Some r,
       match fetchJson scan_x with
       | Some _ => mkPortForm "" false false false
       | None => f
       end)
  end.

Definition handleDirScan_run (env : Env) (f : DirForm)
    (wordlist_file : option string) (scan_x : Exchange Z)
  : option ScanPost * DirForm :=
  match handleDirScan env f wordlist_file with
  | None => (None, f)
  | Some r =>
      (Some r,
       match fetchJson scan_x with
       | Some _ =>
           if useUpload f && Js.truthy (wordlistText f)
           then mkDirForm "" false (useUpload f) ""
           else mkDirForm "" false (useUpload f) (wordlistText f)
       | None => f
       end)
  end.

End Viz.

(* ================================================================== *)
(** ** modules/Dashboard.tsx (reconx/ui) *)
(* ================================================================== *)

Module Ui.

Import Api.

(** [/^https?:\/\//i.test(raw)]. *)
Definition is_absolute (raw : string) : bool :=
  let l := Js.toLowerCase raw in
  Js.startsWith l "http://" || Js.startsWith l "https://".

Definition API_BASE (RAW_API_BASE : option string) : string :=
  match RAW_API_BASE with
  | Some raw => if Js.truthy raw && is_absolute raw then raw else ""
  | None => ""
  end.

Definition api (RAW_API_BASE : option string) (path : string) : string :=
  if Js.truthy (API_BASE RAW_API_BASE)
  then Js.strip_trailing_slash (API_BASE RAW_API_BASE) ++ path
  else path.

(** [useBackendHealth]: the value given to [setOnline] by one [check]. *)
Definition check (health_x : Exchange unit) : bool :=
  match fetch_ok health_x with
  | Some r_ok => r_ok
  | None => false
  end.

Inductive Kind : Type := subdomains | ports | dirs.

Definition kind_name (k : Kind) : string :=
  match k with
  | subdomains => "subdomains"
  | ports => "ports"
  | dirs => "dirs"
  end.

(** The form of [NewScan], with the fields read by [valid] and by the
    work list of [submit]. *)
Record Form : Type := mkForm {
  authorized : bool;
  domain : option string;
  targets : option (list string);
  base_url : option string;
  useUpload : bool;
  wordlistText : string
}.

Definition truthy_opt (s : option string) : bool :=
  match s with
  | Some x => Js.truthy x
  | None => false
  end.

Definition valid (kind : Kind) (form : Form) : bool :=
  authorized form
  && ((match kind with subdomains => true | _ => false end
       && truthy_opt (domain form))
      || (match kind with ports => true | _ => false end
          && match targets form with
             | Some l => (0 <? Z.of_nat (List.length l))
             | None => false
             end)
      || (match kind with dirs => true | _ => false end
          && truthy_opt (base_url form))).

(** [submit]: [None] when it throws before a request is made. *)
Definition submit (RAW_API_BASE : option string) (kind : Kind) (form : Form)
    (wordlist_file : option string) : option ScanPost :=
  if match kind with dirs => true | _ => false end && useUpload form then
    match wordlist_file with
    | None => None
    | Some file =>
        Some (mkScanPost (api RAW_API_BASE "/api/recon/dirs/scan/upload")
                (authorized form) None (Some file))
    end
  else
    let wordlist :=
      match kind with
      | dirs =>
          if Js.truthy (wordlistText form)
          then Some (filter Js.truthy
                       (map Js.trim (Js.split_newlines (wordlistText form))))
          else None
      | _ => None
      end in
    Some (mkScanPost
            (api RAW_API_BASE ("/api/recon/" ++ kind_name kind ++ "/scan"))
            (authorized form) wordlist None).

(** A click on Start Scan: the button is disabled when the form is
    not valid or a submission is under way. *)
Definition click_start (RAW_API_BASE : option string) (kind : Kind)
    (form : Form) (submitting : bool) (wordlist_file : option string)
  : option ScanPost :=
  if negb (valid kind form) || submitting then None
  else submit RAW_API_BASE kind form wordlist_file.

(** *** NewScan: the inputs and the presets *)

(** The [onChange] handlers of the authorization box and of the three
    target inputs: each stores its value in the form. *)
Definition set_authorized (checked : bool) (form : Form) : Form :=
  mkForm checked (domain form) (targets form) (base_url form)
    (useUpload form) (wordlistText form).

Definition set_domain (value : string) (form : Form) : Form :=
  mkForm (authorized form) (Some value) (targets form) (base_url form)
    (useUpload form) (wordlistText form).

Definition set_targets (value : string) (form : Form) : Form :=
  mkForm (authorized form) (domain form)
    (Some (filter Js.truthy (map Js.trim (Js.split_char "," value))))
    (base_url form) (useUpload form) (wordlistText form).

Definition set_base_url (value : string) (form : Form) : Form :=
  mkForm (authorized form) (domain form) (targets form) (Some value)
    (useUpload form) (wordlistText form).

(** The form of [NewScan] when the component mounts. *)
Definition initial_form : Form := mkForm false None None None false "".

Inductive Preset : Type := Safe | Standard | Aggressive.

(** The fields of the form that the presets write: [concurrency],
    [timeout] and [ports]. *)
Record Tuning : Type := mkTuning {
  tune_concurrency : option Z;
  tune_timeout : option Z;
  tune_ports : option (list Z)
}.

(** [applyPreset]: [p] starts as [{ authorized: form.authorized }],
    takes the fields of the preset for the kind, and is spread over
    the form. *)
Definition applyPreset (kind : Kind) (name : Preset) (st : Form * Tuning)
  : Form * Tuning :=
  let (form, tuning) := st in
  let p_authorized := authorized form in
  let tuning' :=
    match kind, name with
    | subdomains, Safe => mkTuning (Some 25) (Some 20) (tune_ports tuning)
    | subdomains, Standard => mkTuning (Some 50) (Some 30) (tune_ports tuning)
    | subdomains, Aggressive => mkTuning (Some 150) (Some 45) (tune_ports tuning)
    | ports, Safe =>
        mkTuning (tune_concurrency tuning) (Some 2) (Some [80; 443; 22])
    | ports, Standard =>
        mkTuning (tune_concurrency tuning) (Some 5)
          (Some [80; 443; 22; 3389; 8080; 8443])
    | ports, Aggressive =>
        mkTuning (tune_concurrency tuning) (Some 3)
          (Some [80; 443; 22; 3389; 8080; 8443; 53; 25; 110; 143])
    | dirs, Safe => mkTuning (tune_concurrency tuning) (Some 10) (tune_ports tuning)
    | dirs, Standard => mkTuning (tune_concurrency tuning) (Some 15) (tune_ports tuning)
    | dirs, Aggressive => mkTuning (tune_concurrency tuning) (Some 20) (tune_ports tuning)
    end in
  (set_authorized p_authorized form, tuning').

(** What a request of [submit] carries of the tuning fields.  The
    JSON body is the form spread out, [{ ...form }], so it has the
    three fields as they stand in the form; the multipart body has a
    [timeout] part only, the text of [form.timeout ?? 10]. *)
Inductive SentTuning : Type :=
| InJson (tuning : Tuning)
| InFormData (timeout : string).

Definition sent_tuning (kind : Kind) (form : Form) (tuning : Tuning)
  : SentTuning :=
  if match kind with dirs => true | _ => false end && useUpload form
  then InFormData
         (Js.string_of_Z
            (match tune_timeout tuning with Some t => t | None => 10 end))
  else InJson tuning.

(** The request of [submit] for the whole form: what [submit] above
    keeps of it, and the tuning it carries. *)
Definition submit_request (RAW_API_BASE : option string) (kind : Kind)
    (st : Form * Tuning) (wordlist_file : option string)
  : option (ScanPost * SentTuning) :=
  match submit RAW_API_BASE kind (fst st) wordlist_file with
  | Some post => Some (post, sent_tuning kind (fst st) (snd st))
  | None => None
  end.

End Ui.

(* ================================================================== *)
(** ** Vocabulary of the statements *)
(* ================================================================== *)

Module Spec.

(** *** utils/api.ts *)

(** The candidates [apiBase] chooses from. *)
Definition configured (e : Api.Env) (b : string) : Prop :=
  Api.VITE_API_BASE_URL e = Some b
  \/ (Api.has_window e = true /\ Api.stored_API_BASE_URL e = Some b)
  \/ (Api.DEV e = true /\ b = "http://127.0.0.1:8000").

(** A build whose base URL is written with two trailing slashes. *)
Definition env_two_slashes : Api.Env :=
  Api.mkEnv (Some "https://recon.example//") false None false.

(** *** utils/date.ts *)

Fixpoint all_digits (s : string) : bool :=
  match s with
  | "" => true
  | String c s' => Js.is_digit c && all_digits s'
  end.

(** Exactly two decimal digits. *)
Definition two_digits (s : string) : Prop :=
  String.length s = 2%nat /\ all_digits s = true.

(** A decimal numeral: at least one digit, after an optional minus
    sign. *)
Definition numeral (s : string) : Prop :=
  exists body,
    (s = body \/ s = String "-" body) /\ body <> "" /\ all_digits body = true.

(** The value of a row of decimal digits, read after the value
    [acc]. *)
Fixpoint decimal_value_from (acc : Z) (s : string) : Z :=
  match s with
  | "" => acc
  | String c s' =>
      decimal_value_from (10 * acc + (Z.of_N (N_of_ascii c) - 48)) s'
  end.

Definition decimal_value (s : string) : Z := decimal_value_from 0 s.

(** The field [s] of a formatted date shows the number [n]: exactly
    two decimal digits whose value is [n]. *)
Definition shows (s : string) (n : Z) : Prop :=
  two_digits s /\ decimal_value s = n.

(** The value is null or undefined, or the date made from it is
    invalid. *)
Definition absent_or_invalid (host : DateUtil.Host)
    (value : DateUtil.DateLike) : bool :=
  match value with
  | DateUtil.DNull | DateUtil.DUndefined => true
  | _ =>
      match DateUtil.new_Date host value with
      | None => true
      | Some _ => false
      end
  end.

(** The pattern [dddd-dd-dd dd:dd:dd] over decimal digits [d], with
    [suffix] after it. *)
Definition four_digit_year_shape (suffix s : string) : bool :=
  match s with
  | String y1 (String y2 (String y3 (String y4 (String "-"
      (String m1 (String m2 (String "-" (String d1 (String d2 (String " "
      (String h1 (String h2 (String ":" (String n1 (String n2 (String ":"
      (String s1 (String s2 rest)))))))))))))))))) =>
      all_digits
        (String y1 (String y2 (String y3 (String y4 (String m1 (String m2
        (String d1 (String d2 (String h1 (String h2 (String n1 (String n2
        (String s1 (String s2 ""))))))))))))))
      && (rest =? suffix)%string
  | _ => false
  end.

(** [P] holds of the [n] integers from [start] on. *)
Fixpoint all_from (n : nat) (start : Z) (P : Z -> bool) : bool :=
  match n with
  | O => true
  | S k => P start && all_from k (start + 1) P
  end.

(** The last day of the year 999, as a time value. *)
Definition end_of_999 : DateUtil.DateLike :=
  DateUtil.DNumber (Js.Int (-30610310400000)).

(** A host in UTC that parses no string. *)
Definition utc_host : DateUtil.Host :=
  DateUtil.mkHost (fun _ => None) (fun _ => 0).

(** *** components/Dashboard.tsx (viz-recon-main) *)

(** The three job types of the data model. *)
Definition valid_type (ty : string) : Prop :=
  ty = "dirs" \/ ty = "ports" \/ ty = "subdomains".

(** The kind of finding that corresponds to a job type: ['dir'] for
    dirs, ['port'] for ports, ['subdomain'] for subdomains. *)
Definition kind_of_type (ty : string) : string :=
  if (ty =? "dirs")%string then "dir"
  else if (ty =? "ports")%string then "port"
  else "subdomain".

(** The [job_id] of a finding as a string; an absent [job_id] reads
    as the empty string. *)
Definition job_id_string (f : Api.Finding) : string :=
  match Api.job_id f with
  | Some v => Js.String_of v
  | None => ""
  end.

(** The finding is of the job [jobId] of type [ty]: its [job_id], as a
    string, is the job's id and its kind is the kind of [ty]. *)
Definition belongs (jobId : Js.scalar) (ty : string) (f : Api.Finding)
  : bool :=
  (job_id_string f =? Js.String_of jobId)%string
  && match Api.kind f with
     | Some k => (k =? kind_of_type ty)%string
     | None => false
     end.

(** The four status buckets of the filter. *)
Definition buckets : list string := ["2xx"; "3xx"; "4xx"; "5xx"].

(** A finding with the given [job_id], [kind] and [status] and no
    other field. *)
Definition finding_of (job : option Js.scalar) (k : option string)
    (st : option Js.scalar) : Api.Finding :=
  Api.mkFinding job k None None None None None None st None None None None
    None None None None.

(** A job with the given id, type and state and no other field. *)
Definition job_of (i : Js.scalar) (ty st : string) : Api.Job :=
  Api.mkJob i ty st (Js.Int 0) None None None None.

(** A ports job with id 7 and a findings response holding one finding
    of the job, one of job 8 and one of kind ['dir']. *)
Definition job7 : Api.JobDetails :=
  Api.mkJobDetails (job_of (Js.Num (Js.Int 7)) "ports" "running") None.

Definition finding7 : Api.Finding :=
  finding_of (Some (Js.Num (Js.Int 7))) (Some "port") None.

Definition findings_mixed : list Api.Finding :=
  [ finding7;
    finding_of (Some (Js.Num (Js.Int 8))) (Some "port") None;
    finding_of (Some (Js.Str "7")) (Some "dir") None ].

(** The terminal states of a job. *)
Definition terminal (st : string) : Prop :=
  st = "completed" \/ st = "cancelled" \/ st = "failed".

(** The required target field of a scan kind is filled in: a
    non-empty domain for subdomains, a non-empty list of targets for
    ports, a non-empty base URL for dirs. *)
Definition target_given (kind : Ui.Kind) (form : Ui.Form) : Prop :=
  match kind with
  | Ui.subdomains => exists d, Ui.domain form = Some d /\ d <> ""
  | Ui.ports => exists l, Ui.targets form = Some l /\ l <> []
  | Ui.dirs => exists u, Ui.base_url form = Some u /\ u <> ""
  end.

(** Whether [fetchJson] returns on an exchange. *)
Definition json_succeeds {A} (x : Api.Exchange A) : bool :=
  match Api.fetchJson x with
  | Some _ => true
  | None => false
  end.

(** A dashboard that shows the given jobs and has not polled yet. *)
Definition dash_with (js : list Api.Job) : Viz.Dash :=
  Viz.mkDash None js false "jobs".

Definition no_metrics : Api.Metrics :=
  Api.mkMetrics (Js.Int 0) (Js.Int 0) None None None.

(** A job that has failed, as the jobs list shows it. *)
Definition failed_job : Api.Job := job_of (Js.Num (Js.Int 4)) "ports" "failed".

(** Metrics after one failed job. *)
Definition metrics_after_failure : Api.Metrics :=
  Api.mkMetrics (Js.Int 12) (Js.Int 0) (Some (Js.Int 1)) None
    (Some (Js.Int 1)).

(** *** Work lists *)

(** The work list of a wordlist text, in the words of the
    specification: the lines of the text (split at each line feed),
    each trimmed, the blank ones dropped. *)
Definition normalize_lines (text : string) : list string :=
  filter (fun l => negb (l =? "")%string)
    (map Js.trim (Js.split_char Js.LF text)).

(** One piece of a text split at line feeds against the piece of the
    text split at [CR? LF]: the same, or the same with the CR kept. *)
Definition same_but_cr (a b : string) : Prop :=
  b = a \/ b = a ++ String Js.CR "".

(** A wordlist text with a CR LF line end, padded and blank lines. *)
Definition wordlist_sample : string :=
  "admin" ++ String Js.CR (String Js.LF "  login ")
    ++ String Js.LF (String Js.LF "backup").

(** *** Reports *)

(** The row of a finding in the report of a job of type [ty]. *)
Definition row_for (host : DateUtil.Host) (ty : string) (f : Api.Finding)
  : list string :=
  if (ty =? "dirs")%string then Viz.dirs_row f
  else if (ty =? "ports")%string then Viz.ports_row f
  else Viz.subdomains_row host f.

(** The code unit [c] does not occur in [s]. *)
Fixpoint free_of (c : ascii) (s : string) : bool :=
  match s with
  | "" => true
  | String a s' => negb (Ascii.eqb a c) && free_of c s'
  end.

(** A cell that holds neither a tab nor a line feed. *)
Definition plain_cell (s : string) : Prop :=
  free_of Js.TAB s = true /\ free_of Js.LF s = true.

(** Reading an exported text report back: the content is split into
    lines, the two lines of the preamble and the blank separator are
    dropped, and each remaining line is split at tabs. *)
Definition reparse (content : string) : list (list string) :=
  map (Js.split_char Js.TAB) (skipn 3 (Js.split_char Js.LF content)).

(** The text and the file name that an export hands to the browser. *)
Definition report_text (host : DateUtil.Host) (job : Api.Job)
    (data : list Api.Finding) (t : Z) : string :=
  Js.join (String Js.LF "")
    (Viz.report_lines host job (Viz.buildReportTable host job data) t).

Definition report_filename (job : Api.Job) : string :=
  "reconx_" ++ Api.type job ++ "_" ++ Js.String_of (Api.id job) ++ ".txt".

(** The headers of the report of a job of type [ty]: the payload
    fields of the kind. *)
Definition headers_of (ty : string) : list string :=
  if (ty =? "dirs")%string
  then ["URL"; "Status"; "Length"; "Title"; "Type"; "Redirect"]
  else if (ty =? "ports")%string
  then ["Target"; "Port"; "Status"; "Banner"]
  else ["Subdomain"; "IPs"; "First Seen"; "Last Seen"].

(** One line of a text report: the cells with a tab between them. *)
Fixpoint tabbed (cells : list string) : string :=
  match cells with
  | [] => ""
  | [c] => c
  | c :: tl => c ++ String Js.TAB (tabbed tl)
  end.

(** One line per finding, in the order of the findings, each after a
    line feed. *)
Fixpoint finding_lines (host : DateUtil.Host) (ty : string)
    (data : list Api.Finding) : string :=
  match data with
  | [] => ""
  | f :: tl =>
      String Js.LF (tabbed (row_for host ty f)) ++ finding_lines host ty tl
  end.

(** The text report of the findings [data] of a job, written out: the
    title line, the line of the time [t] of the export, an empty line,
    the line of the headers, and one line per finding. *)
Definition exported_text (host : DateUtil.Host) (job : Api.Job)
    (data : list Api.Finding) (t : Z) : string :=
  ("# ReconX Report " ++ Viz.em_dash ++ " " ++ Js.toUpperCase (Api.type job)
     ++ " (" ++ Viz.formatJobLabel host job ++ ")")
  ++ String Js.LF
       ("Generated: "
          ++ DateUtil.formatDateTime host (DateUtil.DDate (Some t)) None)
  ++ String Js.LF ""
  ++ String Js.LF (tabbed (headers_of (Api.type job)))
  ++ finding_lines host (Api.type job) data.

(** A world whose backend answers every findings request with [data],
    at the given clock, with nothing done yet. *)
Definition world_with (data : list Api.Finding) (t : Z) : Viz.World :=
  Viz.mkWorld t (fun _ _ => Api.Response true (Some (Some data))) [] [] [].

(** A ports job and a finding whose banner ends with the line end the
    service sent. *)
Definition ports_job : Api.Job :=
  Api.mkJob (Js.Num (Js.Int 5)) "ports" "completed" (Js.Int 100) None
    (Some ["10.0.0.1"]) None None.

Definition ssh_finding : Api.Finding :=
  Api.mkFinding (Some (Js.Num (Js.Int 5))) (Some "port") None None None None
    (Some "10.0.0.1") (Some (Js.Int 22)) (Some (Js.Str "open")) None None
    (Some ("SSH-2.0-OpenSSH_8.9" ++ String Js.CR (String Js.LF "")))
    None None None None None.

(** The same finding with the banner as one line. *)
Definition ssh_finding_plain : Api.Finding :=
  Api.mkFinding (Some (Js.Num (Js.Int 5))) (Some "port") None None None None
    (Some "10.0.0.1") (Some (Js.Int 22)) (Some (Js.Str "open")) None None
    (Some "SSH-2.0-OpenSSH_8.9") None None None None None.

Definition http_finding : Api.Finding :=
  Api.mkFinding (Some (Js.Num (Js.Int 5))) (Some "port") None None None None
    (Some "10.0.0.1") (Some (Js.Int 80)) (Some (Js.Str "closed")) None None
    None None None None None None.

(** *** Further vocabulary *)

(** A build with no base URL, outside a browser and outside
    development: every URL is relative. *)
Definition env_relative : Api.Env := Api.mkEnv None false None false.

(** A world whose backend answers every findings request with a
    status that is not ok. *)
Definition world_down : Viz.World :=
  Viz.mkWorld 0 (fun _ _ => Api.Response false None) [] [] [].

(** A dirs finding whose status is carried by [code]. *)
Definition finding_code_404 : Api.Finding :=
  Api.mkFinding (Some (Js.Num (Js.Int 9))) (Some "dir") None None None None
    None None None (Some (Js.Num (Js.Int 404))) None None
    (Some "https://example.com/admin") None None None None.

(** *** Lists typed into a form *)

(** The pieces of a text cut at each separator code unit. *)
Fixpoint split_at_each (is_sep : ascii -> bool) (s : string) : list string :=
  match s with
  | "" => [""]
  | String c s' =>
      if is_sep c then "" :: split_at_each is_sep s'
      else match split_at_each is_sep s' with
           | l :: ls => String c l :: ls
           | [] => [String c ""]
           end
  end.

(** The tokens of a text: what stands between white space and commas. *)
Definition tokens (s : string) : list string :=
  filter (fun l => negb (l =? "")%string)
    (split_at_each Js.is_space_or_comma s).

(** No code unit of [s] satisfies [p]. *)
Fixpoint has_none (p : ascii -> bool) (s : string) : bool :=
  match s with
  | "" => true
  | String c s' => negb (p c) && has_none p s'
  end.

(** Every code unit of [s] satisfies [p]. *)
Fixpoint all_are (p : ascii -> bool) (s : string) : bool :=
  match s with
  | "" => true
  | String c s' => p c && all_are p s'
  end.

(** Two lists of pieces with the same first piece and, after it, the
    same pieces that are not empty. *)
Definition same_head_and_tokens (l l' : list string) : Prop :=
  exists h t t', l = h :: t /\ l' = h :: t'
                 /\ filter Js.truthy t = filter Js.truthy t'.

(** *** Numerals *)

(** The value of the decimal digits [d] read after the value [acc]. *)
Fixpoint horner (d : Decimal.uint) (acc : Z) : Z :=
  match d with
  | Decimal.Nil => acc
  | Decimal.D0 l => horner l (10 * acc + 0)
  | Decimal.D1 l => horner l (10 * acc + 1)
  | Decimal.D2 l => horner l (10 * acc + 2)
  | Decimal.D3 l => horner l (10 * acc + 3)
  | Decimal.D4 l => horner l (10 * acc + 4)
  | Decimal.D5 l => horner l (10 * acc + 5)
  | Decimal.D6 l => horner l (10 * acc + 6)
  | Decimal.D7 l => horner l (10 * acc + 7)
  | Decimal.D8 l => horner l (10 * acc + 8)
  | Decimal.D9 l => horner l (10 * acc + 9)
  end.

(** The integers that JavaScript numbers hold exactly. *)
Definition safe_integer (z : Z) : Prop := Z.abs z < 2 ^ 53.

(** The finding [f] with its [status] replaced. *)
Definition with_status (f : Api.Finding) (v : option Js.scalar) : Api.Finding :=
  Api.mkFinding (Api.job_id f) (Api.kind f) (Api.subdomain f)
    (Api.resolved_ips f) (Api.first_seen f) (Api.last_seen f) (Api.target f)
    (Api.port f) v (Api.code f) (Api.http_status f) (Api.banner f) (Api.url f)
    (Api.length f) (Api.title f) (Api.content_type f) (Api.redirected_to f).

(** *** Searching *)

(** [t] occurs in [s]. *)
Definition occurs_in (t s : string) : Prop := exists a b, s = a ++ t ++ b.

(** The finding [f] with the three fields that the text filter reads. *)
Definition searched_text (f : Api.Finding) : string :=
  Js.or_string (Api.url f) "" ++ " " ++ Js.or_string (Api.title f) "" ++ " "
    ++ Js.or_string (Api.content_type f) "".

(** *** Pages *)

(** A page that lists the given jobs, with the modal of [selected]
    open and no toast yet. *)
Definition page_with (js : list Api.Job) (selected : option Api.Job)
  : Viz.Page :=
  Viz.mkPage (dash_with js) selected [].

(** A report cell is shown as it is: where the report has a text, the
    modal has the same text. *)
Definition shown_as_reported (report modal : string) : Prop :=
  report <> "" -> modal = report.

End Spec.

(* ================================================================== *)
(** * Properties *)
(* ================================================================== *)

(** ** Strings *)

Section StringFacts.

Lemma append_empty_r (s : string) : s ++ "" = s.
Proof. induction s as [|c s IH]; simpl; [reflexivity | now rewrite IH]. Qed.

Lemma append_assoc (a b c : string) : (a ++ b) ++ c = a ++ (b ++ c).
Proof. induction a as [|x a IH]; simpl; [reflexivity | now rewrite IH]. Qed.

Lemma truthy_false_iff (s : string) : Js.truthy s = false <-> s = "".
Proof. destruct s; simpl; split; congruence. Qed.

Lemma truthy_true_iff (s : string) : Js.truthy s = true <-> s <> "".
Proof. destruct s; simpl; split; congruence. Qed.

Lemma startsWith_append (p s : string) : Js.startsWith (p ++ s) p = true.
Proof.
  induction p as [|c p IH]; simpl; [reflexivity|].
  now rewrite Ascii.eqb_refl, IH.
Qed.

Lemma startsWith_inv (s p : string) :
  Js.startsWith s p = true -> exists r, s = p ++ r.
Proof.
  revert s; induction p as [|c p IH]; intros s H.
  - now exists s.
  - destruct s as [|d s]; simpl in H; [discriminate|].
    apply andb_prop in H as [Hc Hs].
    apply Ascii.eqb_eq in Hc; subst d.
    destruct (IH _ Hs) as [r ->]. now exists r.
Qed.

(** Removing one trailing slash gives back the string, or the string
    without its last code unit, a slash. *)
Lemma strip_trailing_slash_cases (s : string) :
  (Js.ends_with_char s "/" = false /\ Js.strip_trailing_slash s = s)
  \/ (Js.ends_with_char s "/" = true /\ s = Js.strip_trailing_slash s ++ "/").
Proof.
  induction s as [|c s IH]; [now left|].
  destruct s as [|d s].
  - simpl. destruct (Ascii.eqb c "/") eqn:E.
    + right. apply Ascii.eqb_eq in E. now subst.
    + now left.
  - change (Js.ends_with_char (String c (String d s)) "/")
      with (Js.ends_with_char (String d s) "/").
    change (Js.strip_trailing_slash (String c (String d s)))
      with (String c (Js.strip_trailing_slash (String d s))).
    destruct IH as [[E1 E2]|[E1 E2]].
    + left. now rewrite E2.
    + right. split; [assumption|].
      change (String c (Js.strip_trailing_slash (String d s)) ++ "/")
        with (String c (Js.strip_trailing_slash (String d s) ++ "/")).
      now rewrite <- E2.
Qed.

End StringFacts.

(** ** utils/api.ts *)

Section ApiFacts.

Import Api Spec.

Lemma or_opt_cases (a b : option string) :
  (exists s, a = Some s /\ s <> "" /\ Js.or_opt a b = Some s)
  \/ Js.or_opt a b = b.
Proof.
  destruct a as [s|]; simpl; [|now right].
  destruct s; simpl; [now right|].
  left. eexists. repeat split. discriminate.
Qed.

Lemma apiBase_origin (e : Env) :
  apiBase e = ""
  \/ exists b, configured e b
       /\ (Js.startsWith b "http://" = true \/ Js.startsWith b "https://" = true)
       /\ apiBase e = Js.strip_trailing_slash b.
Proof.
  unfold apiBase.
  set (stored := if has_window e then _ else _).
  set (dev := if DEV e then _ else _).
  destruct (Js.or_opt (Js.or_opt (VITE_API_BASE_URL e) stored) dev)
    as [b|] eqn:Hb; [|now left].
  destruct (Js.truthy b && _) eqn:Hc; [|now left].
  right. exists b. apply andb_prop in Hc as [_ Hs].
  apply orb_prop in Hs. split; [|now split].
  destruct (or_opt_cases (Js.or_opt (VITE_API_BASE_URL e) stored) dev)
    as [(s & H1 & _ & H2)|H2]; rewrite H2 in Hb.
  - injection Hb as ->.
    destruct (or_opt_cases (VITE_API_BASE_URL e) stored)
      as [(s & H3 & _ & H4)|H4]; rewrite H4 in H1.
    + left. congruence.
    + right; left. subst stored. destruct (has_window e); [|discriminate].
      split; [reflexivity|].
      destruct (or_opt_cases (stored_API_BASE_URL e) None)
        as [(s & H5 & _ & H6)|H6]; rewrite H6 in H1; congruence.
  - right; right. subst dev. destruct (DEV e); [|discriminate].
    split; congruence.
Qed.

(** C8, as amended: [api p] is [B ++ pre ++ p'], with [p'] the path
    with a leading slash added when absent and [pre] equal to ["/api"]
    exactly when [p'] starts with neither ["/api/"] nor ["/healthz"];
    [B = apiBase()] is empty, or a configured base that starts with
    ["http://"] or ["https://"], taken as it is when it does not end
    in a slash and without its last slash otherwise. *)
Theorem api_decomposition (e : Env) (path : string) :
  let B := apiBase e in
  let p' := with_slash path in
  let pre := if needsApiPrefix p' then "/api" else "" in
  api e path = B ++ pre ++ p'
  /\ ((Js.startsWith path "/" = true /\ p' = path)
      \/ (Js.startsWith path "/" = false /\ p' = "/" ++ path))
  /\ ((pre = "/api" /\ Js.startsWith p' "/api/" = false
                   /\ Js.startsWith p' "/healthz" = false)
      \/ (pre = "" /\ (Js.startsWith p' "/api/" = true
                       \/ Js.startsWith p' "/healthz" = true)))
  /\ (B = ""
      \/ exists b, configured e b
           /\ (Js.startsWith b "http://" = true
               \/ Js.startsWith b "https://" = true)
           /\ ((Js.ends_with_char b "/" = false /\ B = b)
               \/ (Js.ends_with_char b "/" = true /\ b = B ++ "/"))).
Proof.
  intros B p' pre. repeat split.
  - unfold api. fold B p'. fold pre.
    destruct (Js.truthy B) eqn:HB; [reflexivity|].
    apply truthy_false_iff in HB. now rewrite HB.
  - subst p'. unfold with_slash.
    destruct (Js.startsWith path "/"); [left | right]; now split.
  - subst pre. unfold needsApiPrefix.
    destruct (Js.startsWith p' "/healthz"), (Js.startsWith p' "/api/");
      simpl; intuition.
  - destruct (apiBase_origin e) as [H|(b & Hc & Hs & Hb)]; [now left|].
    right. exists b. repeat split; try assumption.
    subst B. rewrite Hb.
    destruct (strip_trailing_slash_cases b) as [[E1 E2]|[E1 E2]].
    + left. now rewrite E2.
    + right. now split.
Qed.

(** C8, as stated, fails: a configured base that ends in two slashes
    gives a base that is not empty and still ends in a slash. *)
Lemma apiBase_keeps_a_slash :
  apiBase env_two_slashes = "https://recon.example/"
  /\ apiBase env_two_slashes <> ""
  /\ Js.ends_with_char (apiBase env_two_slashes) "/" = true.
Proof. repeat split. discriminate. Qed.

(** The base for the bare scheme is not an absolute URL any more. *)
Example apiBase_bare_scheme :
  let e := mkEnv (Some "http://") false None false in
  apiBase e = "http:/"
  /\ Js.startsWith (apiBase e) "http://" = false
  /\ api e "jobs" = "http://api/jobs".
Proof. repeat split. Qed.

Example api_examples :
  let e := mkEnv None true (Some "https://api.recon.example/") true in
  api e "/jobs/7/findings" = "https://api.recon.example/api/jobs/7/findings"
  /\ api e "healthz" = "https://api.recon.example/healthz"
  /\ api e "/api/metrics" = "https://api.recon.example/api/metrics"
  /\ api (mkEnv None false None false) "/metrics" = "/api/metrics".
Proof. repeat split. Qed.

End ApiFacts.

(** ** utils/date.ts *)

Section DateFacts.

Import DateUtil Spec.

Lemma string_of_uint_digits (d : Decimal.uint) :
  all_digits (NilEmpty.string_of_uint d) = true.
Proof. induction d; simpl; auto. Qed.

Lemma string_of_uint_nonempty (d : Decimal.uint) :
  d <> Decimal.Nil -> NilEmpty.string_of_uint d <> "".
Proof. destruct d; simpl; congruence. Qed.

Lemma NilZero_digits (d : Decimal.uint) :
  NilZero.string_of_uint d <> ""
  /\ all_digits (NilZero.string_of_uint d) = true.
Proof.
  destruct d; simpl; (split; [discriminate | try reflexivity]);
    apply string_of_uint_digits.
Qed.

Lemma string_of_Z_numeral (z : Z) : numeral (Js.string_of_Z z).
Proof.
  unfold Js.string_of_Z, numeral.
  destruct (Z.to_int z) as [d|d]; simpl;
    exists (NilZero.string_of_uint d);
    destruct (NilZero_digits d) as [H1 H2]; auto.
Qed.

Lemma string_of_Z_nonneg_digits (z : Z) :
  0 <= z -> all_digits (Js.string_of_Z z) = true.
Proof.
  intros Hz. unfold Js.string_of_Z.
  destruct z as [|p|p]; [reflexivity| |lia].
  simpl. apply NilZero_digits.
Qed.

Lemma pad_small (k : nat) :
  (k < 100)%nat ->
  String.length (pad (Z.of_nat k)) = 2%nat
  /\ all_digits (pad (Z.of_nat k)) = true.
Proof.
  intros Hk.
  do 100 (destruct k as [|k]; [split; reflexivity|]).
  lia.
Qed.

(** [pad] on a number from 0 to 99 gives exactly two digits. *)
Lemma pad_two_digits (n : Z) : 0 <= n < 100 -> two_digits (pad n).
Proof.
  intros Hn. rewrite <- (Z2Nat.id n) by lia.
  apply pad_small. lia.
Qed.

(** [pad] never shortens: at least two code units for any number. *)
Lemma pad_at_least_two (n : Z) : (2 <= String.length (pad n))%nat.
Proof.
  unfold pad, Js.padStart0.
  assert (L : forall a b, String.length (a ++ b)
                          = (String.length a + String.length b)%nat).
  { induction a; simpl; intros; [reflexivity | now rewrite IHa]. }
  assert (Zs : forall k, String.length (Js.zeros k) = k).
  { induction k; simpl; congruence. }
  rewrite L, Zs. lia.
Qed.

Lemma day_of_era_range (z : Z) : 0 <= z - z / 146097 * 146097 <= 146096.
Proof. Z.div_mod_to_equations; lia. Qed.

Lemma day_of_year_range (doe : Z) :
  0 <= doe <= 146096 ->
  let yoe := (doe - doe / 1460 + doe / 36524 - doe / 146096) / 365 in
  0 <= doe - (365 * yoe + yoe / 4 - yoe / 100) <= 365.
Proof. intros H yoe; subst yoe. Z.div_mod_to_equations; lia. Qed.

Lemma month_day_range (doy : Z) :
  0 <= doy <= 365 ->
  let mp := (5 * doy + 2) / 153 in
  0 <= mp <= 11 /\ 1 <= doy - (153 * mp + 2) / 5 + 1 <= 31.
Proof. intros H mp; subst mp. Z.div_mod_to_equations; lia. Qed.

(** The calendar fields of any day number are in range. *)
Lemma civil_from_days_range (d : Z) :
  1 <= snd (fst (civil_from_days d)) <= 12
  /\ 1 <= snd (civil_from_days d) <= 31.
Proof.
  unfold civil_from_days.
  set (z := d + 719468).
  pose proof (day_of_era_range z) as Hdoe.
  set (doe := z - z / 146097 * 146097) in *.
  pose proof (day_of_year_range doe Hdoe) as Hdoy. cbv zeta in Hdoy.
  set (yoe := (doe - doe / 1460 + doe / 36524 - doe / 146096) / 365) in *.
  set (doy := doe - (365 * yoe + yoe / 4 - yoe / 100)) in *.
  pose proof (month_day_range doy Hdoy) as [Hmp Hd]. cbv zeta in Hmp, Hd.
  set (mp := (5 * doy + 2) / 153) in *.
  cbn [fst snd]. split; [|exact Hd].
  destruct (mp <? 10) eqn:E;
    [apply Z.ltb_lt in E | apply Z.ltb_ge in E]; lia.
Qed.

Lemma MonthFromTime_range (t : Z) : 0 <= MonthFromTime t <= 11.
Proof.
  unfold MonthFromTime. pose proof (civil_from_days_range (Day t)). lia.
Qed.

Lemma DateFromTime_range (t : Z) : 1 <= DateFromTime t <= 31.
Proof. unfold DateFromTime. apply civil_from_days_range. Qed.

Lemma HourFromTime_range (t : Z) : 0 <= HourFromTime t <= 23.
Proof. unfold HourFromTime. pose proof (Z.mod_pos_bound (t / 3600000) 24). lia. Qed.

Lemma MinFromTime_range (t : Z) : 0 <= MinFromTime t <= 59.
Proof. unfold MinFromTime. pose proof (Z.mod_pos_bound (t / 60000) 60). lia. Qed.

Lemma SecFromTime_range (t : Z) : 0 <= SecFromTime t <= 59.
Proof. unfold SecFromTime. pose proof (Z.mod_pos_bound (t / 1000) 60). lia. Qed.

Lemma all_from_spec (n : nat) (start : Z) (P : Z -> bool) :
  all_from n start P = true ->
  forall z, start <= z < start + Z.of_nat n -> P z = true.
Proof.
  revert start. induction n as [|n IH]; intros start H z Hz; [lia|].
  simpl in H. apply andb_prop in H as [H0 H1].
  destruct (Z.eq_dec z start) as [->|Hne]; [exact H0|].
  apply (IH (start + 1) H1). lia.
Qed.

(** The numeral of a year from 1000 to 9999 has four digits. *)
Lemma year_four_digits (y : Z) :
  1000 <= y <= 9999 -> String.length (Js.string_of_Z y) = 4%nat.
Proof.
  intros Hy. apply Nat.eqb_eq.
  apply (all_from_spec (Z.to_nat 9000) 1000
           (fun z => Nat.eqb (String.length (Js.string_of_Z z)) 4)).
  - vm_compute. reflexivity.
  - rewrite Z2Nat.id; lia.
Qed.

(** The formatted text of a valid time value. *)
Lemma format_valid (host : Host) (utc : bool) (t : Z) :
  let lt := LocalTime host t in
  exists Y M D h m s,
    Js.string_of_Z (if utc then YearFromTime t else YearFromTime lt)
      ++ "-" ++ pad ((if utc then MonthFromTime t else MonthFromTime lt) + 1)
      ++ "-" ++ pad (if utc then DateFromTime t else DateFromTime lt)
      ++ " " ++ pad (if utc then HourFromTime t else HourFromTime lt)
      ++ ":" ++ pad (if utc then MinFromTime t else MinFromTime lt)
      ++ ":" ++ pad (if utc then SecFromTime t else SecFromTime lt)
      ++ (if utc then " UTC" else "")
    = Y ++ "-" ++ M ++ "-" ++ D ++ " " ++ h ++ ":" ++ m ++ ":" ++ s
        ++ (if utc then " UTC" else "")
    /\ (exists y, Y = Js.string_of_Z y
                  /\ (1000 <= y <= 9999 -> String.length Y = 4%nat))
    /\ numeral Y /\ two_digits M /\ two_digits D
    /\ two_digits h /\ two_digits m /\ two_digits s.
Proof.
  intros lt.
  set (u := if utc then t else lt).
  replace (if utc then YearFromTime t else YearFromTime lt)
    with (YearFromTime u) by (now destruct utc).
  replace (if utc then MonthFromTime t else MonthFromTime lt)
    with (MonthFromTime u) by (now destruct utc).
  replace (if utc then DateFromTime t else DateFromTime lt)
    with (DateFromTime u) by (now destruct utc).
  replace (if utc then HourFromTime t else HourFromTime lt)
    with (HourFromTime u) by (now destruct utc).
  replace (if utc then MinFromTime t else MinFromTime lt)
    with (MinFromTime u) by (now destruct utc).
  replace (if utc then SecFromTime t else SecFromTime lt)
    with (SecFromTime u) by (now destruct utc).
  do 6 eexists. split; [reflexivity|].
  pose proof (MonthFromTime_range u). pose proof (DateFromTime_range u).
  pose proof (HourFromTime_range u). pose proof (MinFromTime_range u).
  pose proof (SecFromTime_range u).
  split; [eexists; split; [reflexivity | apply year_four_digits]|].
  repeat split;
    try (apply string_of_Z_numeral);
    try (apply pad_two_digits; lia).
Qed.

(** The text of a valid [Date]. *)
Lemma formatDateTime_of_date (host : Host) (t : Z) (opts : option Opts) :
  exists Y M D h m s,
    formatDateTime host (DDate (Some t)) opts
    = Y ++ "-" ++ M ++ "-" ++ D ++ " " ++ h ++ ":" ++ m ++ ":" ++ s
        ++ (if Js.nullish (opt_utc opts) false then " UTC" else "")
    /\ numeral Y /\ two_digits M /\ two_digits D
    /\ two_digits h /\ two_digits m /\ two_digits s.
Proof.
  destruct (format_valid host (Js.nullish (opt_utc opts) false) t)
    as (Y & M & D & h & m & s & E & _ & H).
  now exists Y, M, D, h, m, s.
Qed.

(** [pad] on a number from 0 to 99 shows that number. *)
Lemma pad_shows (n : Z) : 0 <= n < 100 -> shows (pad n) n.
Proof.
  intros Hn. split; [now apply pad_two_digits|].
  apply Z.eqb_eq.
  apply (all_from_spec 100 0 (fun z => decimal_value (pad z) =? z)).
  - vm_compute. reflexivity.
  - simpl. lia.
Qed.

(** C9, as amended: [formatDateTime] returns for every input.  When
    the value is null or undefined, or the date made from it is
    invalid, the result is the fallback (['N/A'] unless [opts] gives
    one).  Otherwise the date has a time value [t], shown as it is
    when [utc] is set and as local time when not, and the result is
    [Y-M-D h:m:s], followed by [' UTC'] when [utc] is set: [Y] is the
    decimal numeral of the year of the time shown, as it is (four
    digits for the years 1000 to 9999), and [M], [D], [h], [m] and
    [s] are two digits each that show its month counted from 1, its
    day of the month, its hour, its minute and its second. *)
Theorem formatDateTime_shape (host : Host) (value : DateLike)
    (opts : option Opts) :
  let fallback :=
    match opt_fallback opts with Some f => f | None => "N/A" end in
  let utc :=
    match opt_utc opts with Some u => u | None => false end in
  (absent_or_invalid host value = true
   /\ formatDateTime host value opts = fallback)
  \/ (absent_or_invalid host value = false
      /\ exists t Y M D h m s,
           let shown := if utc then t else LocalTime host t in
           new_Date host value = Some t
           /\ formatDateTime host value opts
              = Y ++ "-" ++ M ++ "-" ++ D ++ " " ++ h ++ ":" ++ m ++ ":" ++ s
                  ++ (if utc then " UTC" else "")
           /\ Y = Js.string_of_Z (YearFromTime shown)
           /\ numeral Y
           /\ (1000 <= YearFromTime shown <= 9999 -> String.length Y = 4%nat)
           /\ shows M (MonthFromTime shown + 1)
           /\ 1 <= MonthFromTime shown + 1 <= 12
           /\ shows D (DateFromTime shown)
           /\ 1 <= DateFromTime shown <= 31
           /\ shows h (HourFromTime shown)
           /\ 0 <= HourFromTime shown <= 23
           /\ shows m (MinFromTime shown)
           /\ 0 <= MinFromTime shown <= 59
           /\ shows s (SecFromTime shown)
           /\ 0 <= SecFromTime shown <= 59).
Proof.
  intros fallback utc.
  assert (R : forall shown Y M D h m s,
             Y = Js.string_of_Z (YearFromTime shown) ->
             M = pad (MonthFromTime shown + 1) ->
             D = pad (DateFromTime shown) ->
             h = pad (HourFromTime shown) ->
             m = pad (MinFromTime shown) ->
             s = pad (SecFromTime shown) ->
             Y = Js.string_of_Z (YearFromTime shown)
             /\ numeral Y
             /\ (1000 <= YearFromTime shown <= 9999 -> String.length Y = 4%nat)
             /\ shows M (MonthFromTime shown + 1)
             /\ 1 <= MonthFromTime shown + 1 <= 12
             /\ shows D (DateFromTime shown)
             /\ 1 <= DateFromTime shown <= 31
             /\ shows h (HourFromTime shown)
             /\ 0 <= HourFromTime shown <= 23
             /\ shows m (MinFromTime shown)
             /\ 0 <= MinFromTime shown <= 59
             /\ shows s (SecFromTime shown)
             /\ 0 <= SecFromTime shown <= 59).
  { intros shown Y M D h m s -> -> -> -> -> ->.
    pose proof (MonthFromTime_range shown) as Rm.
    pose proof (DateFromTime_range shown) as Rd.
    pose proof (HourFromTime_range shown) as Rh.
    pose proof (MinFromTime_range shown) as Rn.
    pose proof (SecFromTime_range shown) as Rs.
    split; [reflexivity|].
    split; [apply string_of_Z_numeral|].
    split; [apply year_four_digits|].
    split; [apply pad_shows; lia|]. split; [lia|].
    split; [apply pad_shows; lia|]. split; [lia|].
    split; [apply pad_shows; lia|]. split; [lia|].
    split; [apply pad_shows; lia|]. split; [lia|].
    split; [apply pad_shows; lia | lia]. }
  unfold absent_or_invalid, formatDateTime.
  fold (Js.nullish (opt_fallback opts) "N/A") in fallback.
  fold (Js.nullish (opt_utc opts) false) in utc.
  destruct value as [| |s|n|tv]; try (left; split; reflexivity);
    (destruct (new_Date host _) as [t|];
     [right; split; [reflexivity|] | left; split; reflexivity]);
    exists t; fold utc; destruct utc;
    do 6 eexists; cbv zeta; (split; [reflexivity|]);
    (split; [reflexivity|]); apply R; reflexivity.
Qed.

(** C9, as stated, fails: the year is printed as it is, so the last
    day of the year 999 is a valid date whose text has three year
    digits and is not of the shape [YYYY-MM-DD hh:mm:ss]. *)
Lemma formatDateTime_year_999 :
  absent_or_invalid utc_host end_of_999 = false
  /\ formatDateTime utc_host end_of_999 None = "999-12-31 00:00:00"
  /\ four_digit_year_shape "" (formatDateTime utc_host end_of_999 None) = false.
Proof. repeat split. Qed.

(** A date in a year of four digits has the shape. *)
Example formatDateTime_four_digit_year :
  four_digit_year_shape " UTC"
    (formatDateTime utc_host (DNumber (Js.Int 951827696000))
       (Some (mkOpts (Some true) None)))
  = true.
Proof. reflexivity. Qed.

Example formatDateTime_leap_day :
  formatDateTime utc_host (DNumber (Js.Int 951827696000))
    (Some (mkOpts (Some true) None))
  = "2000-02-29 12:34:56 UTC".
Proof. reflexivity. Qed.

Example formatDateTime_fallbacks :
  formatDateTime utc_host DNull None = "N/A"
  /\ formatDateTime utc_host (DString "yesterday") None = "N/A"
  /\ formatDateTime utc_host (DNumber Js.NaN) (Some (mkOpts None (Some "-")))
     = "-"
  /\ formatDateTime utc_host (DDate None) (Some (mkOpts None (Some ""))) = "".
Proof. repeat split. Qed.

End DateFacts.

(** ** JobDetailsModal *)

Section ModalFacts.

Import Api Viz Spec.

Lemma expectedKind_valid (jobData : JobDetails) :
  valid_type (type (details_job jobData)) ->
  expectedKind jobData = Some (kind_of_type (type (details_job jobData))).
Proof.
  unfold valid_type, expectedKind, kind_of_type.
  intros [H|[H|H]]; rewrite H; reflexivity.
Qed.

Lemma purified_belongs (jobId : Js.scalar) (jobData : JobDetails)
    (fs : option (list Finding)) :
  valid_type (type (details_job jobData)) ->
  purified jobId jobData fs
  = filter (belongs jobId (type (details_job jobData))) (Js.nullish fs []).
Proof.
  intros Hty. unfold purified. rewrite (expectedKind_valid _ Hty).
  apply filter_ext. intros f. unfold belongs, job_id_string, kind_is.
  destruct (job_id f); reflexivity.
Qed.

(** A refresh in which a request fails leaves the modal as it was. *)
Lemma refresh_failure (jobId : Js.scalar) (st : Modal)
    (job_x : Exchange JobDetails)
    (findings_x : Exchange (option (list Finding))) :
  fetchJson job_x = None \/ fetchJson findings_x = None ->
  refresh jobId st job_x findings_x = st.
Proof.
  unfold refresh. intros [-> | ->]; [reflexivity|].
  now destruct (fetchJson job_x).
Qed.

(** With the filter as it is when the modal opens every retained
    finding is a row. *)
Lemma dir_row_shown_no_filter (f : Finding) :
  dir_row_shown (mkDirFilter "" "") f = true.
Proof. reflexivity. Qed.

Lemma rows_shown_subset (st : Modal) :
  incl (rows_shown st) (modal_findings st).
Proof.
  unfold rows_shown.
  destruct (modal_type st) as [ty|]; [|apply incl_refl].
  assert (H : incl (filter (dir_row_shown (dirFilter st)) (modal_findings st))
                (modal_findings st)).
  { intros f Hf. now apply filter_In in Hf. }
  repeat (match goal with
          | |- context [match ?x with _ => _ end] => destruct x
          end; try apply incl_refl; try exact H).
Qed.

Lemma rows_shown_no_filter (st : Modal) :
  dirFilter st = mkDirFilter "" "" -> rows_shown st = modal_findings st.
Proof.
  intros Hf. unfold rows_shown. rewrite Hf.
  assert (H : filter (dir_row_shown (mkDirFilter "" "")) (modal_findings st)
              = modal_findings st).
  { induction (modal_findings st) as [|f l IH]; simpl; [reflexivity|].
    now rewrite IH. }
  destruct (modal_type st) as [ty|]; [|reflexivity].
  repeat (match goal with
          | |- context [match ?x with _ => _ end] => destruct x
          end; try reflexivity; try exact H).
Qed.

(** C1: after a refresh in which the backend returns the job and a
    findings list, the findings kept by the modal are the findings of
    the list, in the order of the list, whose [job_id] as a string is
    the job's id and whose kind is the kind of the job's type; any
    other finding of the list is left out.  The rows on display are
    among them, and are all of them while no filter is set. *)
Theorem refresh_keeps_own_findings (jobId : Js.scalar) (st : Modal)
    (job_x : Exchange JobDetails)
    (findings_x : Exchange (option (list Finding)))
    (jobData : JobDetails) (fs : list Finding) :
  valid_type (type (details_job jobData)) ->
  fetchJson job_x = Some jobData ->
  fetchJson findings_x = Some (Some fs) ->
  let st' := refresh jobId st job_x findings_x in
  let ty := type (details_job jobData) in
  modal_findings st' = filter (belongs jobId ty) fs
  /\ (forall f, In f (modal_findings st')
                <-> In f fs
                    /\ job_id_string f = Js.String_of jobId
                    /\ kind f = Some (kind_of_type ty))
  /\ incl (rows_shown st') (modal_findings st')
  /\ (dirFilter st = mkDirFilter "" "" -> rows_shown st' = modal_findings st').
Proof.
  intros Hty Hj Hf st' ty.
  assert (E : modal_findings st' = filter (belongs jobId ty) fs).
  { subst st'. unfold refresh. rewrite Hj, Hf. simpl.
    now rewrite purified_belongs. }
  split; [exact E|]. split; [|split].
  - intros f. rewrite E, filter_In. unfold belongs.
    rewrite andb_true_iff, String.eqb_eq.
    destruct (kind f) as [k|].
    + rewrite String.eqb_eq. intuition congruence.
    + intuition congruence.
  - apply rows_shown_subset.
  - intros Hd. apply rows_shown_no_filter.
    subst st'. unfold refresh. rewrite Hj, Hf. exact Hd.
Qed.

(** On a response with one finding of the job, one of another job
    and one of another kind, only the first is kept. *)
Lemma refresh_keeps_own_findings_witness :
  valid_type (type (details_job job7))
  /\ modal_findings
       (refresh (Js.Str "7") (modal_init None) (Response true (Some job7))
          (Response true (Some (Some findings_mixed))))
     = [finding7].
Proof.
  split; [right; left; reflexivity|].
  exact (proj1 (refresh_keeps_own_findings (Js.Str "7") (modal_init None)
                  (Response true (Some job7))
                  (Response true (Some (Some findings_mixed)))
                  job7 findings_mixed
                  (or_intror (or_introl eq_refl)) eq_refl eq_refl)).
Defined.

(** A job of a type outside the data model keeps the findings of any
    kind: the kind test is skipped. *)
Example refresh_unknown_type :
  purified (Js.Str "7")
    (mkJobDetails (job_of (Js.Str "7") "hosts" "running") None)
    (Some findings_mixed)
  = [ finding7; finding_of (Some (Js.Str "7")) (Some "dir") None ].
Proof. reflexivity. Qed.

Lemma bucket_finite (z : Z) :
  (500 <= z -> bucket (Js.Int z) = "5xx")
  /\ (400 <= z < 500 -> bucket (Js.Int z) = "4xx")
  /\ (300 <= z < 400 -> bucket (Js.Int z) = "3xx")
  /\ (z < 300 -> bucket (Js.Int z) = "2xx").
Proof.
  unfold bucket; simpl.
  destruct (500 <=? z) eqn:E5; destruct (400 <=? z) eqn:E4;
    destruct (300 <=? z) eqn:E3;
    repeat match goal with
           | H : (_ <=? _) = true |- _ => apply Z.leb_le in H
           | H : (_ <=? _) = false |- _ => apply Z.leb_gt in H
           end;
    repeat split; intros; try reflexivity; lia.
Qed.

Lemma bucket_not_finite (s : Js.number) :
  Js.isFinite s = false -> bucket s = "".
Proof. unfold bucket. now intros ->. Qed.

Lemma bucket_in_buckets (s : Js.number) :
  Js.isFinite s = true -> In (bucket s) buckets.
Proof.
  unfold bucket, buckets. intros ->.
  destruct (Js.geq s 500), (Js.geq s 400), (Js.geq s 300); simpl; auto.
Qed.

(** With a bucket chosen and no text, a row is shown exactly when the
    bucket of its status is the chosen one. *)
Lemma dir_row_shown_bucket (f : Finding) (b : string) :
  In b buckets ->
  dir_row_shown (mkDirFilter "" b) f = true
  <-> bucket (status_number (status f)) = b.
Proof.
  intros Hb. unfold dir_row_shown. cbn [filter_status filter_text].
  change (Js.toLowerCase (Js.trim "")) with "". cbn [Js.truthy negb orb].
  rewrite andb_true_r.
  assert (T : Js.truthy b = true).
  { destruct Hb as [<-|[<-|[<-|[<-|[]]]]]; reflexivity. }
  rewrite T. cbn [negb orb]. rewrite String.eqb_eq.
  split; congruence.
Qed.

(** C10: the bucket of a finite status [z] is ['5xx'] from 500 on,
    ['4xx'] from 400 to 499, ['3xx'] from 300 to 399 and ['2xx'] for
    every other value, so also below 200; a status that is not a
    finite number has the empty bucket, and its row is shown under
    none of the four bucket filters. *)
Theorem status_bucket_classes (raw : option Js.scalar) :
  let s := status_number raw in
  (forall z, s = Js.Int z ->
     (500 <= z -> bucket s = "5xx")
     /\ (400 <= z < 500 -> bucket s = "4xx")
     /\ (300 <= z < 400 -> bucket s = "3xx")
     /\ (z < 300 -> bucket s = "2xx")
     /\ (z < 200 -> bucket s = "2xx"))
  /\ (Js.isFinite s = false -> bucket s = "")
  /\ (forall f b, status f = raw -> In b buckets ->
        (dir_row_shown (mkDirFilter "" b) f = true <-> bucket s = b))
  /\ (forall f b text, status f = raw -> In b buckets ->
        Js.isFinite s = false ->
        dir_row_shown (mkDirFilter text b) f = false).
Proof.
  intros s. repeat split.
  1-5: rewrite H; destruct (bucket_finite z) as (H5 & H4 & H3 & H2);
       auto; intros; apply H2; lia.
  - apply bucket_not_finite.
  - subst s. rewrite <- H. now apply dir_row_shown_bucket.
  - subst s. rewrite <- H. now apply dir_row_shown_bucket.
  - intros f b text Hf Hb Hs. unfold dir_row_shown.
    cbn [filter_status filter_text]. rewrite Hf. fold s.
    rewrite (bucket_not_finite s Hs).
    destruct Hb as [<-|[<-|[<-|[<-|[]]]]]; reflexivity.
Qed.

(** The classes at a status of 404, at the informational 101 and at a
    status that is no number. *)
Lemma status_bucket_classes_witness :
  bucket (status_number (Some (Js.Num (Js.Int 404)))) = "4xx"
  /\ bucket (status_number (Some (Js.Num (Js.Int 101)))) = "2xx"
  /\ dir_row_shown (mkDirFilter "" "2xx")
       (finding_of None None (Some (Js.Str "timeout"))) = false.
Proof.
  split; [|split].
  - destruct (status_bucket_classes (Some (Js.Num (Js.Int 404))))
      as (H & _).
    destruct (H 404 eq_refl) as (_ & H4 & _). apply H4. lia.
  - destruct (status_bucket_classes (Some (Js.Num (Js.Int 101))))
      as (H & _).
    destruct (H 101 eq_refl) as (_ & _ & _ & _ & H1). apply H1. lia.
  - destruct (status_bucket_classes (Some (Js.Str "timeout")))
      as (_ & _ & _ & H).
    apply (H (finding_of None None (Some (Js.Str "timeout"))) "2xx" "");
      [reflexivity | left; reflexivity | reflexivity].
Defined.

Example status_numbers :
  status_number (Some (Js.Str "404")) = Js.Int 404
  /\ status_number (Some (Js.Str "  301 Moved")) = Js.Int 301
  /\ status_number (Some (Js.Str "-12")) = Js.Int (-12)
  /\ status_number (Some (Js.Str "OK")) = Js.NaN
  /\ status_number (Some (Js.Str "")) = Js.NaN
  /\ status_number None = Js.NaN
  /\ status_number (Some (Js.Num (Js.Infinity false))) = Js.Infinity false.
Proof. repeat split. Qed.

Example buckets_below_200 :
  bucket (Js.Int 100) = "2xx" /\ bucket (Js.Int 0) = "2xx"
  /\ bucket (Js.Int (-1)) = "2xx" /\ bucket (Js.Int 199) = "2xx"
  /\ bucket (Js.Int 299) = "2xx" /\ bucket (Js.Int 300) = "3xx"
  /\ bucket (Js.Int 399) = "3xx" /\ bucket (Js.Int 400) = "4xx"
  /\ bucket (Js.Int 499) = "4xx" /\ bucket (Js.Int 500) = "5xx"
  /\ bucket Js.NaN = "" /\ bucket (Js.Infinity false) = "".
Proof. repeat split. Qed.

(** The status cell uses the same bucket, on the first present of
    [status], [code] and [http_status]. *)
Lemma status_cell_bucket (f : Finding) :
  fst (status_cell f)
  = bucket (status_number
              (Js.nullish_opt (status f)
                 (Js.nullish_opt (code f) (http_status f)))).
Proof. reflexivity. Qed.

End ModalFacts.

(** ** Dashboard: job controls *)

Section ControlFacts.

Import Api Viz Spec.

Lemma job_controls_other_tab (tab : string) (job : Job) :
  tab <> "jobs" -> job_controls tab job = [].
Proof.
  intros H. unfold job_controls.
  apply String.eqb_neq in H. now rewrite H.
Qed.

Lemma job_controls_cases (job : Job) :
  (state job = "running" /\ job_controls "jobs" job = [pause; cancel])
  \/ (state job = "paused" /\ job_controls "jobs" job = [resume; cancel])
  \/ (state job <> "running" /\ state job <> "paused"
      /\ job_controls "jobs" job = []).
Proof.
  unfold job_controls. cbn [String.eqb Ascii.eqb Bool.eqb andb].
  destruct (String.eqb_spec (state job) "running") as [E|E].
  - left. rewrite E. now split.
  - destruct (String.eqb_spec (state job) "paused") as [E'|E'].
    + right; left. now split.
    + right; right. now repeat split.
Qed.

Lemma terminal_not_active (st : string) :
  terminal st -> st <> "running" /\ st <> "paused".
Proof. intros [-> | [-> | ->]]; split; discriminate. Qed.

(** C4: on the jobs tab the pause control is rendered exactly for a
    running job, the resume control exactly for a paused job and the
    cancel control exactly for a running or paused job; a job in a
    terminal state has no control, and no click on its card posts an
    action. *)
Theorem controls_follow_state (job : Job) :
  (In pause (job_controls "jobs" job) <-> state job = "running")
  /\ (In resume (job_controls "jobs" job) <-> state job = "paused")
  /\ (In cancel (job_controls "jobs" job)
      <-> state job = "running" \/ state job = "paused")
  /\ (terminal (state job) ->
      job_controls "jobs" job = []
      /\ forall env a, click_control env "jobs" job a = None).
Proof.
  assert (T : terminal (state job) ->
              state job <> "running" /\ state job <> "paused")
    by apply terminal_not_active.
  unfold click_control.
  destruct (job_controls_cases job) as [[E C]|[[E C]|(E1 & E2 & C)]];
    rewrite C; rewrite ?E in *; simpl;
    (split; [|split; [|split; [|intros Ht; destruct (T Ht)]]]);
    try tauto; try (split; [reflexivity | intros; reflexivity]);
    split; intros H; try discriminate;
    repeat (destruct H as [H|H]; try discriminate);
    try contradiction; auto.
Qed.

(** A completed job has no control; a running one can be paused. *)
Lemma controls_follow_state_witness :
  terminal (state (job_of (Js.Str "3") "dirs" "completed"))
  /\ job_controls "jobs" (job_of (Js.Str "3") "dirs" "completed") = [].
Proof.
  split; [left; reflexivity|].
  apply (proj1 (proj2 (proj2 (proj2
           (controls_follow_state (job_of (Js.Str "3") "dirs" "completed"))))
           (or_introl eq_refl))).
Defined.

(** A rendered control posts its own action for the job of the card. *)
Lemma click_control_posts (env : Env) (job : Job) (a : Action) :
  In a (job_controls "jobs" job) ->
  click_control env "jobs" job a
  = Some (api env ("/jobs/" ++ Js.String_of (id job) ++ "/" ++ action_name a)).
Proof.
  intros H. unfold click_control.
  assert (E : existsb (Action_eqb a) (job_controls "jobs" job) = true).
  { apply existsb_exists. exists a. split; [exact H|]. now destruct a. }
  now rewrite E.
Qed.

Example controls_examples :
  job_controls "jobs" (job_of (Js.Str "3") "dirs" "running") = [pause; cancel]
  /\ job_controls "jobs" (job_of (Js.Str "3") "dirs" "paused") = [resume; cancel]
  /\ job_controls "jobs" (job_of (Js.Str "3") "dirs" "failed") = []
  /\ job_controls "results" (job_of (Js.Str "3") "dirs" "running") = []
  /\ click_control (mkEnv None false None false) "jobs"
       (job_of (Js.Num (Js.Int 3)) "dirs" "running") cancel
     = Some "/api/jobs/3/cancel".
Proof. repeat split. Qed.

End ControlFacts.

(** ** New scans: the submit guards *)

Section GuardFacts.

Import Api Spec.

Lemma truthy_opt_iff (s : option string) :
  Ui.truthy_opt s = true <-> exists d, s = Some d /\ d <> "".
Proof.
  destruct s as [d|]; simpl.
  - rewrite truthy_true_iff. split.
    + intros H. now exists d.
    + intros (d' & E & H). now injection E as ->.
  - split; [discriminate | intros (d & E & _); discriminate].
Qed.

Lemma targets_given_iff (t : option (list string)) :
  match t with
  | Some l => 0 <? Z.of_nat (List.length l)
  | None => false
  end = true
  <-> exists l, t = Some l /\ l <> [].
Proof.
  destruct t as [l|].
  - rewrite Z.ltb_lt. split.
    + intros H. exists l. split; [reflexivity|].
      intros ->. simpl in H. lia.
    + intros (l' & E & H). injection E as ->.
      destruct l'; [contradiction | simpl; lia].
  - split; [discriminate | intros (l & E & _); discriminate].
Qed.

(** The guard of [NewScan]: authorized, and the target of the kind. *)
Lemma valid_iff (kind : Ui.Kind) (form : Ui.Form) :
  Ui.valid kind form = true
  <-> Ui.authorized form = true /\ target_given kind form.
Proof.
  unfold Ui.valid, target_given.
  rewrite andb_true_iff.
  destruct kind; cbn [andb orb]; rewrite ?orb_false_r;
    rewrite ?truthy_opt_iff, ?targets_given_iff; reflexivity.
Qed.

Lemma subdomain_enabled_iff (f : Viz.SubdomainForm) :
  Viz.subdomain_disabled f = false
  <-> Viz.sub_authorized f = true /\ Viz.sub_domain f <> "".
Proof.
  unfold Viz.subdomain_disabled.
  rewrite orb_false_iff, !negb_false_iff, truthy_true_iff. tauto.
Qed.

Lemma port_enabled_iff (f : Viz.PortForm) :
  Viz.port_disabled f = false
  <-> Viz.port_authorized f = true /\ Viz.port_targets f <> "".
Proof.
  unfold Viz.port_disabled.
  rewrite orb_false_iff, !negb_false_iff, truthy_true_iff. tauto.
Qed.

Lemma dir_enabled_iff (f : Viz.DirForm) :
  Viz.dir_disabled f = false
  <-> Viz.dir_authorized f = true /\ Viz.dir_base_url f <> "".
Proof.
  unfold Viz.dir_disabled.
  rewrite orb_false_iff, !negb_false_iff, truthy_true_iff. tauto.
Qed.

(** C2, as amended: in both dashboards the submit guard of every scan
    kind holds exactly when [authorized] is set and the required
    target field is not empty: the domain, the base URL, and for ports
    the list of targets in reconx/ui and the text of the targets field
    in viz-recon-main.  With [authorized] unset a click on the submit
    button issues no create-job request, whatever else the form
    holds, and neither does a click while the guard fails. *)
Theorem scan_needs_authorization :
  (forall kind form,
      Ui.valid kind form = true
      <-> Ui.authorized form = true /\ target_given kind form)
  /\ (forall raw kind form submitting file,
         Ui.authorized form = false ->
         Ui.click_start raw kind form submitting file = None)
  /\ (forall f,
         Viz.subdomain_disabled f = false
         <-> Viz.sub_authorized f = true /\ Viz.sub_domain f <> "")
  /\ (forall f,
         Viz.port_disabled f = false
         <-> Viz.port_authorized f = true /\ Viz.port_targets f <> "")
  /\ (forall f,
         Viz.dir_disabled f = false
         <-> Viz.dir_authorized f = true /\ Viz.dir_base_url f <> "")
  /\ (forall env f file,
         Viz.sub_authorized f = false ->
         Viz.click_subdomain_scan env f file = None)
  /\ (forall env f file1 file2,
         Viz.port_authorized f = false ->
         Viz.click_port_scan env f file1 file2 = None)
  /\ (forall env f file,
         Viz.dir_authorized f = false ->
         Viz.click_dir_scan env f file = None)
  /\ (forall raw kind form submitting file,
         Ui.valid kind form = false ->
         Ui.click_start raw kind form submitting file = None)
  /\ (forall env f file,
         Viz.subdomain_disabled f = true ->
         Viz.click_subdomain_scan env f file = None)
  /\ (forall env f file1 file2,
         Viz.port_disabled f = true ->
         Viz.click_port_scan env f file1 file2 = None)
  /\ (forall env f file,
         Viz.dir_disabled f = true ->
         Viz.click_dir_scan env f file = None).
Proof.
  split; [exact valid_iff|].
  split.
  { intros raw kind form submitting file H. unfold Ui.click_start, Ui.valid.
    now rewrite H. }
  split; [exact subdomain_enabled_iff|].
  split; [exact port_enabled_iff|].
  split; [exact dir_enabled_iff|].
  split; [|split; [|split]].
  - intros env f file H. unfold Viz.click_subdomain_scan, Viz.subdomain_disabled.
    rewrite H. now rewrite orb_true_r.
  - intros env f file1 file2 H.
    unfold Viz.click_port_scan, Viz.port_disabled.
    rewrite H. now rewrite orb_true_r.
  - intros env f file H. unfold Viz.click_dir_scan, Viz.dir_disabled.
    rewrite H. now rewrite orb_true_r.
  - split; [|split; [|split]].
    + intros raw kind form submitting file H. unfold Ui.click_start.
      now rewrite H.
    + intros env f file H. unfold Viz.click_subdomain_scan. now rewrite H.
    + intros env f file1 file2 H. unfold Viz.click_port_scan. now rewrite H.
    + intros env f file H. unfold Viz.click_dir_scan. now rewrite H.
Qed.

(** The scenario of the specification: a subdomains scan of
    example.com without authorization issues no request. *)
Lemma scan_needs_authorization_witness :
  Ui.authorized (Ui.mkForm false (Some "example.com") None None false "")
    = false
  /\ Ui.click_start None Ui.subdomains
       (Ui.mkForm false (Some "example.com") None None false "") false None
     = None
  /\ Viz.click_subdomain_scan (mkEnv None false None false)
       (Viz.mkSubdomainForm "example.com" false false) None
     = None.
Proof.
  split; [reflexivity|]. split.
  - apply (proj1 (proj2 scan_needs_authorization)). reflexivity.
  - apply (proj1 (proj2 (proj2 (proj2 (proj2 (proj2
             scan_needs_authorization)))))). reflexivity.
Defined.

(** Every request that a click issues carries [authorized = true]. *)
Lemma click_start_authorized (raw : option string) (kind : Ui.Kind)
    (form : Ui.Form) (submitting : bool) (file : option string)
    (r : ScanPost) :
  Ui.click_start raw kind form submitting file = Some r ->
  post_authorized r = true.
Proof.
  unfold Ui.click_start. destruct (Ui.valid kind form) eqn:V; [|discriminate].
  apply valid_iff in V as [A _].
  destruct submitting; [discriminate|]. cbn [negb orb].
  unfold Ui.submit.
  destruct (_ && Ui.useUpload form).
  - destruct file; [|discriminate]. intros [= <-]. exact A.
  - intros [= <-]. exact A.
Qed.

Example click_start_examples :
  Ui.click_start None Ui.subdomains
    (Ui.mkForm true (Some "example.com") None None false "") false None
  = Some (mkScanPost "/api/recon/subdomains/scan" true None None)
  /\ Ui.valid Ui.ports (Ui.mkForm true None (Some []) None false "") = false
  /\ Ui.valid Ui.dirs (Ui.mkForm true (Some "example.com") None None false "")
     = false.
Proof. repeat split. Qed.

(** C2, as stated, fails in viz-recon-main: the guard of the port
    scan button tests the text of the targets field, and the list of
    targets is cut from that text by the handler only.  With a comma
    for a text and the authorization confirmed the button is enabled,
    the list of targets of the request is empty, and a click issues
    the request. *)
Lemma port_scan_without_targets :
  Viz.port_disabled (Viz.mkPortForm "," true false false) = false
  /\ Viz.request_targets (Viz.mkPortForm "," true false false) None = Some []
  /\ Viz.click_port_scan (mkEnv None false None false)
       (Viz.mkPortForm "," true false false) None None
     = Some (mkScanPost "/api/recon/ports/scan" true None None)
  /\ ~ (forall f file,
          Viz.port_disabled f = false ->
          exists l, Viz.request_targets f file = Some l /\ l <> []).
Proof.
  split; [reflexivity|]. split; [reflexivity|]. split; [reflexivity|].
  intros H.
  destruct (H (Viz.mkPortForm "," true false false) None eq_refl)
    as (l & E & Hl).
  apply Hl. now injection E as <-.
Qed.

(** In viz-recon-main the targets field of the ports form is the text
    of the text area: the guard tests that text. *)
Example port_guard_tests_the_text :
  Viz.port_disabled (Viz.mkPortForm "," true false false) = false.
Proof. reflexivity. Qed.

End GuardFacts.

(** ** Polling: the backend indicator *)

Section HealthFacts.

Import Api Viz Spec.

Lemma fetchMetrics_online (st : Dash) (metrics_x : Exchange Metrics)
    (health_x : Exchange unit) :
  isBackendOnline (fetchMetrics st metrics_x health_x)
  = json_succeeds metrics_x
    || match fetch_ok health_x with Some res_ok => res_ok | None => false end.
Proof.
  unfold fetchMetrics, json_succeeds.
  destruct (fetchJson metrics_x); [reflexivity|].
  destruct (fetch_ok health_x) as [[|]|]; reflexivity.
Qed.

Lemma fetchJobs_online (st : Dash) (jobs_x : Exchange (list Job)) :
  isBackendOnline (fetchJobs st jobs_x) = isBackendOnline st.
Proof. unfold fetchJobs. now destruct (fetchJson jobs_x). Qed.

(** C7, as amended: the indicator depends only on the outcome of the
    two probes.  Two polls in which the metrics request succeeds or
    fails alike (an ok response whose body parses) and the health
    responses have the same ok status leave the same online flag,
    whatever the jobs the backend lists, the jobs on display and the
    state before; the health hook of reconx/ui depends on the ok
    status of the health response alone. *)
Theorem online_depends_on_probes_only (st1 st2 : Dash)
    (metrics1 metrics2 : Exchange Metrics) (health1 health2 : Exchange unit)
    (jobs1 jobs2 : Exchange (list Job)) :
  json_succeeds metrics1 = json_succeeds metrics2 ->
  fetch_ok health1 = fetch_ok health2 ->
  isBackendOnline (poll st1 metrics1 health1 jobs1)
  = isBackendOnline (poll st2 metrics2 health2 jobs2)
  /\ Ui.check health1 = Ui.check health2.
Proof.
  intros Hm Hh. unfold poll.
  rewrite !fetchJobs_online, !fetchMetrics_online, Hm, Hh.
  unfold Ui.check. now rewrite Hh.
Qed.

(** Two polls with the same probe outcomes, one with a failed job on
    display, in the counters and in the jobs answer, one with no job
    at all. *)
Lemma online_depends_on_probes_only_witness :
  json_succeeds (Response true (Some metrics_after_failure))
    = json_succeeds (Response true (Some no_metrics))
  /\ fetch_ok (Response false None : Exchange unit)
     = fetch_ok (Response false None : Exchange unit)
  /\ isBackendOnline
       (poll (dash_with [failed_job])
          (Response true (Some metrics_after_failure)) (Response false None)
          (Response true (Some [failed_job])))
     = isBackendOnline
         (poll (dash_with [])
            (Response true (Some no_metrics)) (Response false None)
            (Response true (Some []))).
Proof.
  split; [reflexivity|]. split; [reflexivity|].
  exact (proj1 (online_depends_on_probes_only
                  (dash_with [failed_job]) (dash_with [])
                  (Response true (Some metrics_after_failure))
                  (Response true (Some no_metrics))
                  (Response false None) (Response false None)
                  (Response true (Some [failed_job]))
                  (Response true (Some []))
                  eq_refl eq_refl)).
Defined.

(** C7, as stated, fails: in two polls the metrics responses are both
    ok and the health responses both not ok, yet the flag differs,
    because the body of one metrics response does not parse. *)
Lemma online_not_fixed_by_ok_status :
  fetch_ok (Response true (Some no_metrics))
    = fetch_ok (Response true None : Exchange Metrics)
  /\ fetch_ok (Response false None : Exchange unit)
     = fetch_ok (Response false None : Exchange unit)
  /\ isBackendOnline
       (poll (dash_with [])
          (Response true (Some no_metrics)) (Response false None)
          (Response true (Some [])))
     = true
  /\ isBackendOnline
       (poll (dash_with [])
          (Response true None) (Response false None)
          (Response true (Some [])))
     = false.
Proof. repeat split. Qed.

Example fetchMetrics_cases :
  isBackendOnline
    (fetchMetrics (dash_with []) NetworkError (Response true None)) = true
  /\ isBackendOnline
       (fetchMetrics (dash_with []) (Response false None) NetworkError) = false
  /\ Ui.check (Response true None) = true
  /\ Ui.check (Response false None) = false
  /\ Ui.check NetworkError = false.
Proof. repeat split. Qed.

End HealthFacts.

(** ** Work lists from wordlist text *)

Section WordlistFacts.

Import Api Spec.

Lemma trimEnd_whitespace_end (x : string) (c : ascii) :
  Js.is_whitespace c = true ->
  Js.trimEnd (x ++ String c "") = Js.trimEnd x.
Proof.
  intros Hc. induction x as [|d x IH]; simpl.
  - now rewrite Hc.
  - now rewrite IH.
Qed.

Lemma trim_whitespace_end (x : string) (c : ascii) :
  Js.is_whitespace c = true ->
  Js.trim (x ++ String c "") = Js.trim x.
Proof.
  intros Hc. unfold Js.trim. induction x as [|d x IH]; simpl.
  - now rewrite Hc.
  - destruct (Js.is_whitespace d); [exact IH|].
    apply (trimEnd_whitespace_end (String d x) c Hc).
Qed.

Lemma trim_same_but_cr (a b : string) :
  same_but_cr a b -> Js.trim b = Js.trim a.
Proof.
  intros [->| ->]; [reflexivity|].
  now apply trim_whitespace_end.
Qed.

(** Putting a code unit in front of the first piece of both splits. *)
Lemma same_but_cr_cons (c : ascii) (l l' : list string) :
  Forall2 same_but_cr l l' ->
  Forall2 same_but_cr
    match l with
    | x :: xs => String c x :: xs
    | [] => [String c ""]
    end
    match l' with
    | x :: xs => String c x :: xs
    | [] => [String c ""]
    end.
Proof.
  intros H. destruct H as [|a b l l' Hab Hl].
  - constructor; [now left | constructor].
  - constructor; [|exact Hl].
    destruct Hab as [->| ->]; [now left | now right].
Qed.

(** Splitting at [CR? LF] against splitting at LF: the pieces pair up,
    and a piece of the second split has at most a CR more at its end. *)
Lemma split_newlines_split_char (s : string) :
  Forall2 same_but_cr (Js.split_newlines s) (Js.split_char Js.LF s)
  /\ forall c, Forall2 same_but_cr (Js.split_newlines (String c s))
                 (Js.split_char Js.LF (String c s)).
Proof.
  induction s as [|d s [IH1 IH2]].
  - split; [repeat constructor|].
    intros c. simpl. unfold Js.is_lf, Js.is_cr.
    destruct (Ascii.eqb c Js.LF); [repeat constructor|].
    destruct (Ascii.eqb c Js.CR); repeat constructor.
  - split; [apply IH2|].
    intros c.
    change (Js.split_char Js.LF (String c (String d s)))
      with (if Ascii.eqb c Js.LF then "" :: Js.split_char Js.LF (String d s)
            else match Js.split_char Js.LF (String d s) with
                 | l :: ls => String c l :: ls
                 | [] => [String c ""]
                 end).
    change (Js.split_newlines (String c (String d s)))
      with (if Js.is_lf c then "" :: Js.split_newlines (String d s)
            else if Js.is_cr c then
              if Js.is_lf d then "" :: Js.split_newlines s
              else match Js.split_newlines (String d s) with
                   | l :: ls => String c l :: ls
                   | [] => [String c ""]
                   end
            else match Js.split_newlines (String d s) with
                 | l :: ls => String c l :: ls
                 | [] => [String c ""]
                 end).
    unfold Js.is_lf at 1.
    destruct (Ascii.eqb c Js.LF) eqn:Ec.
    + constructor; [now left | apply IH2].
    + destruct (Js.is_cr c) eqn:Er; [|apply same_but_cr_cons, IH2].
      destruct (Js.is_lf d) eqn:Ed; [|apply same_but_cr_cons, IH2].
      unfold Js.is_cr in Er. apply Ascii.eqb_eq in Er. subst c.
      unfold Js.is_lf in Ed.
      change (Js.split_char Js.LF (String d s))
        with (if Ascii.eqb d Js.LF then "" :: Js.split_char Js.LF s
              else match Js.split_char Js.LF s with
                   | l :: ls => String d l :: ls
                   | [] => [String d ""]
                   end).
      rewrite Ed. constructor; [now right | exact IH1].
Qed.

Lemma map_trim_same_but_cr (l l' : list string) :
  Forall2 same_but_cr l l' -> map Js.trim l' = map Js.trim l.
Proof.
  induction 1 as [|a b l l' Hab _ IH]; simpl; [reflexivity|].
  now rewrite IH, (trim_same_but_cr a b Hab).
Qed.

Lemma filter_truthy_nonblank (l : list string) :
  filter Js.truthy l = filter (fun x => negb (x =? "")%string) l.
Proof. apply filter_ext. intros [|c x]; reflexivity. Qed.

(** The expression of both sources is the work list of the
    specification. *)
Lemma wordlist_expression (text : string) :
  filter Js.truthy (map Js.trim (Js.split_newlines text))
  = normalize_lines text.
Proof.
  unfold normalize_lines.
  rewrite (map_trim_same_but_cr _ _ (proj1 (split_newlines_split_char text))).
  apply filter_truthy_nonblank.
Qed.

Lemma trimEnd_idempotent (x : string) : Js.trimEnd (Js.trimEnd x) = Js.trimEnd x.
Proof.
  induction x as [|c x IH]; [reflexivity|]. simpl.
  destruct (Js.trimEnd x) as [|d t] eqn:E.
  - destruct (Js.is_whitespace c) eqn:W; simpl; [reflexivity | now rewrite W].
  - change (Js.trimEnd (String c (String d t)))
      with (match Js.trimEnd (String d t) with
            | "" => if Js.is_whitespace c then "" else String c ""
            | String a b => String c (String a b)
            end).
    now rewrite IH.
Qed.

Lemma trimStart_head (x : string) :
  Js.trimStart x = ""
  \/ exists c r, Js.trimStart x = String c r /\ Js.is_whitespace c = false.
Proof.
  induction x as [|c x IH]; [now left|]. simpl.
  destruct (Js.is_whitespace c) eqn:W; [exact IH|].
  right. now exists c, x.
Qed.

Lemma trimEnd_keeps_head (c : ascii) (r : string) :
  Js.is_whitespace c = false ->
  exists r', Js.trimEnd (String c r) = String c r'.
Proof.
  intros W. simpl. destruct (Js.trimEnd r); rewrite ?W; eauto.
Qed.

(** A trimmed string is its own trim. *)
Lemma trim_idempotent (x : string) : Js.trim (Js.trim x) = Js.trim x.
Proof.
  unfold Js.trim.
  destruct (trimStart_head x) as [E|(c & r & E & W)]; rewrite E.
  - reflexivity.
  - destruct (trimEnd_keeps_head c r W) as [r' E'].
    rewrite E'. simpl Js.trimStart. rewrite W.
    rewrite <- E'. apply trimEnd_idempotent.
Qed.

(** The entries of a work list are not blank and are trimmed. *)
Lemma normalize_lines_entries (text : string) :
  Forall (fun e => e <> "" /\ Js.trim e = e) (normalize_lines text).
Proof.
  apply Forall_forall. intros e He. unfold normalize_lines in He.
  apply filter_In in He as [Hin Hne]. split.
  - intros ->. discriminate.
  - apply in_map_iff in Hin as (x & <- & _). apply trim_idempotent.
Qed.

(** C3: for a wordlist given as text, the request of viz-recon-main's
    [handleDirScan] and the request of reconx/ui's [submit] carry the
    same work list: the lines of the text, split at line feeds with or
    without a carriage return before them, each trimmed, the blank
    ones dropped. *)
Theorem wordlist_paths_agree (env : Env) (raw : option string)
    (vf : Viz.DirForm) (uf : Ui.Form) (text : string)
    (file1 file2 : option string) :
  text <> "" ->
  Viz.wordlistText vf = text -> Viz.useUpload vf = true ->
  Ui.wordlistText uf = text -> Ui.useUpload uf = false ->
  exists r1 r2,
    Viz.handleDirScan env vf file1 = Some r1
    /\ Ui.submit raw Ui.dirs uf file2 = Some r2
    /\ post_wordlist r1 = Some (normalize_lines text)
    /\ post_wordlist r2 = post_wordlist r1
    /\ Forall (fun e => e <> "" /\ Js.trim e = e) (normalize_lines text).
Proof.
  intros Ht Hv Hvu Hu Huu.
  apply truthy_true_iff in Ht.
  unfold Viz.handleDirScan, Ui.submit.
  rewrite Hv, Hvu, Hu, Huu, Ht. cbn [andb].
  do 2 eexists. split; [reflexivity|]. split; [reflexivity|].
  cbn [post_wordlist]. rewrite wordlist_expression.
  repeat split. apply normalize_lines_entries.
Qed.

(** Both paths on a text with a CR LF line end, padding and a blank
    line. *)
Lemma wordlist_paths_agree_witness :
  wordlist_sample <> ""
  /\ exists r1 r2,
       Viz.handleDirScan (mkEnv None false None false)
         (Viz.mkDirForm "https://example.com" true true wordlist_sample) None
       = Some r1
       /\ Ui.submit None Ui.dirs
            (Ui.mkForm true None None (Some "https://example.com") false
               wordlist_sample) None
          = Some r2
       /\ post_wordlist r1 = Some ["admin"; "login"; "backup"]
       /\ post_wordlist r2 = post_wordlist r1.
Proof.
  split; [discriminate|].
  destruct (wordlist_paths_agree (mkEnv None false None false) None
              (Viz.mkDirForm "https://example.com" true true wordlist_sample)
              (Ui.mkForm true None None (Some "https://example.com") false
                 wordlist_sample)
              wordlist_sample None None
              ltac:(discriminate) eq_refl eq_refl eq_refl eq_refl)
    as (r1 & r2 & H1 & H2 & H3 & H4 & _).
  exists r1, r2. repeat split; assumption.
Defined.

Example split_newlines_examples :
  Js.split_newlines wordlist_sample = ["admin"; "  login "; ""; "backup"]
  /\ Js.split_newlines "" = [""]
  /\ Js.split_newlines (String Js.CR "a") = [String Js.CR "a"]
  /\ Js.split_char Js.LF (String Js.CR (String Js.LF "a"))
     = [String Js.CR ""; "a"].
Proof. repeat split. Qed.

(** In viz-recon-main a wordlist text is sent only while the upload
    switch is on; with the switch off the request has no work list. *)
Example handleDirScan_default_path :
  Viz.handleDirScan (mkEnv None false None false)
    (Viz.mkDirForm "https://example.com" true false wordlist_sample) None
  = Some (mkScanPost "/api/recon/dirs/scan" true None None).
Proof. reflexivity. Qed.

End WordlistFacts.

(** ** Reports *)

(** Case analysis along the tests of [buildReportTable]. *)
Ltac by_job_type job :=
  destruct (Api.type job =? "dirs")%string;
  [|destruct (Api.type job =? "ports")%string].

Section ReportFacts.

Import Api Viz Spec.

Variable env : Env.
Variable host : DateUtil.Host.

Lemma buildReportTable_rows (job : Job) (findings : list Finding) :
  rows (buildReportTable host job findings)
  = map (row_for host (type job)) findings.
Proof.
  unfold buildReportTable, row_for. by_job_type job; reflexivity.
Qed.

Lemma buildReportTable_headers (job : Job) (findings : list Finding) :
  headers (buildReportTable host job findings)
  = if (type job =? "dirs")%string
    then ["URL"; "Status"; "Length"; "Title"; "Type"; "Redirect"]
    else if (type job =? "ports")%string
    then ["Target"; "Port"; "Status"; "Banner"]
    else ["Subdomain"; "IPs"; "First Seen"; "Last Seen"].
Proof.
  unfold buildReportTable. by_job_type job; reflexivity.
Qed.

(** One run of [exportTXT]: the request it makes and what follows
    from the answer. *)
Lemma exportTXT_run (job : Job) (w : World) :
  let url := findings_url env job (now w) in
  let answer := fetchJson (findings_endpoint w url (List.length (requests w))) in
  snd (exportTXT env host job w)
  = match answer with
    | Some (Some data) =>
        mkWorld (now w) (findings_endpoint w) (requests w ++ [url])
          (downloads w ++ [(report_filename job, report_text host job data (now w))])
          (toasts w ++ ["TXT exported"])
    | _ =>
        mkWorld (now w) (findings_endpoint w) (requests w ++ [url])
          (downloads w) (toasts w ++ ["TXT export failed"])
    end.
Proof.
  intros url answer. unfold exportTXT, bind, Date_now, fetch_findings.
  cbn [now]. fold url. fold answer.
  destruct answer as [[data|]|]; reflexivity.
Qed.

Lemma join_tabbed (cells : list string) :
  Js.join (String Js.TAB "") cells = tabbed cells.
Proof.
  induction cells as [|c [|d tl] IH]; [reflexivity | reflexivity |].
  change (c ++ String Js.TAB "" ++ Js.join (String Js.TAB "") (d :: tl)
          = c ++ String Js.TAB (tabbed (d :: tl))).
  now rewrite IH.
Qed.

(** Lines joined by line feeds: the first line, and every further
    line after a line feed. *)
Lemma join_lines (first : string) (rest : list string) :
  Js.join (String Js.LF "") (first :: rest)
  = first ++ fold_right (fun l acc => String Js.LF l ++ acc) "" rest.
Proof.
  revert first. induction rest as [|l rest IH]; intros first.
  - cbn [Js.join fold_right]. now rewrite append_empty_r.
  - change (first ++ String Js.LF "" ++ Js.join (String Js.LF "") (l :: rest)
            = first ++ String Js.LF l
                ++ fold_right (fun l acc => String Js.LF l ++ acc) "" rest).
    now rewrite IH.
Qed.

Lemma finding_lines_rows (job : Job) (data : list Finding) :
  fold_right (fun l acc => String Js.LF l ++ acc) ""
    (map (fun row => Js.join (String Js.TAB "") row)
       (map (row_for host (type job)) data))
  = finding_lines host (type job) data.
Proof.
  induction data as [|f data IH]; [reflexivity|].
  cbn [map fold_right finding_lines]. now rewrite IH, join_tabbed.
Qed.

(** The text that an export downloads, written out. *)
Lemma report_text_written_out (job : Job) (data : list Finding) (t : Z) :
  report_text host job data t = exported_text host job data t.
Proof.
  unfold report_text, report_lines, exported_text, report_title.
  rewrite buildReportTable_rows, buildReportTable_headers.
  fold (headers_of (type job)).
  cbn [app]. rewrite join_lines. cbn [fold_right].
  rewrite finding_lines_rows, join_tabbed.
  rewrite <- !append_assoc. reflexivity.
Qed.

(** C5: the report table has one row per finding, in the order of the
    findings list; its headers are fixed by the type of the job and
    are the payload fields of the kind; an export requests the
    findings once, and the text it downloads is built from the list of
    that one answer: after the title, the time of the export and an
    empty line it has the line of the headers and then one line per
    finding of the answer, in order, each the row of that finding
    with tabs between the cells. *)
Theorem report_rows_and_single_fetch (job : Job) (findings : list Finding)
    (w : World) :
  let table := buildReportTable host job findings in
  let w' := snd (exportTXT env host job w) in
  let url := findings_url env job (now w) in
  List.length (rows table) = List.length findings
  /\ (forall i, nth_error (rows table) i
                = option_map (row_for host (type job)) (nth_error findings i))
  /\ headers table = headers (buildReportTable host job [])
  /\ (type job = "dirs" ->
      headers table = ["URL"; "Status"; "Length"; "Title"; "Type"; "Redirect"])
  /\ (type job = "ports" ->
      headers table = ["Target"; "Port"; "Status"; "Banner"])
  /\ (type job = "subdomains" ->
      headers table = ["Subdomain"; "IPs"; "First Seen"; "Last Seen"])
  /\ requests w' = (requests w ++ [url])%list
  /\ (forall data,
        fetchJson (findings_endpoint w url (List.length (requests w)))
          = Some (Some data) ->
        downloads w'
        = (downloads w
             ++ [(report_filename job,
                  exported_text host job data (now w))])%list).
Proof.
  intros table w' url. subst table.
  rewrite buildReportTable_rows, !buildReportTable_headers.
  split; [apply length_map|].
  split; [intros i; apply nth_error_map|].
  split; [reflexivity|].
  split; [now intros ->|]. split; [now intros ->|]. split; [now intros ->|].
  subst w'. rewrite exportTXT_run. fold url. split.
  - destruct (fetchJson _) as [[data|]|]; reflexivity.
  - intros data ->. cbn [downloads]. now rewrite report_text_written_out.
Qed.

End ReportFacts.

(** An export of two port findings at noon of a leap day: one
    request, and a download of the title, the time, an empty line, the
    headers and the two findings in the order of the answer. *)
Lemma report_rows_and_single_fetch_witness :
  Api.type Spec.ports_job = "ports"
  /\ Api.fetchJson
       (Viz.findings_endpoint
          (Spec.world_with [Spec.ssh_finding_plain; Spec.http_finding]
             951827696000)
          (Viz.findings_url (Api.mkEnv None false None false) Spec.ports_job
             951827696000) 0)
     = Some (Some [Spec.ssh_finding_plain; Spec.http_finding])
  /\ Viz.headers
       (Viz.buildReportTable Spec.utc_host Spec.ports_job
          [Spec.ssh_finding_plain; Spec.http_finding])
     = ["Target"; "Port"; "Status"; "Banner"]
  /\ Viz.downloads
       (snd (Viz.exportTXT (Api.mkEnv None false None false) Spec.utc_host
               Spec.ports_job
               (Spec.world_with [Spec.ssh_finding_plain; Spec.http_finding]
                  951827696000)))
     = [("reconx_ports_5.txt",
         "# ReconX Report " ++ Viz.em_dash ++ " PORTS (10.0.0.1 "
           ++ Viz.bullet ++ " )"
           ++ String Js.LF "Generated: 2000-02-29 12:34:56"
           ++ String Js.LF ""
           ++ String Js.LF
                ("Target" ++ String Js.TAB "Port" ++ String Js.TAB "Status"
                   ++ String Js.TAB "Banner")
           ++ String Js.LF
                ("10.0.0.1" ++ String Js.TAB "22" ++ String Js.TAB "open"
                   ++ String Js.TAB "SSH-2.0-OpenSSH_8.9")
           ++ String Js.LF
                ("10.0.0.1" ++ String Js.TAB "80" ++ String Js.TAB "closed"
                   ++ String Js.TAB ""))].
Proof.
  pose (T := report_rows_and_single_fetch (Api.mkEnv None false None false)
               Spec.utc_host Spec.ports_job
               [Spec.ssh_finding_plain; Spec.http_finding]
               (Spec.world_with [Spec.ssh_finding_plain; Spec.http_finding]
                  951827696000)).
  split; [reflexivity|]. split; [reflexivity|]. split.
  - apply (proj1 (proj2 (proj2 (proj2 (proj2 T))))). reflexivity.
  - rewrite (proj2 (proj2 (proj2 (proj2 (proj2 (proj2 (proj2 T))))))
               [Spec.ssh_finding_plain; Spec.http_finding] eq_refl).
    reflexivity.
Defined.

Example exportTXT_example :
  let w' :=
    snd (Viz.exportTXT (Api.mkEnv None false None false) Spec.utc_host
           Spec.ports_job (Spec.world_with [Spec.http_finding] 951827696000)) in
  Viz.requests w' = ["/api/jobs/5/findings?t=951827696000"]
  /\ Viz.toasts w' = ["TXT exported"]
  /\ map fst (Viz.downloads w') = ["reconx_ports_5.txt"]
  /\ map (fun d => skipn 1 (Js.split_char Js.LF (snd d))) (Viz.downloads w')
     = [[ "Generated: 2000-02-29 12:34:56"; "";
          "Target" ++ String Js.TAB "Port" ++ String Js.TAB "Status"
             ++ String Js.TAB "Banner";
          "10.0.0.1" ++ String Js.TAB "80" ++ String Js.TAB "closed"
             ++ String Js.TAB "" ]].
Proof. repeat split. Qed.

(** ** Reading a text report back *)

Section ReparseFacts.

Import Api Viz Spec.

Lemma free_of_append (c : ascii) (a b : string) :
  free_of c (a ++ b) = free_of c a && free_of c b.
Proof.
  induction a as [|x a IH]; simpl; [reflexivity|].
  now rewrite IH, andb_assoc.
Qed.

Lemma split_char_free (c : ascii) (x : string) :
  free_of c x = true -> Js.split_char c x = [x].
Proof.
  induction x as [|a x IH]; simpl; [reflexivity|].
  intros H. apply andb_prop in H as [Ha Hx].
  apply negb_true_iff in Ha. rewrite Ha, (IH Hx). reflexivity.
Qed.

Lemma split_char_append (c : ascii) (x y : string) :
  free_of c x = true ->
  Js.split_char c (x ++ String c y) = x :: Js.split_char c y.
Proof.
  induction x as [|a x IH]; simpl; intros H.
  - now rewrite Ascii.eqb_refl.
  - apply andb_prop in H as [Ha Hx].
    apply negb_true_iff in Ha. rewrite Ha, (IH Hx). reflexivity.
Qed.

(** Splitting a joined list gives the list back when no element holds
    the separator. *)
Lemma split_char_join (c : ascii) (l : list string) :
  l <> [] ->
  Forall (fun x => free_of c x = true) l ->
  Js.split_char c (Js.join (String c "") l) = l.
Proof.
  induction l as [|x l IH]; [congruence|].
  intros _ H. inversion H as [|? ? Hx Hl]; subst.
  destruct l as [|y l].
  - simpl. now apply split_char_free.
  - change (Js.join (String c "") (x :: y :: l))
      with (x ++ String c (Js.join (String c "") (y :: l))).
    rewrite (split_char_append c x _ Hx), IH; [reflexivity|discriminate|exact Hl].
Qed.

Lemma free_of_join (c : ascii) (sep : string) (l : list string) :
  free_of c sep = true ->
  Forall (fun x => free_of c x = true) l ->
  free_of c (Js.join sep l) = true.
Proof.
  intros Hs. induction l as [|x l IH]; intros H; [reflexivity|].
  inversion H as [|? ? Hx Hl]; subst.
  destruct l as [|y l]; [exact Hx|].
  change (Js.join sep (x :: y :: l)) with (x ++ sep ++ Js.join sep (y :: l)).
  now rewrite !free_of_append, Hx, Hs, (IH Hl).
Qed.

Lemma digits_free_of (c : ascii) (s : string) :
  Js.is_digit c = false -> all_digits s = true -> free_of c s = true.
Proof.
  intros Hc. induction s as [|a s IH]; simpl; [reflexivity|].
  intros H. apply andb_prop in H as [Ha Hs]. rewrite (IH Hs), andb_true_r.
  apply negb_true_iff. apply Ascii.eqb_neq. intros ->. congruence.
Qed.

(** A formatted date holds neither a line feed nor a tab. *)
Lemma formatDateTime_free_of (host : DateUtil.Host) (t : Z) (c : ascii) :
  c = Js.LF \/ c = Js.TAB ->
  free_of c (DateUtil.formatDateTime host (DateUtil.DDate (Some t)) None)
  = true.
Proof.
  intros Hc.
  assert (Hd : Js.is_digit c = false) by (destruct Hc as [-> | ->]; reflexivity).
  assert (Hm : Ascii.eqb "-" c = false) by (destruct Hc as [-> | ->]; reflexivity).
  assert (Hs : Ascii.eqb " " c = false) by (destruct Hc as [-> | ->]; reflexivity).
  assert (Hk : Ascii.eqb ":" c = false) by (destruct Hc as [-> | ->]; reflexivity).
  destruct (formatDateTime_of_date host t None)
    as (Y & M & D & h & m & s & E & HY & HM & HD & Hh & Hmi & Hse).
  rewrite E. cbn [DateUtil.opt_utc Js.nullish].
  destruct HY as (body & HY & _ & Hbody).
  assert (FY : free_of c Y = true).
  { destruct HY as [-> | ->]; [now apply digits_free_of|].
    cbn [free_of]. rewrite Hm. now apply digits_free_of. }
  rewrite !free_of_append. cbn [free_of]. rewrite Hm, Hs, Hk, FY.
  rewrite (digits_free_of c M Hd (proj2 HM)), (digits_free_of c D Hd (proj2 HD)),
    (digits_free_of c h Hd (proj2 Hh)), (digits_free_of c m Hd (proj2 Hmi)),
    (digits_free_of c s Hd (proj2 Hse)).
  reflexivity.
Qed.

Lemma plain_row_line (row : list string) :
  Forall plain_cell row ->
  free_of Js.LF (Js.join (String Js.TAB "") row) = true.
Proof.
  intros H. apply free_of_join; [reflexivity|].
  eapply Forall_impl; [|exact H]. now intros x [_ Hx].
Qed.

Lemma plain_row_split (row : list string) :
  row <> [] -> Forall plain_cell row ->
  Js.split_char Js.TAB (Js.join (String Js.TAB "") row) = row.
Proof.
  intros Hne H. apply split_char_join; [exact Hne|].
  eapply Forall_impl; [|exact H]. now intros x [Hx _].
Qed.

(** The lines written for a table of plain cells read back as the
    header row and the rows. *)
Lemma report_lines_reparse (host : DateUtil.Host) (job : Job) (table : Table)
    (t : Z) :
  free_of Js.LF (report_title host job) = true ->
  headers table <> [] -> Forall plain_cell (headers table) ->
  Forall (fun row => row <> [] /\ Forall plain_cell row) (rows table) ->
  reparse (Js.join (String Js.LF "") (report_lines host job table t))
  = headers table :: rows table.
Proof.
  intros Ht Hh0 Hh Hr. unfold reparse, report_lines.
  rewrite split_char_join.
  - cbn [app skipn map]. rewrite (plain_row_split _ Hh0 Hh). f_equal.
    induction Hr as [|row l [Hne Hrow] _ IH]; [reflexivity|].
    cbn [map]. now rewrite (plain_row_split _ Hne Hrow), IH.
  - discriminate.
  - repeat (apply Forall_cons); try reflexivity.
    + exact Ht.
    + rewrite free_of_append, formatDateTime_free_of by now left. reflexivity.
    + now apply plain_row_line.
    + apply Forall_forall. intros line Hl.
      apply in_map_iff in Hl as (row & <- & Hin).
      rewrite Forall_forall in Hr. now apply plain_row_line, Hr.
Qed.

Lemma buildReportTable_headers_plain (host : DateUtil.Host) (job : Job)
    (data : list Finding) :
  headers (buildReportTable host job data) <> []
  /\ Forall plain_cell (headers (buildReportTable host job data)).
Proof.
  unfold buildReportTable.
  by_job_type job; (split; [discriminate | repeat constructor]).
Qed.

Lemma buildReportTable_rows_nonempty (host : DateUtil.Host) (job : Job)
    (data : list Finding) (row : list string) :
  In row (rows (buildReportTable host job data)) -> row <> [].
Proof.
  unfold buildReportTable.
  by_job_type job; cbn [rows]; intros H;
    apply in_map_iff in H as (f & <- & _); discriminate.
Qed.

(** C6, as amended: when the title line of the report holds no line
    feed and no cell of the report table holds a tab or a line feed,
    reading the exported text back (split into lines, the two lines of
    the preamble and the blank separator dropped, each remaining line
    split at tabs) gives the header row followed by the rows of the
    table built from the findings answer, cell for cell. *)
Theorem export_reparses_plain_table (env : Env) (host : DateUtil.Host)
    (job : Job) (w : World) (data : list Finding) :
  let table := buildReportTable host job data in
  fetchJson
    (findings_endpoint w (findings_url env job (now w))
       (List.length (requests w)))
    = Some (Some data) ->
  free_of Js.LF (report_title host job) = true ->
  Forall (Forall plain_cell) (rows table) ->
  exists content,
    downloads (snd (exportTXT env host job w))
    = (downloads w ++ [(report_filename job, content)])%list
    /\ reparse content = headers table :: rows table.
Proof.
  intros table Hf Ht Hr.
  exists (report_text host job data (now w)). split.
  - rewrite exportTXT_run. cbv zeta. now rewrite Hf.
  - unfold report_text. fold table.
    destruct (buildReportTable_headers_plain host job data) as [H0 Hp].
    apply report_lines_reparse; try assumption.
    apply Forall_forall. intros row Hin. split.
    + now apply (buildReportTable_rows_nonempty host job data).
    + rewrite Forall_forall in Hr. now apply Hr.
Qed.

End ReparseFacts.

(** A report of one closed port reads back as it was built. *)
Lemma export_reparses_plain_table_witness :
  Api.fetchJson
    (Viz.findings_endpoint (Spec.world_with [Spec.http_finding] 0)
       (Viz.findings_url (Api.mkEnv None false None false) Spec.ports_job 0) 0)
    = Some (Some [Spec.http_finding])
  /\ Spec.free_of Js.LF (Viz.report_title Spec.utc_host Spec.ports_job) = true
  /\ Forall (Forall Spec.plain_cell)
       (Viz.rows
          (Viz.buildReportTable Spec.utc_host Spec.ports_job
             [Spec.http_finding]))
  /\ exists content,
       Viz.downloads
         (snd (Viz.exportTXT (Api.mkEnv None false None false) Spec.utc_host
                 Spec.ports_job (Spec.world_with [Spec.http_finding] 0)))
       = [("reconx_ports_5.txt", content)]
       /\ Spec.reparse content
          = [ ["Target"; "Port"; "Status"; "Banner"];
              ["10.0.0.1"; "80"; "closed"; ""] ].
Proof.
  assert (Hr : Forall (Forall Spec.plain_cell)
                 (Viz.rows
                    (Viz.buildReportTable Spec.utc_host Spec.ports_job
                       [Spec.http_finding]))).
  { repeat constructor. }
  split; [reflexivity|]. split; [reflexivity|]. split; [exact Hr|].
  exact (export_reparses_plain_table (Api.mkEnv None false None false)
           Spec.utc_host Spec.ports_job
           (Spec.world_with [Spec.http_finding] 0) [Spec.http_finding]
           eq_refl eq_refl Hr).
Defined.

(** C6, as stated, fails: the banner of a port finding ends with the
    line end the service sent, and the exported report read back has a
    row cut in two; it is neither the table with its header row nor,
    after the header, the rows of the table. *)
Lemma export_reparse_breaks_on_line_end :
  map (fun d => Spec.reparse (snd d))
    (Viz.downloads
       (snd (Viz.exportTXT (Api.mkEnv None false None false) Spec.utc_host
               Spec.ports_job (Spec.world_with [Spec.ssh_finding] 0))))
  = [[ ["Target"; "Port"; "Status"; "Banner"];
       ["10.0.0.1"; "22"; "open"; "SSH-2.0-OpenSSH_8.9" ++ String Js.CR ""];
       [""] ]]
  /\ Viz.buildReportTable Spec.utc_host Spec.ports_job [Spec.ssh_finding]
     = Viz.mkTable ["Target"; "Port"; "Status"; "Banner"]
         [ ["10.0.0.1"; "22"; "open";
            "SSH-2.0-OpenSSH_8.9" ++ String Js.CR (String Js.LF "")] ]
  /\ map (fun d => Spec.reparse (snd d))
       (Viz.downloads
          (snd (Viz.exportTXT (Api.mkEnv None false None false) Spec.utc_host
                  Spec.ports_job (Spec.world_with [Spec.ssh_finding] 0))))
     <> [ Viz.headers
            (Viz.buildReportTable Spec.utc_host Spec.ports_job
               [Spec.ssh_finding])
          :: Viz.rows
               (Viz.buildReportTable Spec.utc_host Spec.ports_job
                  [Spec.ssh_finding]) ]
  /\ map (fun d => tl (Spec.reparse (snd d)))
       (Viz.downloads
          (snd (Viz.exportTXT (Api.mkEnv None false None false) Spec.utc_host
                  Spec.ports_job (Spec.world_with [Spec.ssh_finding] 0))))
     <> [ Viz.rows
            (Viz.buildReportTable Spec.utc_host Spec.ports_job
               [Spec.ssh_finding]) ].
Proof. repeat split; discriminate. Qed.

(* ================================================================== *)
(** * Further properties of the sources *)
(* ================================================================== *)

(** ** Report tables and exports *)

Section ReportMore.

Import Api Viz Spec.

Variable env : Env.
Variable host : DateUtil.Host.

(** X1: the report table is rectangular: every row has as many cells
    as the table has headers, six for a dirs job and four otherwise,
    whatever fields the findings hold or miss. *)
Theorem report_table_rectangular (job : Job) (findings : list Finding) :
  let table := buildReportTable host job findings in
  Forall (fun row => List.length row = List.length (headers table))
    (rows table)
  /\ (List.length (headers table) = 6%nat
      \/ List.length (headers table) = 4%nat)
  /\ (List.length (headers table) = 6%nat <-> type job = "dirs").
Proof.
  intros table. subst table. unfold buildReportTable.
  destruct (String.eqb_spec (type job) "dirs") as [E|E].
  - cbn [rows headers]. split; [|split; [now left | tauto]].
    apply Forall_forall. intros row H.
    apply in_map_iff in H as (f & <- & _). reflexivity.
  - assert (R : forall b : bool,
              Forall (fun row => List.length row = 4%nat)
                (rows (if b
                       then mkTable ["Target"; "Port"; "Status"; "Banner"]
                              (map ports_row findings)
                       else mkTable
                              ["Subdomain"; "IPs"; "First Seen"; "Last Seen"]
                              (map (subdomains_row host) findings)))).
    { intros [|]; cbn [rows]; apply Forall_forall; intros row H;
        apply in_map_iff in H as (f & <- & _); reflexivity. }
    destruct (type job =? "ports")%string; cbn [headers List.length];
      (split; [apply R with (b := true) || apply R with (b := false)|]);
      (split; [now right|]); split; intros H; try discriminate; contradiction.
Qed.

(** X2: an export whose findings request fails, is answered with a
    status that is not ok, or is answered with a body that is not an
    array, downloads nothing: it makes its one request and ends in
    the error toast. *)
Theorem exportTXT_failure (job : Job) (w : World) :
  (forall data,
      fetchJson
        (findings_endpoint w (findings_url env job (now w))
           (List.length (requests w)))
      <> Some (Some data)) ->
  let w' := snd (exportTXT env host job w) in
  downloads w' = downloads w
  /\ toasts w' = (toasts w ++ ["TXT export failed"])%list
  /\ requests w' = (requests w ++ [findings_url env job (now w)])%list.
Proof.
  intros H w'. subst w'. rewrite exportTXT_run. cbv zeta.
  destruct (fetchJson _) as [[data|]|]; [|repeat split..].
  now destruct (H data).
Qed.

End ReportMore.

(** An export against a backend that answers 500. *)
Lemma exportTXT_failure_witness :
  (forall data,
      Api.fetchJson
        (Viz.findings_endpoint Spec.world_down
           (Viz.findings_url Spec.env_relative Spec.ports_job
              (Viz.now Spec.world_down))
           (List.length (Viz.requests Spec.world_down)))
      <> Some (Some data))
  /\ Viz.downloads
       (snd (Viz.exportTXT Spec.env_relative Spec.utc_host Spec.ports_job
               Spec.world_down))
     = [].
Proof.
  assert (H : forall data,
             Api.fetchJson
               (Viz.findings_endpoint Spec.world_down
                  (Viz.findings_url Spec.env_relative Spec.ports_job
                     (Viz.now Spec.world_down))
                  (List.length (Viz.requests Spec.world_down)))
             <> Some (Some data)) by (intros data; discriminate).
  split; [exact H|].
  exact (proj1 (exportTXT_failure Spec.env_relative Spec.utc_host
                  Spec.ports_job Spec.world_down H)).
Defined.

(** ** Work lists, once more *)

Section WordlistMore.

Import Api Spec.

Lemma split_char_pieces_free (c : ascii) (s : string) :
  Forall (fun x => free_of c x = true) (Js.split_char c s).
Proof.
  induction s as [|a s IH]; simpl; [repeat constructor|].
  destruct (Ascii.eqb a c) eqn:E; [constructor; [reflexivity | exact IH]|].
  destruct (Js.split_char c s) as [|l ls]; [repeat constructor; simpl; now rewrite E|].
  inversion IH as [|? ? Hl Hls]; subst.
  constructor; [simpl; now rewrite E, Hl | exact Hls].
Qed.

Lemma free_of_trimStart (c : ascii) (s : string) :
  free_of c s = true -> free_of c (Js.trimStart s) = true.
Proof.
  induction s as [|a s IH]; [reflexivity|]. intros H.
  simpl. destruct (Js.is_whitespace a); [|exact H].
  simpl in H. apply andb_prop in H as [_ H]. now apply IH.
Qed.

Lemma free_of_trimEnd (c : ascii) (s : string) :
  free_of c s = true -> free_of c (Js.trimEnd s) = true.
Proof.
  induction s as [|a s IH]; [reflexivity|]. intros H.
  simpl in H. apply andb_prop in H as [Ha Hs]. specialize (IH Hs).
  simpl. destruct (Js.trimEnd s) as [|b t].
  - destruct (Js.is_whitespace a); [reflexivity|]. simpl. now rewrite Ha.
  - cbn [free_of]. cbn [free_of] in IH. now rewrite Ha, IH.
Qed.

Lemma free_of_trim (c : ascii) (s : string) :
  free_of c s = true -> free_of c (Js.trim s) = true.
Proof. intros H. unfold Js.trim. now apply free_of_trimEnd, free_of_trimStart. Qed.

(** No entry of a work list holds a line feed. *)
Lemma normalize_lines_free (text : string) :
  Forall (fun e => free_of Js.LF e = true) (normalize_lines text).
Proof.
  apply Forall_forall. intros e He. unfold normalize_lines in He.
  apply filter_In in He as [Hin _].
  apply in_map_iff in Hin as (x & <- & Hx).
  apply free_of_trim.
  pose proof (split_char_pieces_free Js.LF text) as H.
  rewrite Forall_forall in H. now apply H.
Qed.

(** Writing a work list one entry per line and normalizing the text
    gives the work list back. *)
Lemma normalize_lines_join (text : string) :
  normalize_lines (Js.join (String Js.LF "") (normalize_lines text))
  = normalize_lines text.
Proof.
  pose proof (normalize_lines_entries text) as He.
  pose proof (normalize_lines_free text) as Hf.
  destruct (normalize_lines text) as [|e l] eqn:E; [reflexivity|].
  unfold normalize_lines at 1.
  rewrite split_char_join; [|discriminate|exact Hf].
  assert (M : map Js.trim (e :: l) = e :: l).
  { clear -He. induction He as [|x xs [_ Hx] _ IH]; [reflexivity|].
    cbn [map]. now rewrite Hx, IH. }
  rewrite M. clear -He.
  induction He as [|x xs [Hx _] _ IH]; [reflexivity|].
  cbn [filter]. destruct (String.eqb_spec x "") as [->|_]; [contradiction|].
  cbn [negb]. now rewrite IH.
Qed.

Lemma normalize_lines_join_truthy (text : string) :
  normalize_lines text <> [] ->
  Js.truthy (Js.join (String Js.LF "") (normalize_lines text)) = true.
Proof.
  pose proof (normalize_lines_entries text) as He.
  destruct (normalize_lines text) as [|e l]; [congruence|]. intros _.
  inversion He as [|? ? [Hne _] _]; subst.
  destruct e as [|a e]; [contradiction|].
  destruct l; reflexivity.
Qed.

(** X3: the work list of a directory scan is in normal form: when a
    request of [handleDirScan] carries a work list that is not empty,
    a form whose wordlist text is that work list written one entry per
    line sends the same work list again. *)
Theorem wordlist_resubmission (env : Env) (f f' : Viz.DirForm)
    (file file' : option string) (r : ScanPost) (l : list string) :
  Viz.handleDirScan env f file = Some r ->
  post_wordlist r = Some l -> l <> [] ->
  Viz.useUpload f' = true ->
  Viz.wordlistText f' = Js.join (String Js.LF "") l ->
  exists r', Viz.handleDirScan env f' file' = Some r'
             /\ post_wordlist r' = Some l.
Proof.
  intros Hr Hl Hne Hu Ht.
  assert (E : l = normalize_lines (Viz.wordlistText f)).
  { unfold Viz.handleDirScan in Hr.
    destruct (Viz.useUpload f && Js.truthy (Viz.wordlistText f)).
    - injection Hr as <-. cbn [post_wordlist] in Hl.
      rewrite wordlist_expression in Hl. congruence.
    - destruct (Viz.useUpload f).
      + destruct file; [|discriminate]. injection Hr as <-. discriminate.
      + injection Hr as <-. discriminate. }
  subst l. unfold Viz.handleDirScan. rewrite Hu, Ht.
  rewrite (normalize_lines_join_truthy _ Hne). cbn [andb].
  eexists. split; [reflexivity|]. cbn [post_wordlist].
  now rewrite wordlist_expression, normalize_lines_join.
Qed.

Lemma wordlist_resubmission_witness :
  Viz.handleDirScan env_relative
    (Viz.mkDirForm "https://example.com" true true wordlist_sample) None
  = Some (mkScanPost "/api/recon/dirs/scan" true
            (Some ["admin"; "login"; "backup"]) None)
  /\ ["admin"; "login"; "backup"] <> []
  /\ exists r',
       Viz.handleDirScan env_relative
         (Viz.mkDirForm "https://example.com" true true
            (Js.join (String Js.LF "") ["admin"; "login"; "backup"])) None
       = Some r'
       /\ post_wordlist r' = Some ["admin"; "login"; "backup"].
Proof.
  split; [reflexivity|]. split; [discriminate|].
  exact (wordlist_resubmission env_relative
           (Viz.mkDirForm "https://example.com" true true wordlist_sample)
           (Viz.mkDirForm "https://example.com" true true
              (Js.join (String Js.LF "") ["admin"; "login"; "backup"]))
           None None _ ["admin"; "login"; "backup"]
           eq_refl eq_refl ltac:(discriminate) eq_refl eq_refl).
Defined.

(** X4: with the upload switch on and a wordlist text present, the
    two dashboards part ways: [handleDirScan] of viz-recon-main sends
    the text as the work list and never the chosen file, [submit] of
    reconx/ui sends the chosen file and never the text, and throws
    when no file is chosen. *)
Theorem upload_switch_with_text (env : Env) (raw : option string)
    (vf : Viz.DirForm) (uf : Ui.Form) (file : option string) :
  Viz.useUpload vf = true -> Viz.wordlistText vf <> "" ->
  Ui.useUpload uf = true ->
  (exists r, Viz.handleDirScan env vf file = Some r
             /\ post_wordlist r = Some (normalize_lines (Viz.wordlistText vf))
             /\ post_file r = None)
  /\ match file with
     | None => Ui.submit raw Ui.dirs uf file = None
     | Some content =>
         exists r, Ui.submit raw Ui.dirs uf file = Some r
                   /\ post_wordlist r = None /\ post_file r = Some content
     end.
Proof.
  intros Hv Ht Hu. apply truthy_true_iff in Ht. split.
  - unfold Viz.handleDirScan. rewrite Hv, Ht. cbn [andb].
    eexists. split; [reflexivity|]. cbn [post_wordlist post_file].
    now rewrite wordlist_expression.
  - unfold Ui.submit. rewrite Hu. cbn [andb].
    destruct file as [content|]; [|reflexivity].
    eexists. split; [reflexivity|]. now split.
Qed.

Lemma upload_switch_with_text_witness :
  Viz.useUpload (Viz.mkDirForm "https://example.com" true true "admin") = true
  /\ Viz.wordlistText (Viz.mkDirForm "https://example.com" true true "admin")
     <> ""
  /\ Ui.submit None Ui.dirs
       (Ui.mkForm true None None (Some "https://example.com") true "admin")
       None
     = None.
Proof.
  split; [reflexivity|]. split; [discriminate|].
  exact (proj2 (upload_switch_with_text env_relative None
                  (Viz.mkDirForm "https://example.com" true true "admin")
                  (Ui.mkForm true None None (Some "https://example.com") true
                     "admin")
                  None eq_refl ltac:(discriminate) eq_refl)).
Defined.

End WordlistMore.

(** ** The modal, once more *)

Section ModalMore.

Import Api Viz Spec.

(** X5: the status filter and the status badge of a dirs row read the
    status differently.  When [status] is present they use the same
    bucket, so a row is shown under a bucket filter exactly when its
    badge has that bucket.  When [status] is absent the filter sees no
    number, whatever [code] and [http_status] hold: the badge can be
    coloured by them, and the row is hidden under every bucket
    filter. *)
Theorem filter_and_badge_buckets (f : Finding) :
  (status f <> None ->
   forall b, In b buckets ->
     (dir_row_shown (mkDirFilter "" b) f = true <-> fst (status_cell f) = b))
  /\ (status f = None ->
      forall b text, In b buckets ->
        dir_row_shown (mkDirFilter text b) f = false)
  /\ (status f = None ->
      fst (status_cell f)
      = bucket (status_number (Js.nullish_opt (code f) (http_status f)))).
Proof.
  split; [|split].
  - intros Hs b Hb. rewrite (dir_row_shown_bucket f b Hb).
    unfold status_cell. cbn [fst].
    destruct (status f) as [v|]; [reflexivity | congruence].
  - intros Hs b text Hb. unfold dir_row_shown.
    cbn [filter_status filter_text]. rewrite Hs.
    change (bucket (status_number None)) with "".
    destruct Hb as [<-|[<-|[<-|[<-|[]]]]]; reflexivity.
  - intros Hs. unfold status_cell. cbn [fst]. now rewrite Hs.
Qed.

(** A finding that carries its status as [code]: a 4xx badge, and no
    row under the 4xx filter. *)
Lemma filter_and_badge_buckets_witness :
  status finding_code_404 = None
  /\ fst (status_cell finding_code_404) = "4xx"
  /\ dir_row_shown (mkDirFilter "" "4xx") finding_code_404 = false.
Proof.
  split; [reflexivity|]. split; [reflexivity|].
  apply (proj1 (proj2 (filter_and_badge_buckets finding_code_404)) eq_refl
           "4xx" ""). right; right; left; reflexivity.
Defined.

(** X6: a poll of the modal in which one of the two requests fails
    changes nothing, so the job and the findings of the last good poll
    stay on display; and no poll, good or bad, touches the filter the
    user has set. *)
Theorem refresh_keeps_state_on_failure (jobId : Js.scalar) (st : Modal)
    (job_x : Exchange JobDetails)
    (findings_x : Exchange (option (list Finding))) :
  dirFilter (refresh jobId st job_x findings_x) = dirFilter st
  /\ (fetchJson job_x = None \/ fetchJson findings_x = None ->
      refresh jobId st job_x findings_x = st)
  /\ (refresh jobId st job_x findings_x <> st ->
      exists jobData fs,
        fetchJson job_x = Some jobData /\ fetchJson findings_x = Some fs
        /\ modal_job (refresh jobId st job_x findings_x) = Some jobData).
Proof.
  split; [|split].
  - unfold refresh.
    destruct (fetchJson job_x), (fetchJson findings_x); reflexivity.
  - apply refresh_failure.
  - unfold refresh.
    destruct (fetchJson job_x) as [jobData|], (fetchJson findings_x) as [fs|];
      try congruence.
    intros _. now exists jobData, fs.
Qed.

Lemma refresh_keeps_state_on_failure_witness :
  (fetchJson (Response true (Some job7)) = None
   \/ fetchJson (NetworkError : Exchange (option (list Finding))) = None)
  /\ refresh (Js.Str "7") (mkModal (Some job7) [finding7] (mkDirFilter "" "2xx"))
       (Response true (Some job7)) NetworkError
     = mkModal (Some job7) [finding7] (mkDirFilter "" "2xx").
Proof.
  split; [right; reflexivity|].
  apply (proj1 (proj2 (refresh_keeps_state_on_failure (Js.Str "7")
                         (mkModal (Some job7) [finding7] (mkDirFilter "" "2xx"))
                         (Response true (Some job7)) NetworkError))).
  right; reflexivity.
Defined.

End ModalMore.

(** ** The two dashboards side by side *)

Section SideBySide.

Import Api Spec.

Lemma toLowerCase_startsWith_lower (s p : string) :
  Js.toLowerCase p = p -> Js.startsWith s p = true ->
  Js.startsWith (Js.toLowerCase s) p = true.
Proof.
  revert s. induction p as [|a p IH]; intros s Hp H; [reflexivity|].
  destruct s as [|b s]; [discriminate|].
  simpl in Hp. injection Hp as Ha Hp.
  simpl in H. apply andb_prop in H as [Hab Hs].
  apply Ascii.eqb_eq in Hab. subst b.
  cbn [Js.toLowerCase Js.startsWith]. rewrite Ha, Ascii.eqb_refl.
  now apply IH.
Qed.

Lemma strip_trailing_slash_truthy (b p : string) :
  (2 <= String.length p)%nat -> Js.startsWith b p = true ->
  Js.truthy (Js.strip_trailing_slash b) = true.
Proof.
  intros Hp H. apply startsWith_inv in H as [r ->].
  destruct p as [|x [|y p]]; simpl in Hp; try lia.
  cbn [append Js.strip_trailing_slash].
  destruct (p ++ r); [|reflexivity].
  destruct (Ascii.eqb y "/"); reflexivity.
Qed.

Lemma configured_base (raw : string) (window : bool) (stored : option string)
    (dev : bool) :
  Js.startsWith raw "http://" = true \/ Js.startsWith raw "https://" = true ->
  Js.truthy raw = true
  /\ Js.truthy (Js.strip_trailing_slash raw) = true
  /\ apiBase (mkEnv (Some raw) window stored dev) = Js.strip_trailing_slash raw
  /\ Ui.API_BASE (Some raw) = raw.
Proof.
  intros Hraw.
  assert (Ht : Js.truthy raw = true).
  { destruct Hraw as [H|H]; apply startsWith_inv in H as [r ->]; reflexivity. }
  assert (Hs : Js.truthy (Js.strip_trailing_slash raw) = true).
  { destruct Hraw as [H|H];
      [apply (strip_trailing_slash_truthy raw "http://")
      |apply (strip_trailing_slash_truthy raw "https://")];
      simpl; try lia; exact H. }
  split; [exact Ht|]. split; [exact Hs|]. split.
  - unfold apiBase. cbn [VITE_API_BASE_URL has_window stored_API_BASE_URL DEV].
    unfold Js.or_opt at 1 2. rewrite !Ht. cbn [andb].
    destruct Hraw as [-> | ->]; [reflexivity | now rewrite orb_true_r].
  - unfold Ui.API_BASE, Ui.is_absolute. rewrite Ht. cbn [andb].
    destruct Hraw as [H|H];
      rewrite (toLowerCase_startsWith_lower raw _ eq_refl H);
      [reflexivity | now rewrite orb_true_r].
Qed.

(** X7: for a base URL configured at build time with a lower-case
    [http://] or [https://] scheme, the two dashboards build the same
    URLs.  For a path under [/api/] and for the health path the [api]
    of viz-recon-main adds nothing and agrees with the [api] of
    reconx/ui; for any other path that starts with a slash it adds
    the [/api] that the callers of reconx/ui write out.  Both remove
    one trailing slash of the base. *)
Theorem dashboards_build_same_url (raw path : string)
    (window : bool) (stored : option string) (dev : bool) :
  Js.startsWith raw "http://" = true \/ Js.startsWith raw "https://" = true ->
  Js.startsWith path "/" = true ->
  Ui.api (Some raw) path = Js.strip_trailing_slash raw ++ path
  /\ (Js.startsWith path "/api/" = true \/ Js.startsWith path "/healthz" = true ->
      Api.api (mkEnv (Some raw) window stored dev) path = Ui.api (Some raw) path)
  /\ (Js.startsWith path "/api/" = false ->
      Js.startsWith path "/healthz" = false ->
      Api.api (mkEnv (Some raw) window stored dev) path
      = Ui.api (Some raw) ("/api" ++ path)).
Proof.
  intros Hraw Hslash.
  destruct (configured_base raw window stored dev Hraw) as (Ht & Hs & Hb & Hu).
  assert (Hui : forall p, Ui.api (Some raw) p = Js.strip_trailing_slash raw ++ p).
  { intros p. unfold Ui.api. rewrite Hu, Ht. reflexivity. }
  split; [apply Hui|]. split.
  - intros Hpath.
    assert (Hpre : needsApiPrefix path = false).
    { unfold needsApiPrefix.
      destruct Hpath as [-> | ->]; [now rewrite andb_false_r | reflexivity]. }
    rewrite Hui. unfold api, with_slash. rewrite Hb, Hs, Hslash, Hpre.
    reflexivity.
  - intros H1 H2. rewrite Hui. unfold api, with_slash, needsApiPrefix.
    rewrite Hb, Hs, Hslash, H1, H2. reflexivity.
Qed.

(** The pause request of job 7, as each dashboard writes its path. *)
Lemma dashboards_build_same_url_witness :
  (Js.startsWith "https://api.recon.example/" "http://" = true
   \/ Js.startsWith "https://api.recon.example/" "https://" = true)
  /\ Js.startsWith "/jobs/7/pause" "/" = true
  /\ Api.api (mkEnv (Some "https://api.recon.example/") true None true)
       "/jobs/7/pause"
     = Ui.api (Some "https://api.recon.example/") "/api/jobs/7/pause".
Proof.
  split; [right; reflexivity|]. split; [reflexivity|].
  exact (proj2 (proj2 (dashboards_build_same_url "https://api.recon.example/"
                         "/jobs/7/pause" true None true
                         (or_intror eq_refl) eq_refl))
           eq_refl eq_refl).
Defined.

(** The scheme test of reconx/ui ignores case, the one of
    viz-recon-main does not: a base with an upper-case scheme is used
    by the first and dropped by the second. *)
Example upper_case_scheme :
  Ui.api (Some "HTTPS://api.recon.example") "/api/jobs"
  = "HTTPS://api.recon.example/api/jobs"
  /\ Api.api (mkEnv (Some "HTTPS://api.recon.example") false None false)
       "/api/jobs"
     = "/api/jobs".
Proof. split; reflexivity. Qed.

(** X8: the backend indicator of viz-recon-main is at least as
    optimistic as the one of reconx/ui: after a poll it is on when the
    metrics request succeeds or the health check of reconx/ui would
    say online, and when the metrics request fails the two indicators
    agree. *)
Theorem indicators_compared (st : Viz.Dash) (metrics_x : Exchange Metrics)
    (health_x : Exchange unit) :
  (Ui.check health_x = true ->
   Viz.isBackendOnline (Viz.fetchMetrics st metrics_x health_x) = true)
  /\ (fetchJson metrics_x = None ->
      Viz.isBackendOnline (Viz.fetchMetrics st metrics_x health_x)
      = Ui.check health_x)
  /\ (Viz.isBackendOnline (Viz.fetchMetrics st metrics_x health_x) = false ->
      fetchJson metrics_x = None /\ Ui.check health_x = false).
Proof.
  unfold Viz.fetchMetrics, Ui.check.
  destruct (fetchJson metrics_x) as [m|];
    destruct (fetch_ok health_x) as [[|]|]; cbn;
    repeat split; intros; try reflexivity; try discriminate.
Qed.

Lemma indicators_compared_witness :
  Ui.check (Response true None) = true
  /\ Viz.isBackendOnline
       (Viz.fetchMetrics (dash_with []) NetworkError (Response true None))
     = true.
Proof.
  split; [reflexivity|].
  exact (proj1 (indicators_compared (dash_with []) NetworkError
                  (Response true None)) eq_refl).
Defined.

End SideBySide.

(** ** The lists of a new scan *)

Section TokenFacts.

Import Api Spec.

Lemma same_head_and_tokens_filter (l l' : list string) :
  same_head_and_tokens l l' -> filter Js.truthy l = filter Js.truthy l'.
Proof. intros (h & t & t' & -> & -> & E). simpl. now rewrite E. Qed.

Lemma same_head_and_tokens_cons (c : ascii) (l l' : list string) :
  same_head_and_tokens l l' ->
  same_head_and_tokens
    match l with x :: xs => String c x :: xs | [] => [String c ""] end
    match l' with x :: xs => String c x :: xs | [] => [String c ""] end.
Proof. intros (h & t & t' & -> & -> & E). now exists (String c h), t, t'. Qed.

Lemma same_head_and_tokens_new (l l' : list string) :
  filter Js.truthy l = filter Js.truthy l' ->
  same_head_and_tokens ("" :: l) ("" :: l').
Proof. intros E. now exists "", l, l'. Qed.

(** Splitting at runs of separators against cutting at each one. *)
Lemma split_runs_split_at_each (s : string) :
  same_head_and_tokens (Js.split_runs false s)
    (split_at_each Js.is_space_or_comma s)
  /\ filter Js.truthy (Js.split_runs true s)
     = filter Js.truthy (split_at_each Js.is_space_or_comma s).
Proof.
  induction s as [|c s [IH1 IH2]].
  - split; [now exists "", [], [] | reflexivity].
  - simpl. destruct (Js.is_space_or_comma c).
    + split; [now apply same_head_and_tokens_new | exact IH2].
    + pose proof (same_head_and_tokens_cons c _ _ IH1) as H.
      split; [exact H | now apply same_head_and_tokens_filter].
Qed.

Lemma is_space_or_comma_cases (c : ascii) :
  Js.is_space_or_comma c
  = Js.is_lf c || Ascii.eqb c "," || Js.is_whitespace c.
Proof.
  unfold Js.is_space_or_comma, Js.is_lf.
  destruct (Ascii.eqb_spec c Js.LF) as [->|_]; [reflexivity|].
  destruct (Ascii.eqb c ","), (Js.is_whitespace c); reflexivity.
Qed.

(** The same for the pattern with three alternatives. *)
Lemma split_line_comma_space_split_at_each (s : string) :
  (same_head_and_tokens (Js.split_line_comma_space Js.Between s)
     (split_at_each Js.is_space_or_comma s)
   /\ filter Js.truthy (Js.split_line_comma_space Js.InSpaces s)
      = filter Js.truthy (split_at_each Js.is_space_or_comma s))
  /\ forall c,
       same_head_and_tokens
         (Js.split_line_comma_space Js.Between (String c s))
         (split_at_each Js.is_space_or_comma (String c s))
       /\ filter Js.truthy (Js.split_line_comma_space Js.InSpaces (String c s))
          = filter Js.truthy (split_at_each Js.is_space_or_comma (String c s)).
Proof.
  induction s as [|d s [[IH1 IH2] IH3]].
  - split; [split; [now exists "", [], [] | reflexivity]|].
    intros c. cbn. rewrite is_space_or_comma_cases.
    destruct (Js.is_lf c) eqn:El; cbn;
      [destruct (Js.is_whitespace c); split;
         (reflexivity || now exists "", [""], [""])|].
    rewrite andb_false_r.
    destruct (Ascii.eqb c ",") eqn:Ec; cbn;
      [destruct (Js.is_whitespace c); split;
         (reflexivity || now exists "", [""], [""])|].
    destruct (Js.is_whitespace c); split;
      (reflexivity || (now exists "", [""], [""])
       || now exists (String c ""), [], []).
  - split; [apply IH3|]. intros c.
    destruct (IH3 d) as [Hd1 Hd2].
    assert (B : same_head_and_tokens
                  (if Js.is_lf c
                   then "" :: Js.split_line_comma_space Js.Between (String d s)
                   else if Js.is_cr c && Js.is_lf d
                   then "" :: Js.split_line_comma_space Js.AfterCR (String d s)
                   else if Ascii.eqb c ","
                   then "" :: Js.split_line_comma_space Js.Between (String d s)
                   else if Js.is_whitespace c
                   then "" :: Js.split_line_comma_space Js.InSpaces (String d s)
                   else match Js.split_line_comma_space Js.Between (String d s) with
                        | l :: ls => String c l :: ls
                        | [] => [String c ""]
                        end)
                  (split_at_each Js.is_space_or_comma (String c (String d s)))).
    { change (split_at_each Js.is_space_or_comma (String c (String d s)))
        with (if Js.is_space_or_comma c
              then "" :: split_at_each Js.is_space_or_comma (String d s)
              else match split_at_each Js.is_space_or_comma (String d s) with
                   | l :: ls => String c l :: ls
                   | [] => [String c ""]
                   end).
      rewrite (is_space_or_comma_cases c).
      destruct (Js.is_lf c) eqn:El; cbn [orb].
      { apply same_head_and_tokens_new.
        now apply same_head_and_tokens_filter. }
      destruct (Js.is_cr c && Js.is_lf d) eqn:Ecr.
      { apply andb_prop in Ecr as [Hc Hl].
        assert (W : Js.is_whitespace c = true).
        { unfold Js.is_cr in Hc. apply Ascii.eqb_eq in Hc. now subst c. }
        rewrite W, orb_true_r.
        apply same_head_and_tokens_new.
        change (Js.split_line_comma_space Js.AfterCR (String d s))
          with (Js.split_line_comma_space Js.Between s).
        rewrite (same_head_and_tokens_filter _ _ IH1).
        assert (Sd : Js.is_space_or_comma d = true).
        { rewrite is_space_or_comma_cases, Hl. reflexivity. }
        cbn [split_at_each]. rewrite Sd. reflexivity. }
      destruct (Ascii.eqb c ",") eqn:Ec; cbn [orb].
      { apply same_head_and_tokens_new.
        now apply same_head_and_tokens_filter. }
      destruct (Js.is_whitespace c) eqn:Ew.
      { now apply same_head_and_tokens_new. }
      now apply same_head_and_tokens_cons. }
    split.
    + exact B.
    + change (Js.split_line_comma_space Js.InSpaces (String c (String d s)))
        with (if Js.is_whitespace c
              then Js.split_line_comma_space Js.InSpaces (String d s)
              else if Js.is_lf c
                   then "" :: Js.split_line_comma_space Js.Between (String d s)
                   else if Js.is_cr c && Js.is_lf d
                   then "" :: Js.split_line_comma_space Js.AfterCR (String d s)
                   else if Ascii.eqb c ","
                   then "" :: Js.split_line_comma_space Js.Between (String d s)
                   else if Js.is_whitespace c
                   then "" :: Js.split_line_comma_space Js.InSpaces (String d s)
                   else match Js.split_line_comma_space Js.Between (String d s) with
                        | l :: ls => String c l :: ls
                        | [] => [String c ""]
                        end).
      destruct (Js.is_whitespace c) eqn:Ew.
      * cbn [split_at_each]. unfold Js.is_space_or_comma. rewrite Ew.
        cbn [orb filter Js.truthy]. exact Hd2.
      * apply same_head_and_tokens_filter. exact B.
Qed.

Lemma not_sep_chars (c : ascii) :
  Js.is_whitespace c = false -> Ascii.eqb c "," = false ->
  Js.is_space_or_comma c = false.
Proof. unfold Js.is_space_or_comma. now intros -> ->. Qed.

Lemma has_none_cons_head (p : ascii -> bool) (c : ascii) (l : list string) :
  p c = false ->
  Forall (fun x => has_none p x = true) l ->
  Forall (fun x => has_none p x = true)
    match l with x :: xs => String c x :: xs | [] => [String c ""] end.
Proof.
  intros Hc H. destruct H as [|x xs Hx Hxs].
  - repeat constructor. simpl. now rewrite Hc.
  - constructor; [simpl; now rewrite Hc, Hx | exact Hxs].
Qed.

Lemma split_runs_pieces (b : bool) (s : string) :
  Forall (fun x => has_none Js.is_space_or_comma x = true) (Js.split_runs b s).
Proof.
  revert b. induction s as [|c s IH]; intros b; [repeat constructor|].
  simpl. destruct (Js.is_space_or_comma c) eqn:E.
  - destruct b; [apply IH | constructor; [reflexivity | apply IH]].
  - apply has_none_cons_head; [exact E | apply IH].
Qed.

Lemma split_line_comma_space_pieces (st : Js.SepState) (s : string) :
  Forall (fun x => has_none Js.is_space_or_comma x = true)
    (Js.split_line_comma_space st s).
Proof.
  revert st. induction s as [|c s IH]; intros st; [repeat constructor|].
  assert (B : Forall (fun x => has_none Js.is_space_or_comma x = true)
                (if Js.is_lf c then "" :: Js.split_line_comma_space Js.Between s
                 else if Js.is_cr c && match s with
                                       | String d _ => Js.is_lf d
                                       | "" => false
                                       end
                 then "" :: Js.split_line_comma_space Js.AfterCR s
                 else if Ascii.eqb c ","
                 then "" :: Js.split_line_comma_space Js.Between s
                 else if Js.is_whitespace c
                 then "" :: Js.split_line_comma_space Js.InSpaces s
                 else match Js.split_line_comma_space Js.Between s with
                      | l :: ls => String c l :: ls
                      | [] => [String c ""]
                      end)).
  { destruct (Js.is_lf c); [constructor; [reflexivity | apply IH]|].
    destruct (Js.is_cr c && _); [constructor; [reflexivity | apply IH]|].
    destruct (Ascii.eqb c ",") eqn:Ec; [constructor; [reflexivity | apply IH]|].
    destruct (Js.is_whitespace c) eqn:Ew;
      [constructor; [reflexivity | apply IH]|].
    apply has_none_cons_head; [now apply not_sep_chars | apply IH]. }
  destruct st; cbn [Js.split_line_comma_space];
    [exact B | destruct (Js.is_whitespace c); [apply IH | exact B] | apply IH].
Qed.

(** A string without white space is its own trim. *)
Lemma trim_no_whitespace (x : string) :
  has_none Js.is_whitespace x = true -> Js.trim x = x.
Proof.
  intros H. unfold Js.trim.
  assert (S : Js.trimStart x = x).
  { destruct x as [|c x]; [reflexivity|]. simpl in *.
    apply andb_prop in H as [Hc _]. apply negb_true_iff in Hc.
    now rewrite Hc. }
  rewrite S. clear S. induction x as [|c x IH]; [reflexivity|].
  simpl in H. apply andb_prop in H as [Hc Hx]. apply negb_true_iff in Hc.
  simpl. rewrite (IH Hx). destruct x; [now rewrite Hc | reflexivity].
Qed.

Lemma has_none_whitespace (x : string) :
  has_none Js.is_space_or_comma x = true -> has_none Js.is_whitespace x = true.
Proof.
  induction x as [|c x IH]; [reflexivity|]. simpl. intros H.
  apply andb_prop in H as [Hc Hx]. rewrite (IH Hx), andb_true_r.
  unfold Js.is_space_or_comma in Hc. apply negb_true_iff in Hc.
  apply orb_false_elim in Hc as [-> _]. reflexivity.
Qed.

Lemma map_trim_pieces (l : list string) :
  Forall (fun x => has_none Js.is_space_or_comma x = true) l ->
  map Js.trim l = l.
Proof.
  induction 1 as [|x xs Hx _ IH]; [reflexivity|].
  cbn [map]. now rewrite IH, (trim_no_whitespace x (has_none_whitespace x Hx)).
Qed.

Lemma targets_of_tokens (s : string) : Viz.targets_of s = tokens s.
Proof.
  unfold Viz.targets_of, Js.split_space_comma, tokens.
  rewrite (map_trim_pieces _ (split_runs_pieces false s)).
  rewrite (same_head_and_tokens_filter _ _ (proj1 (split_runs_split_at_each s))).
  apply filter_truthy_nonblank.
Qed.

Lemma resolvers_of_file_tokens (s : string) : Viz.resolvers_of_file s = tokens s.
Proof.
  unfold Viz.resolvers_of_file, tokens.
  rewrite (map_trim_pieces _ (split_line_comma_space_pieces Js.Between s)).
  rewrite (same_head_and_tokens_filter _ _
             (proj1 (proj1 (split_line_comma_space_split_at_each s)))).
  apply filter_truthy_nonblank.
Qed.

Lemma split_at_each_pieces (p : ascii -> bool) (s : string) :
  Forall (fun x => has_none p x = true) (split_at_each p s).
Proof.
  induction s as [|c s IH]; [repeat constructor|]. simpl.
  destruct (p c) eqn:E; [constructor; [reflexivity | exact IH]|].
  now apply has_none_cons_head.
Qed.

Lemma tokens_entries (s : string) :
  Forall (fun t => t <> "" /\ has_none Js.is_space_or_comma t = true)
    (tokens s).
Proof.
  apply Forall_forall. intros t Ht. unfold tokens in Ht.
  apply filter_In in Ht as [Hin Hne]. split.
  - intros ->. discriminate.
  - pose proof (split_at_each_pieces Js.is_space_or_comma s) as H.
    rewrite Forall_forall in H. now apply H.
Qed.

Lemma tokens_empty_iff (s : string) :
  tokens s = [] <-> all_are Js.is_space_or_comma s = true.
Proof.
  unfold tokens. induction s as [|c s IH]; [now split|].
  simpl. destruct (Js.is_space_or_comma c) eqn:E.
  - exact IH.
  - split; [|discriminate].
    destruct (split_at_each Js.is_space_or_comma s); discriminate.
Qed.

(** X9: the targets of a port scan request are the tokens of the
    text, what stands between white space and commas: no target is
    empty or holds a separator.  The list is empty exactly when the
    text holds separators only, so a text such as a single comma
    passes the guard of the submit button and sends no target.  The
    handler throws only in file mode without a file. *)
Theorem port_targets_are_tokens (f : Viz.PortForm) (file : option string) :
  (forall s, Viz.targets_of s = tokens s
             /\ Forall (fun t => t <> ""
                                 /\ has_none Js.is_space_or_comma t = true)
                  (Viz.targets_of s)
             /\ (Viz.targets_of s = []
                 <-> all_are Js.is_space_or_comma s = true))
  /\ (Viz.request_targets f file = None
      <-> Viz.useTargetsFile f = true /\ file = None)
  /\ (Viz.useTargetsFile f = false ->
      Viz.request_targets f file = Some (tokens (Viz.port_targets f)))
  /\ (forall txt, Viz.useTargetsFile f = true -> file = Some txt ->
      Viz.request_targets f file = Some (tokens txt)).
Proof.
  split; [|split; [|split]].
  - intros s. rewrite targets_of_tokens.
    split; [reflexivity|]. split; [apply tokens_entries | apply tokens_empty_iff].
  - unfold Viz.request_targets.
    destruct (Viz.useTargetsFile f), file; split;
      try discriminate; try (intros [? ?]; discriminate); auto.
  - intros H. unfold Viz.request_targets. now rewrite H, targets_of_tokens.
  - intros txt H ->. unfold Viz.request_targets.
    now rewrite H, targets_of_tokens.
Qed.

(** A form whose targets text is a comma: the button is enabled and
    the request has no target. *)
Lemma port_targets_are_tokens_witness :
  Viz.useTargetsFile (Viz.mkPortForm "," true false false) = false
  /\ Viz.port_disabled (Viz.mkPortForm "," true false false) = false
  /\ Viz.request_targets (Viz.mkPortForm "," true false false) None = Some [].
Proof.
  split; [reflexivity|]. split; [reflexivity|].
  exact (proj1 (proj2 (proj2 (port_targets_are_tokens
                                (Viz.mkPortForm "," true false false) None)))
           eq_refl).
Defined.

(** X10: the resolvers read from a file and the targets of a port
    scan are cut with different patterns, [/\r?\n|,|\s+/] and
    [/[\s,]+/], and come out the same: for every text both lists are
    the tokens of the text. *)
Theorem resolvers_file_like_targets (txt : string) :
  Viz.resolvers_of_file txt = Viz.targets_of txt
  /\ Viz.resolvers_of_file txt = tokens txt.
Proof.
  split; [|apply resolvers_of_file_tokens].
  now rewrite resolvers_of_file_tokens, targets_of_tokens.
Qed.

(** The resolvers typed into the form are cut at commas only: white
    space inside an entry stays. *)
Example resolvers_text_and_file :
  Viz.resolvers_of_text "8.8.8.8 1.1.1.1, 9.9.9.9" = ["8.8.8.8 1.1.1.1"; "9.9.9.9"]
  /\ Viz.resolvers_of_file "8.8.8.8 1.1.1.1, 9.9.9.9"
     = ["8.8.8.8"; "1.1.1.1"; "9.9.9.9"]
  /\ Viz.request_resolvers (Viz.mkSubdomainForm "example.com" true true) ""
       (Some "") = Some (Some [])
  /\ Viz.request_resolvers (Viz.mkSubdomainForm "example.com" true false) ""
       None = Some None.
Proof. repeat split. Qed.

End TokenFacts.

(** ** Numbers written and read *)

Section NumeralFacts.

Import Api Spec.

Lemma leading_digits_uint (d : Decimal.uint) (a : Z) :
  Js.leading_digits (Some a) (NilEmpty.string_of_uint d) = Some (horner d a).
Proof. revert a. induction d; intros a; simpl; try reflexivity; apply IHd. Qed.

Lemma horner_pos (d : Decimal.uint) (p : positive) :
  horner d (Z.pos p) = Z.pos (Pos.of_uint_acc d p).
Proof.
  revert p. induction d; intros p; cbn [horner Pos.of_uint_acc];
    try reflexivity;
    match goal with
    | |- horner _ ?a = Z.pos (Pos.of_uint_acc _ ?q) =>
        replace a with (Z.pos q) by lia; apply IHd
    end.
Qed.

Lemma horner_zero (d : Decimal.uint) : horner d 0 = Z.of_uint d.
Proof.
  unfold Z.of_uint.
  induction d; cbn [horner Pos.of_uint]; try reflexivity; try exact IHd;
    match goal with
    | |- horner _ ?a = _ =>
        let v := eval cbv in a in
        change a with v; rewrite horner_pos; reflexivity
    end.
Qed.

(** The digits of a numeral are read back as its value. *)
Lemma leading_digits_numeral (d : Decimal.uint) :
  Js.leading_digits None (NilZero.string_of_uint d) = Some (Z.of_uint d).
Proof.
  rewrite <- horner_zero.
  destruct d; try reflexivity; simpl; apply leading_digits_uint.
Qed.

Lemma numeral_head (d : Decimal.uint) :
  exists c r,
    NilZero.string_of_uint d = String c r
    /\ Js.is_whitespace c = false /\ Ascii.eqb c "-" = false
    /\ Ascii.eqb c "+" = false.
Proof. destruct d; simpl; do 2 eexists; repeat split. Qed.

Lemma parseInt10_numeral (d : Decimal.uint) :
  Js.parseInt10 (NilZero.string_of_uint d) = Js.number_of_integer (Z.of_uint d)
  /\ Js.parseInt10 (String "-" (NilZero.string_of_uint d))
     = Js.number_of_integer (- Z.of_uint d).
Proof.
  destruct (numeral_head d) as (c & r & E & W).
  destruct W as (W1 & W2 & W3).
  unfold Js.parseInt10. split.
  - rewrite E. cbn [Js.trimStart]. rewrite W1, W2, W3, <- E.
    now rewrite leading_digits_numeral.
  - cbn [Js.trimStart]. change (Js.is_whitespace "-") with false.
    cbn iota. rewrite Ascii.eqb_refl.
    now rewrite leading_digits_numeral.
Qed.

(** Reading the numeral of an integer gives the integer back. *)
Lemma parseInt10_string_of_Z (z : Z) :
  Js.parseInt10 (Js.string_of_Z z) = Js.number_of_integer z.
Proof.
  unfold Js.string_of_Z.
  rewrite <- (DecimalZ.of_to z) at 2.
  destruct (Z.to_int z) as [d|d]; simpl NilZero.string_of_int;
    cbn [Z.of_int]; apply parseInt10_numeral.
Qed.

Lemma number_of_safe_integer (z : Z) :
  safe_integer z -> Js.number_of_integer z = Js.Int z.
Proof.
  unfold safe_integer, Js.number_of_integer. intros H.
  assert (B : 2 ^ 53 < 2 ^ 1024 - 2 ^ 970) by (vm_compute; reflexivity).
  destruct (Z.ltb_spec (Z.abs z) (2 ^ 1024 - 2 ^ 970)); [reflexivity | lia].
Qed.

Lemma digits_has_none (p : ascii -> bool) (s : string) :
  (forall c, Js.is_digit c = true -> p c = false) ->
  all_digits s = true -> has_none p s = true.
Proof.
  intros Hp. induction s as [|c s IH]; [reflexivity|]. simpl. intros H.
  apply andb_prop in H as [Hc Hs]. now rewrite (Hp c Hc), (IH Hs).
Qed.

Lemma digit_not_separator (c : ascii) :
  Js.is_digit c = true -> Js.is_space_or_comma c = false.
Proof.
  unfold Js.is_digit, Js.is_space_or_comma, Js.is_whitespace. intros H.
  apply andb_prop in H as [H1 H2].
  apply N.leb_le in H1. apply N.leb_le in H2.
  assert (E : Ascii.eqb c "," = false).
  { apply Ascii.eqb_neq. intros ->. simpl in *. lia. }
  rewrite E.
  destruct (N.leb_spec (N_of_ascii c) 13); [lia|].
  destruct (N.eqb_spec (N_of_ascii c) 32); [lia|].
  destruct (N.eqb_spec (N_of_ascii c) 160); [lia|].
  now rewrite andb_false_r.
Qed.

(** A numeral is one token: not empty, no separator in it. *)
Lemma string_of_Z_token (z : Z) :
  Js.string_of_Z z <> ""
  /\ has_none Js.is_space_or_comma (Js.string_of_Z z) = true.
Proof.
  destruct (string_of_Z_numeral z) as (body & [E|E] & Hne & Hd); rewrite E.
  - split; [exact Hne|]. apply digits_has_none; [apply digit_not_separator | exact Hd].
  - split; [discriminate|]. cbn [has_none].
    change (Js.is_space_or_comma "-") with false. cbn [negb andb].
    apply digits_has_none; [apply digit_not_separator | exact Hd].
Qed.

Lemma split_at_each_free (p : ascii -> bool) (x : string) :
  has_none p x = true -> split_at_each p x = [x].
Proof.
  induction x as [|a x IH]; [reflexivity|]. simpl. intros H.
  apply andb_prop in H as [Ha Hx]. apply negb_true_iff in Ha.
  now rewrite Ha, (IH Hx).
Qed.

Lemma split_at_each_append (p : ascii -> bool) (x y : string) (c : ascii) :
  has_none p x = true -> p c = true ->
  split_at_each p (x ++ String c y) = x :: split_at_each p y.
Proof.
  intros Hx Hc. induction x as [|a x IH]; simpl.
  - now rewrite Hc.
  - simpl in Hx. apply andb_prop in Hx as [Ha Hx].
    apply negb_true_iff in Ha. now rewrite Ha, (IH Hx).
Qed.

(** Tokens written with commas between them are read back. *)
Lemma tokens_join (l : list string) :
  Forall (fun t => t <> "" /\ has_none Js.is_space_or_comma t = true) l ->
  tokens (Js.join "," l) = l.
Proof.
  unfold tokens. induction 1 as [|x l [Hne Hx] Hl IH]; [reflexivity|].
  destruct l as [|y l].
  - cbn [Js.join]. rewrite (split_at_each_free _ x Hx). cbn [filter].
    destruct (String.eqb_spec x ""); [contradiction | reflexivity].
  - change (Js.join "," (x :: y :: l))
      with (x ++ String "," (Js.join "," (y :: l))).
    rewrite (split_at_each_append _ x _ "," Hx eq_refl). cbn [filter].
    destruct (String.eqb_spec x ""); [contradiction|]. cbn [negb].
    now rewrite IH.
Qed.

Lemma filter_finite_tokens (l : list string) :
  Forall (fun x => has_none Js.is_space_or_comma x = true) l ->
  filter Js.isFinite (map (fun p => Js.parseInt10 (Js.trim p)) l)
  = filter Js.isFinite
      (map Js.parseInt10 (filter (fun x => negb (x =? "")%string) l)).
Proof.
  induction 1 as [|x xs Hx _ IH]; [reflexivity|].
  cbn [map filter].
  rewrite (trim_no_whitespace x (has_none_whitespace x Hx)), IH.
  destruct (String.eqb_spec x "") as [->|_]; reflexivity.
Qed.

Lemma split_runs_tokens (s : string) :
  filter (fun x => negb (x =? "")%string) (Js.split_runs false s) = tokens s.
Proof.
  unfold tokens. rewrite <- !filter_truthy_nonblank.
  apply same_head_and_tokens_filter, split_runs_split_at_each.
Qed.

(** X11: the ports of a port scan request are the tokens of the ports
    text that start with a decimal number, read by [parseInt]; tokens
    that do not are dropped without notice and an empty text sends no
    [ports] at all.  A list of integers written in decimal with commas
    between them is read back as it was written. *)
Theorem ports_written_and_read :
  (forall s,
      Viz.ports_of s
      = if Js.truthy s
        then Some (filter Js.isFinite (map Js.parseInt10 (tokens s)))
        else None)
  /\ (forall zs,
         zs <> [] -> Forall safe_integer zs ->
         Viz.ports_of (Js.join "," (map Js.string_of_Z zs))
         = Some (map Js.Int zs)).
Proof.
  assert (C : forall s,
             Viz.ports_of s
             = if Js.truthy s
               then Some (filter Js.isFinite (map Js.parseInt10 (tokens s)))
               else None).
  { intros s. unfold Viz.ports_of, Js.split_space_comma.
    destruct (Js.truthy s); [|reflexivity].
    now rewrite (filter_finite_tokens _ (split_runs_pieces false s)),
      split_runs_tokens. }
  split; [exact C|].
  intros zs Hne Hs. rewrite C.
  assert (T : Js.truthy (Js.join "," (map Js.string_of_Z zs)) = true).
  { destruct zs as [|z zs]; [congruence|].
    destruct (string_of_Z_token z) as [Hz _].
    cbn [map Js.join]. destruct (Js.string_of_Z z); [contradiction|].
    destruct (map Js.string_of_Z zs); reflexivity. }
  rewrite T, tokens_join.
  - f_equal. clear Hne T. induction Hs as [|z zs Hz _ IH]; [reflexivity|].
    cbn [map filter].
    rewrite parseInt10_string_of_Z, (number_of_safe_integer z Hz).
    cbn [Js.isFinite]. now rewrite IH.
  - apply Forall_forall. intros t Ht.
    apply in_map_iff in Ht as (z & <- & _). apply string_of_Z_token.
Qed.

Lemma ports_written_and_read_witness :
  [80; 443; 8080] <> []
  /\ Forall safe_integer [80; 443; 8080]
  /\ Viz.ports_of "80,443,8080" = Some [Js.Int 80; Js.Int 443; Js.Int 8080].
Proof.
  assert (S : Forall safe_integer [80; 443; 8080])
    by (repeat constructor; unfold safe_integer; simpl; lia).
  split; [discriminate|]. split; [exact S|].
  exact (proj2 ports_written_and_read [80; 443; 8080]
           ltac:(discriminate) S).
Defined.

Example ports_dropped :
  Viz.ports_of "80, http, 8080-8090 ,, -1" = Some [Js.Int 80; Js.Int 8080; Js.Int (-1)]
  /\ Viz.ports_of "" = None
  /\ Viz.ports_of "," = Some []
  /\ Viz.request_ports (Viz.mkPortForm "10.0.0.1" true false true) "80" None
     = None.
Proof. repeat split. Qed.

(** X12: a status that arrives as the decimal string of an integer is
    treated like the number itself: the status cell (bucket and label)
    and the outcome of every filter are the same for the two
    findings. *)
Theorem status_string_like_number (f : Finding) (z : Z) (flt : Viz.DirFilter) :
  safe_integer z ->
  Viz.status_number (Some (Js.Str (Js.string_of_Z z))) = Js.Int z
  /\ Viz.status_cell (with_status f (Some (Js.Str (Js.string_of_Z z))))
     = Viz.status_cell (with_status f (Some (Js.Num (Js.Int z))))
  /\ Viz.dir_row_shown flt (with_status f (Some (Js.Str (Js.string_of_Z z))))
     = Viz.dir_row_shown flt (with_status f (Some (Js.Num (Js.Int z)))).
Proof.
  intros Hz.
  assert (E : Viz.status_number (Some (Js.Str (Js.string_of_Z z))) = Js.Int z).
  { unfold Viz.status_number. cbn [Js.nullish Js.String_of].
    now rewrite parseInt10_string_of_Z, number_of_safe_integer. }
  split; [exact E|]. split.
  - unfold Viz.status_cell, with_status. cbn [status code http_status Js.nullish_opt].
    rewrite E. reflexivity.
  - unfold Viz.dir_row_shown, with_status.
    cbn [status url title content_type]. rewrite E. reflexivity.
Qed.

Lemma status_string_like_number_witness :
  safe_integer 404
  /\ Viz.status_cell (with_status finding_code_404 (Some (Js.Str "404")))
     = ("4xx", "404").
Proof.
  assert (S : safe_integer 404) by (unfold safe_integer; simpl; lia).
  split; [exact S|].
  exact (proj1 (proj2 (status_string_like_number finding_code_404 404
                         (Viz.mkDirFilter "" "") S))).
Defined.

End NumeralFacts.

(** ** NewScan of reconx/ui *)

Section NewScanFacts.

Import Api Spec.

Lemma filter_trim_nonempty (l : list string) :
  filter Js.truthy (map Js.trim l) <> []
  <-> exists piece, In piece l /\ Js.trim piece <> "".
Proof.
  induction l as [|x l IH]; simpl.
  - split; [congruence | intros (p & [] & _)].
  - destruct (Js.truthy (Js.trim x)) eqn:E.
    + split; [|discriminate]. intros _. exists x. split; [now left|].
      now apply truthy_true_iff.
    + rewrite IH. apply truthy_false_iff in E. split.
      * intros (p & Hp & Hn). exists p. split; [now right | exact Hn].
      * intros (p & [<-|Hp] & Hn); [congruence|]. now exists p.
Qed.

(** X13: what the Start button of reconx/ui needs after the user has
    typed into the target input.  For a subdomains or dirs scan any
    text that is not empty will do, also a blank one; for a ports scan
    the text must hold an entry between its commas that is not blank.
    In each case the box must be ticked, and emptying the input
    disables the button again. *)
Theorem start_button_after_typing (form : Ui.Form) (value : string) :
  (Ui.valid Ui.subdomains (Ui.set_domain value form) = true
   <-> Ui.authorized form = true /\ value <> "")
  /\ (Ui.valid Ui.ports (Ui.set_targets value form) = true
      <-> Ui.authorized form = true
          /\ exists piece, In piece (Js.split_char "," value)
                           /\ Js.trim piece <> "")
  /\ (Ui.valid Ui.dirs (Ui.set_base_url value form) = true
      <-> Ui.authorized form = true /\ value <> "")
  /\ Ui.valid Ui.subdomains (Ui.set_domain "" form) = false
  /\ Ui.valid Ui.ports (Ui.set_targets "" form) = false
  /\ Ui.valid Ui.dirs (Ui.set_base_url "" form) = false.
Proof.
  assert (D : forall k f, Ui.valid k f = true
                          <-> Ui.authorized f = true /\ target_given k f)
    by exact valid_iff.
  split; [|split; [|split; [|split; [|split]]]].
  - rewrite D. cbn [target_given Ui.set_domain Ui.domain Ui.authorized].
    split.
    + intros [Ha (d & E & Hd)]. split; [exact Ha | congruence].
    + intros [Ha Hv]. split; [exact Ha | now exists value].
  - rewrite D. cbn [target_given Ui.set_targets Ui.targets Ui.authorized].
    rewrite <- filter_trim_nonempty. split.
    + intros [Ha (l & E & Hl)]. split; [exact Ha | congruence].
    + intros [Ha Hv]. split; [exact Ha | eexists; split; [reflexivity | exact Hv]].
  - rewrite D. cbn [target_given Ui.set_base_url Ui.base_url Ui.authorized].
    split.
    + intros [Ha (d & E & Hd)]. split; [exact Ha | congruence].
    + intros [Ha Hv]. split; [exact Ha | now exists value].
  - unfold Ui.valid. simpl. now rewrite andb_false_r.
  - unfold Ui.valid. simpl. now rewrite andb_false_r.
  - unfold Ui.valid. simpl. now rewrite andb_false_r.
Qed.

Example start_button_examples :
  Ui.valid Ui.ports (Ui.set_targets " , " (Ui.set_authorized true Ui.initial_form))
  = false
  /\ Ui.valid Ui.ports
       (Ui.set_targets "1.1.1.1, example.com"
          (Ui.set_authorized true Ui.initial_form))
     = true
  /\ Ui.valid Ui.subdomains
       (Ui.set_domain " " (Ui.set_authorized true Ui.initial_form))
     = true
  /\ Ui.targets (Ui.set_targets "1.1.1.1, example.com" Ui.initial_form)
     = Some ["1.1.1.1"; "example.com"].
Proof. repeat split. Qed.

(** X14: a preset of reconx/ui writes tuning fields only.  It leaves
    the authorization, the targets and the wordlist of the form as
    they are, so the Start button is what it was and the request
    keeps its URL, its authorization flag, its work list and its file.
    What changes in the request is the tuning: a JSON body carries the
    tuning fields as the preset left them, a multipart body the
    timeout of the preset in place of the default.  The presets of one
    kind write the same fields, so the preset chosen last decides,
    with nothing left of the one before. *)
Theorem presets_write_tuning_only (kind : Ui.Kind) (name name' : Ui.Preset)
    (st : Ui.Form * Ui.Tuning) :
  fst (Ui.applyPreset kind name st) = fst st
  /\ Ui.valid kind (fst (Ui.applyPreset kind name st)) = Ui.valid kind (fst st)
  /\ (forall raw file,
        option_map fst
          (Ui.submit_request raw kind (Ui.applyPreset kind name st) file)
        = option_map fst (Ui.submit_request raw kind st file))
  /\ (forall raw file post sent,
        Ui.submit_request raw kind (Ui.applyPreset kind name st) file
        = Some (post, sent) ->
        exists t,
          Ui.tune_timeout (snd (Ui.applyPreset kind name st)) = Some t
          /\ ((kind <> Ui.dirs \/ Ui.useUpload (fst st) = false)
               /\ sent = Ui.InJson (snd (Ui.applyPreset kind name st))
              \/ (kind = Ui.dirs /\ Ui.useUpload (fst st) = true)
                 /\ sent = Ui.InFormData (Js.string_of_Z t)))
  /\ Ui.applyPreset kind name' (Ui.applyPreset kind name st)
     = Ui.applyPreset kind name' st
  /\ Ui.tune_timeout (snd (Ui.applyPreset kind name st)) <> None.
Proof.
  destruct st as [form tuning].
  assert (E : fst (Ui.applyPreset kind name (form, tuning)) = form).
  { unfold Ui.applyPreset, Ui.set_authorized. cbn [fst]. now destruct form. }
  assert (T : exists t,
             Ui.tune_timeout (snd (Ui.applyPreset kind name (form, tuning)))
             = Some t).
  { destruct kind, name; eexists; reflexivity. }
  split; [exact E|]. rewrite E. split; [reflexivity|]. split.
  { intros raw file. unfold Ui.submit_request. rewrite E. cbn [fst].
    now destruct (Ui.submit raw kind form file). }
  split.
  { intros raw file post sent. unfold Ui.submit_request.
    destruct T as [t Ht]. revert E Ht.
    generalize (Ui.applyPreset kind name (form, tuning)).
    intros [form' tuning'] E Ht. cbn [fst snd] in *. subst form'.
    destruct (Ui.submit raw kind form file) as [p|]; [|discriminate].
    intros [= _ <-]. exists t. split; [exact Ht|].
    unfold Ui.sent_tuning. rewrite Ht.
    destruct kind; cbn [andb];
      try (left; split; [left; discriminate | reflexivity]).
    destruct (Ui.useUpload form).
    - right. repeat split.
    - left. split; [now right | reflexivity]. }
  split.
  - unfold Ui.applyPreset, Ui.set_authorized. destruct form.
    destruct kind, name, name'; reflexivity.
  - destruct T as [t ->]. discriminate.
Qed.

(** A dirs scan with an uploaded wordlist: before a preset the request
    carries the default timeout, after [Standard] the timeout of the
    preset; the rest of the request is the same. *)
Lemma presets_write_tuning_only_witness :
  Ui.submit_request None Ui.dirs
    (Ui.applyPreset Ui.dirs Ui.Standard
       (Ui.mkForm true (Some "https://example.com") None
          (Some "https://example.com") true "",
        Ui.mkTuning None None None))
    (Some "admin")
  = Some (mkScanPost "/api/recon/dirs/scan/upload" true None (Some "admin"),
          Ui.InFormData "15")
  /\ exists t,
       Ui.tune_timeout
         (snd (Ui.applyPreset Ui.dirs Ui.Standard
                 (Ui.mkForm true (Some "https://example.com") None
                    (Some "https://example.com") true "",
                  Ui.mkTuning None None None)))
       = Some t
       /\ ((Ui.dirs <> Ui.dirs
            \/ Ui.useUpload
                 (fst (Ui.mkForm true (Some "https://example.com") None
                         (Some "https://example.com") true "",
                       Ui.mkTuning None None None)) = false)
           /\ Ui.InFormData "15"
              = Ui.InJson
                  (snd (Ui.applyPreset Ui.dirs Ui.Standard
                          (Ui.mkForm true (Some "https://example.com") None
                             (Some "https://example.com") true "",
                           Ui.mkTuning None None None)))
           \/ (Ui.dirs = Ui.dirs
               /\ Ui.useUpload
                    (fst (Ui.mkForm true (Some "https://example.com") None
                            (Some "https://example.com") true "",
                          Ui.mkTuning None None None)) = true)
              /\ Ui.InFormData "15" = Ui.InFormData (Js.string_of_Z t)).
Proof.
  split; [reflexivity|].
  apply (proj1 (proj2 (proj2 (proj2
           (presets_write_tuning_only Ui.dirs Ui.Standard Ui.Standard
              (Ui.mkForm true (Some "https://example.com") None
                 (Some "https://example.com") true "",
               Ui.mkTuning None None None)))))
           None (Some "admin")
           (mkScanPost "/api/recon/dirs/scan/upload" true None (Some "admin"))
           (Ui.InFormData "15")).
  reflexivity.
Defined.

(** A preset changes the request: the JSON body of a subdomains scan
    has no tuning before a preset and the fields of [Safe] after it;
    the multipart body of a dirs scan has the default timeout before
    a preset. *)
Example preset_changes_request :
  let form := Ui.mkForm true (Some "example.com") None None false "" in
  let none := Ui.mkTuning None None None in
  Ui.submit_request None Ui.subdomains (form, none) None
  = Some (mkScanPost "/api/recon/subdomains/scan" true None None,
          Ui.InJson none)
  /\ Ui.submit_request None Ui.subdomains
       (Ui.applyPreset Ui.subdomains Ui.Safe (form, none)) None
     = Some (mkScanPost "/api/recon/subdomains/scan" true None None,
             Ui.InJson (Ui.mkTuning (Some 25) (Some 20) None))
  /\ Ui.sent_tuning Ui.dirs
       (Ui.mkForm true None None (Some "https://example.com") true "") none
     = Ui.InFormData "10".
Proof. repeat split. Qed.

End NewScanFacts.

(** ** The text filter of the modal *)

Section SearchFacts.

Import Api Viz Spec.

Lemma includes_occurs (s t : string) :
  Js.includes s t = true <-> occurs_in t s.
Proof.
  induction s as [|c s IH].
  - cbn [Js.includes]. rewrite orb_false_r. split.
    + intros H. apply startsWith_inv in H as [r E]. now exists "", r.
    + intros (a & b & E). destruct a; [|discriminate].
      destruct t; [reflexivity | discriminate].
  - cbn [Js.includes]. rewrite orb_true_iff, IH. split.
    + intros [H|(a & b & E)].
      * apply startsWith_inv in H as [r E]. now exists "", r.
      * exists (String c a), b. now rewrite E.
    + intros (a & b & E). destruct a as [|x a].
      * left. cbn [append] in E. rewrite E. apply startsWith_append.
      * right. injection E as _ E. now exists a, b.
Qed.

Lemma toLowerCase_append (a b : string) :
  Js.toLowerCase (a ++ b) = Js.toLowerCase a ++ Js.toLowerCase b.
Proof. induction a as [|c a IH]; [reflexivity|]. simpl. now rewrite IH. Qed.

Lemma occurs_in_lower (t s : string) :
  occurs_in t s -> occurs_in (Js.toLowerCase t) (Js.toLowerCase s).
Proof.
  intros (a & b & ->). exists (Js.toLowerCase a), (Js.toLowerCase b).
  now rewrite !toLowerCase_append.
Qed.

Lemma occurs_in_trans (a b c : string) :
  occurs_in a b -> occurs_in b c -> occurs_in a c.
Proof.
  intros (x & y & ->) (u & v & ->). exists (u ++ x), (y ++ v).
  now rewrite !append_assoc.
Qed.

Lemma trimStart_occurs (t : string) : occurs_in (Js.trimStart t) t.
Proof.
  induction t as [|c t (a & b & E)]; [now exists "", ""|].
  simpl. destruct (Js.is_whitespace c).
  - exists (String c a), b. simpl. now rewrite <- E.
  - exists "", "". simpl. now rewrite append_empty_r.
Qed.

Lemma trimEnd_prefix (t : string) : exists b, t = Js.trimEnd t ++ b.
Proof.
  induction t as [|c t [b E]]; [now exists ""|].
  simpl. destruct (Js.trimEnd t) as [|d r] eqn:Et.
  - destruct (Js.is_whitespace c).
    + now exists (String c t).
    + exists t. reflexivity.
  - exists b. simpl. simpl in E. now rewrite <- E.
Qed.

(** The trimmed text occurs in the text. *)
Lemma trim_occurs (t : string) : occurs_in (Js.trim t) t.
Proof.
  apply occurs_in_trans with (Js.trimStart t); [|apply trimStart_occurs].
  unfold Js.trim. destruct (trimEnd_prefix (Js.trimStart t)) as [b E].
  exists "", b. exact E.
Qed.

Lemma searched_text_join (f : Finding) :
  Js.join " "
    [Js.or_string (url f) ""; Js.or_string (title f) "";
     Js.or_string (content_type f) ""]
  = searched_text f.
Proof. reflexivity. Qed.

(** X15: the text filter finds what it should.  With no status filter
    set, a row is shown whenever the filter text, as typed, occurs in
    the URL, the title or the content type of the finding; letter case
    and blanks around the text do not matter.  A row that is shown by
    a filter text that is not blank has the text, trimmed and in lower
    case, in the three fields joined by single spaces. *)
Theorem text_filter_finds (f : Finding) (text : string) :
  (occurs_in text (Js.or_string (url f) "")
   \/ occurs_in text (Js.or_string (title f) "")
   \/ occurs_in text (Js.or_string (content_type f) "") ->
   forall text',
     Js.toLowerCase (Js.trim text') = Js.toLowerCase (Js.trim text) ->
     dir_row_shown (mkDirFilter text' "") f = true)
  /\ (dir_row_shown (mkDirFilter text "") f = true ->
      Js.toLowerCase (Js.trim text) <> "" ->
      occurs_in (Js.toLowerCase (Js.trim text))
        (Js.toLowerCase (searched_text f))).
Proof.
  split.
  - intros H text' E. unfold dir_row_shown.
    cbn [filter_status filter_text Js.truthy negb orb andb].
    rewrite E, searched_text_join.
    destruct (Js.truthy (Js.toLowerCase (Js.trim text))); [|reflexivity].
    cbn [negb orb]. apply includes_occurs, occurs_in_lower.
    apply occurs_in_trans with text; [apply trim_occurs|].
    unfold searched_text.
    destruct H as [(a & b & ->)|[(a & b & ->)|(a & b & ->)]].
    + exists a, (b ++ " " ++ Js.or_string (title f) "" ++ " "
                  ++ Js.or_string (content_type f) "").
      now rewrite !append_assoc.
    + exists (Js.or_string (url f) "" ++ " " ++ a),
        (b ++ " " ++ Js.or_string (content_type f) "").
      now rewrite !append_assoc.
    + exists (Js.or_string (url f) "" ++ " " ++ Js.or_string (title f) ""
                ++ " " ++ a), b.
      now rewrite !append_assoc.
  - unfold dir_row_shown.
    cbn [filter_status filter_text Js.truthy negb orb andb].
    rewrite searched_text_join. intros H Hne.
    apply truthy_true_iff in Hne. rewrite Hne in H. cbn [negb orb] in H.
    now apply includes_occurs.
Qed.

Lemma text_filter_finds_witness :
  (occurs_in "admin" (Js.or_string (url finding_code_404) "")
   \/ occurs_in "admin" (Js.or_string (title finding_code_404) "")
   \/ occurs_in "admin" (Js.or_string (content_type finding_code_404) ""))
  /\ dir_row_shown (mkDirFilter "  ADMIN " "") finding_code_404 = true.
Proof.
  assert (H : occurs_in "admin" (Js.or_string (url finding_code_404) "")).
  { now exists "https://example.com/", "". }
  split; [left; exact H|].
  exact (proj1 (text_filter_finds finding_code_404 "admin")
           (or_introl H) "  ADMIN " eq_refl).
Defined.

(** A filter text can match across two fields: the end of the URL,
    the joining space and the start of the title. *)
Example text_filter_across_fields :
  dir_row_shown (mkDirFilter "admin login" "")
    (mkFinding None None None None None None None None None None None None
       (Some "https://example.com/admin") None (Some "Login page") None None)
  = true.
Proof. reflexivity. Qed.

(** Letter case covers the letters of the upper half: the filter
    text [caf] followed by 233 (e with acute) finds a URL that ends in
    [CAF] followed by 201 (E with acute).  The multiplication sign,
    215, is no letter and stays as it is. *)
Example text_filter_upper_half :
  dir_row_shown (mkDirFilter ("caf" ++ String (ascii_of_nat 233) "") "")
    (mkFinding None None None None None None None None None None None None
       (Some ("https://example.com/CAF" ++ String (ascii_of_nat 201) ""))
       None None None None)
  = true
  /\ Js.toLowerCase
       (String (ascii_of_nat 192) (String (ascii_of_nat 214)
          (String (ascii_of_nat 215) (String (ascii_of_nat 216)
             (String (ascii_of_nat 222) (String (ascii_of_nat 223) ""))))))
     = String (ascii_of_nat 224) (String (ascii_of_nat 246)
         (String (ascii_of_nat 215) (String (ascii_of_nat 248)
            (String (ascii_of_nat 254) (String (ascii_of_nat 223) ""))))).
Proof. split; reflexivity. Qed.

End SearchFacts.

(** ** Actions on a job *)

Section ActionFacts.

Import Api Viz Spec.

(** X16: deleting a job announces success for every answer that
    arrives, also one whose status is not ok: the page toasts "Job
    deleted", reloads the jobs and closes the modal when it shows the
    job with that very id.  Only a request that gets no answer is
    announced as failed.  A control action, which goes through
    [fetchJson], announces a failure for such an answer and leaves the
    jobs list alone. *)
Theorem delete_announces_any_answer (st : Page) (jobId : Js.scalar)
    (action : Action) (ok : bool) (body : option unit)
    (jobs_x : Exchange (list Job)) :
  let st' := handleDeleteJob st jobId (Response ok body) jobs_x in
  notices st' = (notices st ++ ["Job deleted"])%list
  /\ page_dash st' = fetchJobs (page_dash st) jobs_x
  /\ (selectedJob st' = None
      <-> selectedJob st = None
          \/ exists j, selectedJob st = Some j /\ strict_eq (id j) jobId = true)
  /\ notices (handleDeleteJob st jobId NetworkError jobs_x)
     = (notices st ++ ["Failed to delete job"])%list
  /\ (ok = false ->
      handleJobAction_run st action (Response ok body) jobs_x
      = notify ("Failed to " ++ action_name action ++ " job") st).
Proof.
  intros st'. subst st'. unfold handleDeleteJob. cbn [fetch_ok].
  split; [|split; [|split; [|split]]].
  - destruct (match selectedJob st with
              | Some j => strict_eq (id j) jobId
              | None => false
              end); reflexivity.
  - destruct (match selectedJob st with
              | Some j => strict_eq (id j) jobId
              | None => false
              end); reflexivity.
  - destruct (selectedJob st) as [j|] eqn:Es.
    + destruct (strict_eq (id j) jobId) eqn:E; cbn [selectedJob refresh_jobs notify].
      * split; [intros _; right; now exists j | reflexivity].
      * rewrite Es. split; [discriminate|].
        intros [H|(j' & Hj & He)]; [discriminate|]. congruence.
    + cbn [selectedJob refresh_jobs notify]. rewrite Es.
      split; [now left | reflexivity].
  - reflexivity.
  - intros ->. reflexivity.
Qed.

(** A job whose deletion the backend refuses with a status that is
    not ok: the page says "Job deleted" and the reloaded list still
    has the job. *)
Lemma delete_announces_any_answer_witness :
  notices
    (handleDeleteJob (page_with [failed_job] None) (Js.Num (Js.Int 4))
       (Response false None) (Response true (Some [failed_job])))
  = ["Job deleted"]
  /\ jobs (page_dash
             (handleDeleteJob (page_with [failed_job] None) (Js.Num (Js.Int 4))
                (Response false None) (Response true (Some [failed_job]))))
     = [failed_job].
Proof.
  split.
  - exact (proj1 (delete_announces_any_answer (page_with [failed_job] None)
                    (Js.Num (Js.Int 4)) cancel false None
                    (Response true (Some [failed_job])))).
  - reflexivity.
Defined.

End ActionFacts.

(** ** The modal and the report, cell by cell *)

Section CellFacts.

Import Api Viz Spec.

Variable host : DateUtil.Host.

Lemma or_string_shown (v : option string) (d : string) :
  shown_as_reported (Js.or_string v "") (Js.or_string v d).
Proof.
  unfold shown_as_reported, Js.or_string.
  destruct v as [s|]; [|congruence].
  destruct (Js.truthy s); congruence.
Qed.

Lemma or_string_nullish (v : option string) :
  shown_as_reported (Js.or_string v "") (Js.nullish v "").
Proof.
  unfold shown_as_reported, Js.or_string, Js.nullish.
  destruct v as [s|]; [|congruence].
  destruct (Js.truthy s); congruence.
Qed.

Lemma seen_shown (v : option string) :
  shown_as_reported (seen host v)
    match v with
    | Some c =>
        if Js.truthy c
        then DateUtil.formatDateTime host (DateUtil.DString c) None
        else "N/A"
    | None => "N/A"
    end.
Proof.
  unfold shown_as_reported, seen.
  destruct v as [c|]; [|congruence].
  destruct (Js.truthy c); congruence.
Qed.

(** X17: the modal shows what the report says.  For a subdomains or a
    ports finding every cell of the report row that is not empty
    stands unchanged in the same column of the modal row; for a dirs
    finding this holds for the URL, the title, the type and the
    redirect.  The two rows have the same number of cells. *)
Theorem modal_shows_report_cells (f : Finding) :
  Forall2 shown_as_reported (subdomains_row host f) (subdomain_cells host f)
  /\ Forall2 shown_as_reported (ports_row f) (port_cells f)
  /\ (forall i, In i [0; 3; 4; 5]%nat ->
        shown_as_reported (nth i (dirs_row f) "") (nth i (dir_cells f) ""))
  /\ List.length (dirs_row f) = List.length (dir_cells f).
Proof.
  split; [|split; [|split]].
  - unfold subdomains_row, subdomain_cells.
    apply Forall2_cons; [apply or_string_nullish|].
    apply Forall2_cons.
    { unfold shown_as_reported, or_na.
      destruct (resolved_ips f) as [ips|]; [|congruence].
      intros H. apply truthy_true_iff in H. now rewrite H. }
    apply Forall2_cons; [apply seen_shown|].
    apply Forall2_cons; [apply seen_shown | apply Forall2_nil].
  - unfold ports_row, port_cells.
    apply Forall2_cons; [apply or_string_nullish|].
    apply Forall2_cons; [now intros _|].
    apply Forall2_cons.
    { unfold shown_as_reported, truthy_or_empty, string_or_empty.
      destruct (status f) as [x|]; [|congruence].
      destruct (Js.truthy_scalar x); [reflexivity | congruence]. }
    apply Forall2_cons; [apply or_string_shown | apply Forall2_nil].
  - intros i Hi. unfold dirs_row, dir_cells.
    destruct Hi as [<-|[<-|[<-|[<-|[]]]]]; cbn [nth];
      try apply or_string_shown; try apply or_string_nullish.
    unfold shown_as_reported, Js.nullish.
    destruct (redirected_to f); congruence.
  - reflexivity.
Qed.

End CellFacts.

(** A finding with a length of zero: the report says 0, the modal
    says N/A; and a status with a blank before it is reported as sent
    and shown as the number read from it. *)
Example modal_and_report_differ :
  nth 2 (Viz.dirs_row
           (Api.mkFinding None None None None None None None None
              (Some (Js.Str " 404")) None None None None (Some (Js.Int 0))
              None None None)) ""
  = "0"
  /\ Viz.dir_cells
       (Api.mkFinding None None None None None None None None
          (Some (Js.Str " 404")) None None None None (Some (Js.Int 0))
          None None None)
     = [""; "404"; "N/A"; "N/A"; "N/A"; "N/A"]
  /\ Viz.dirs_row
       (Api.mkFinding None None None None None None None None
          (Some (Js.Str " 404")) None None None None (Some (Js.Int 0))
          None None None)
     = [""; " 404"; "0"; ""; ""; ""].
Proof. repeat split. Qed.

(** ** One confirmation, one scan *)

Section SpentFacts.

Import Api Viz Spec.

(** X18: in viz-recon-main a confirmation of authorization is spent
    by the scan it starts.  When the backend accepts a scan request
    the form comes back with [authorized] unset and the target
    emptied, so the submit button is disabled and a further click
    issues nothing until the user fills the target and confirms
    again; when the request is refused or fails the form is left as
    it was. *)
Theorem authorization_is_spent (env : Env) (scan_x : Exchange Z) :
  (forall f file,
      let f' := snd (handleSubdomainScan_run env f file scan_x) in
      (fst (handleSubdomainScan_run env f file scan_x) <> None ->
       fetchJson scan_x <> None ->
       sub_authorized f' = false
       /\ forall file', click_subdomain_scan env f' file' = None)
      /\ (fetchJson scan_x = None -> f' = f))
  /\ (forall f file1 file2,
         let f' := snd (handlePortScan_run env f file1 file2 scan_x) in
         (fst (handlePortScan_run env f file1 file2 scan_x) <> None ->
          fetchJson scan_x <> None ->
          port_authorized f' = false
          /\ forall file1' file2', click_port_scan env f' file1' file2' = None)
         /\ (fetchJson scan_x = None -> f' = f))
  /\ (forall f file,
         let f' := snd (handleDirScan_run env f file scan_x) in
         (fst (handleDirScan_run env f file scan_x) <> None ->
          fetchJson scan_x <> None ->
          dir_authorized f' = false
          /\ forall file', click_dir_scan env f' file' = None)
         /\ (fetchJson scan_x = None -> f' = f)).
Proof.
  split; [|split].
  - intros f file f'. subst f'. unfold handleSubdomainScan_run.
    destruct (handleSubdomainScan env f file) as [r|]; cbn [fst snd];
      [|split; [congruence | reflexivity]].
    destruct (fetchJson scan_x); split; try congruence; intros _ _.
    split; reflexivity.
  - intros f file1 file2 f'. subst f'. unfold handlePortScan_run.
    destruct (handlePortScan env f file1 file2) as [r|]; cbn [fst snd];
      [|split; [congruence | reflexivity]].
    destruct (fetchJson scan_x); split; try congruence; intros _ _.
    split; reflexivity.
  - intros f file f'. subst f'. unfold handleDirScan_run.
    destruct (handleDirScan env f file) as [r|]; cbn [fst snd];
      [|split; [congruence | reflexivity]].
    destruct (fetchJson scan_x); split; try congruence; intros _ _.
    destruct (useUpload f && Js.truthy (wordlistText f)); split; reflexivity.
Qed.

Lemma authorization_is_spent_witness :
  fst (handleSubdomainScan_run env_relative
         (mkSubdomainForm "example.com" true false) None
         (Response true (Some 12)))
  <> None
  /\ fetchJson (Response true (Some 12)) <> None
  /\ click_subdomain_scan env_relative
       (snd (handleSubdomainScan_run env_relative
               (mkSubdomainForm "example.com" true false) None
               (Response true (Some 12))))
       None
     = None.
Proof.
  assert (H1 : fst (handleSubdomainScan_run env_relative
                      (mkSubdomainForm "example.com" true false) None
                      (Response true (Some 12))) <> None) by discriminate.
  assert (H2 : fetchJson (Response true (Some 12)) <> None) by discriminate.
  split; [exact H1|]. split; [exact H2|].
  exact (proj2 (proj1 (proj1 (authorization_is_spent env_relative
                                (Response true (Some 12)))
                         (mkSubdomainForm "example.com" true false) None)
                  H1 H2) None).
Defined.

(** In reconx/ui the form is not reset by [submit]: the confirmation
    stays, and only the [submitting] flag holds a second click back
    while the first request is under way. *)
Example ui_confirmation_stays :
  Ui.click_start None Ui.subdomains
    (Ui.mkForm true (Some "example.com") None None false "") true None
  = None
  /\ Ui.click_start None Ui.subdomains
       (Ui.mkForm true (Some "example.com") None None false "") false None
     <> None.
Proof. split; [reflexivity | discriminate]. Qed.

End SpentFacts.

(** ** Dates of four-digit years *)

Section DateMore.

Import DateUtil Spec.

Lemma year_of_day_range (d : Z) :
  -354285 <= d <= 2932896 -> 1000 <= fst (fst (civil_from_days d)) <= 9999.
Proof.
  intros H. unfold civil_from_days. cbn [fst].
  set (z := d + 719468).
  set (era := z / 146097).
  set (doe := z - era * 146097).
  set (yoe := (doe - doe / 1460 + doe / 36524 - doe / 146096) / 365).
  set (doy := doe - (365 * yoe + yoe / 4 - yoe / 100)).
  set (mp := (5 * doy + 2) / 153).
  destruct (Z.ltb_spec mp 10);
    match goal with
    | |- context [Z.leb ?a 2] => destruct (Z.leb_spec a 2)
    end;
    subst mp doy yoe doe era z; Z.div_mod_to_equations; lia.
Qed.

(** The years of the time values from the first millisecond of the
    year 1000 to the last of the year 9999. *)
Lemma YearFromTime_four_digits (t : Z) :
  -30610224000000 <= t <= 253402300799999 -> 1000 <= YearFromTime t <= 9999.
Proof.
  intros H. unfold YearFromTime. apply year_of_day_range.
  unfold Day, msPerDay. Z.div_mod_to_equations; lia.
Qed.

Lemma two_digits_chars (s : string) :
  two_digits s ->
  exists a b, s = String a (String b "")
              /\ Js.is_digit a = true /\ Js.is_digit b = true.
Proof.
  intros [L D]. destruct s as [|a [|b [|c s]]]; try discriminate.
  simpl in D. apply andb_prop in D as [Da D]. apply andb_prop in D as [Db _].
  now exists a, b.
Qed.

Lemma four_digits_chars (s : string) :
  String.length s = 4%nat -> all_digits s = true ->
  exists a b c d,
    s = String a (String b (String c (String d "")))
    /\ Js.is_digit a = true /\ Js.is_digit b = true
    /\ Js.is_digit c = true /\ Js.is_digit d = true.
Proof.
  intros L D. destruct s as [|a [|b [|c [|d [|e s]]]]]; try discriminate.
  simpl in D.
  apply andb_prop in D as [Da D]. apply andb_prop in D as [Db D].
  apply andb_prop in D as [Dc D]. apply andb_prop in D as [Dd _].
  now exists a, b, c, d.
Qed.

(** X19: a valid date whose displayed time lies in the years 1000 to
    9999 is printed in a fixed shape, four digits for the year and two
    for every other field, [dddd-dd-dd dd:dd:dd], followed by [' UTC']
    in UTC mode: 19 or 23 code units.  The displayed time is the time
    value in UTC mode and the time value moved by the local offset
    otherwise. *)
Theorem formatDateTime_fixed_shape (host : Host) (t : Z)
    (utc : option bool) (fallback : option string) :
  let shown := if Js.nullish utc false then t else LocalTime host t in
  let suffix := if Js.nullish utc false then " UTC" else "" in
  -30610224000000 <= shown <= 253402300799999 ->
  four_digit_year_shape suffix
    (formatDateTime host (DDate (Some t)) (Some (mkOpts utc fallback)))
  = true
  /\ String.length
       (formatDateTime host (DDate (Some t)) (Some (mkOpts utc fallback)))
     = (19 + String.length suffix)%nat.
Proof.
  intros shown suffix H.
  assert (E : formatDateTime host (DDate (Some t)) (Some (mkOpts utc fallback))
              = Js.string_of_Z (YearFromTime shown) ++ "-"
                  ++ pad (MonthFromTime shown + 1) ++ "-"
                  ++ pad (DateFromTime shown) ++ " "
                  ++ pad (HourFromTime shown) ++ ":"
                  ++ pad (MinFromTime shown) ++ ":"
                  ++ pad (SecFromTime shown) ++ suffix).
  { unfold formatDateTime. cbn [new_Date opt_utc DateUtil.utc].
    subst shown suffix. destruct (Js.nullish utc false); reflexivity. }
  rewrite E. clear E.
  pose proof (YearFromTime_four_digits shown H) as Hy.
  assert (Hy0 : 0 <= YearFromTime shown) by lia.
  destruct (four_digits_chars _ (year_four_digits _ Hy)
              (string_of_Z_nonneg_digits _ Hy0))
    as (y1 & y2 & y3 & y4 & -> & Y1 & Y2 & Y3 & Y4).
  assert (Rm : 0 <= MonthFromTime shown + 1 < 100)
    by (pose proof (MonthFromTime_range shown); lia).
  assert (Rd : 0 <= DateFromTime shown < 100)
    by (pose proof (DateFromTime_range shown); lia).
  assert (Rh : 0 <= HourFromTime shown < 100)
    by (pose proof (HourFromTime_range shown); lia).
  assert (Rn : 0 <= MinFromTime shown < 100)
    by (pose proof (MinFromTime_range shown); lia).
  assert (Rs : 0 <= SecFromTime shown < 100)
    by (pose proof (SecFromTime_range shown); lia).
  destruct (two_digits_chars _ (pad_two_digits _ Rm)) as (m1 & m2 & -> & M1 & M2).
  destruct (two_digits_chars _ (pad_two_digits _ Rd)) as (d1 & d2 & -> & D1 & D2).
  destruct (two_digits_chars _ (pad_two_digits _ Rh)) as (h1 & h2 & -> & H1 & H2).
  destruct (two_digits_chars _ (pad_two_digits _ Rn)) as (n1 & n2 & -> & N1 & N2).
  destruct (two_digits_chars _ (pad_two_digits _ Rs)) as (s1 & s2 & -> & S1 & S2).
  cbn [append four_digit_year_shape all_digits String.length].
  rewrite Y1, Y2, Y3, Y4, M1, M2, D1, D2, H1, H2, N1, N2, S1, S2.
  rewrite String.eqb_refl. split; reflexivity.
Qed.

Lemma formatDateTime_fixed_shape_witness :
  -30610224000000 <= 951827696000 <= 253402300799999
  /\ four_digit_year_shape " UTC"
       (formatDateTime utc_host (DDate (Some 951827696000))
          (Some (mkOpts (Some true) None)))
     = true.
Proof.
  assert (H : -30610224000000 <= 951827696000 <= 253402300799999) by lia.
  split; [exact H|].
  exact (proj1 (formatDateTime_fixed_shape utc_host 951827696000 (Some true) None H)).
Defined.

End DateMore.

(** ** URLs, once more *)

Section UrlMore.

Import Api Spec.

Lemma startsWith_prefix_append (p r : string) :
  Js.startsWith (p ++ r) p = true.
Proof. apply startsWith_append. Qed.

Lemma api_relative (e : Env) (path : string) :
  apiBase e = "" ->
  api e path
  = (if needsApiPrefix (with_slash path) then "/api" else "") ++ with_slash path.
Proof. intros H. unfold api. now rewrite H. Qed.

Lemma with_slash_starts (path : string) :
  exists r, with_slash path = String "/" r.
Proof.
  unfold with_slash. destruct (Js.startsWith path "/") eqn:E.
  - apply startsWith_inv in E as [r ->]. now exists r.
  - now exists path.
Qed.

(** X20: with no base URL in force the URLs that [api] builds are
    fixed points of [api]: a URL that went through [api] once can go
    through it again and comes out the same, with no second [/api].
    And for every environment the health URL that [fetchMetrics]
    puts together by hand is the URL that [api] builds for the health
    path, with or without the leading slash. *)
Theorem api_fixed_points (e : Env) (path : string) :
  (apiBase e = "" -> api e (api e path) = api e path)
  /\ Viz.healthUrl e = api e "/healthz"
  /\ api e "healthz" = api e "/healthz".
Proof.
  split; [|split].
  - intros H. rewrite (api_relative e path H).
    destruct (with_slash_starts path) as [r Er].
    set (u := (if needsApiPrefix (with_slash path) then "/api" else "")
              ++ with_slash path).
    assert (Hu : Js.startsWith u "/" = true
                 /\ (Js.startsWith u "/healthz" = true
                     \/ Js.startsWith u "/api/" = true)).
    { subst u. unfold needsApiPrefix.
      destruct (Js.startsWith (with_slash path) "/healthz") eqn:E1.
      - cbn [negb andb append]. rewrite Er. split; [reflexivity|].
        left. now rewrite <- Er.
      - destruct (Js.startsWith (with_slash path) "/api/") eqn:E2; cbn [negb andb].
        + cbn [append]. rewrite Er. split; [reflexivity|].
          right. now rewrite <- Er.
        + rewrite Er. split; [reflexivity | right; reflexivity]. }
    destruct Hu as [Hs Hp].
    rewrite (api_relative e u H). unfold with_slash. rewrite Hs.
    unfold needsApiPrefix.
    destruct Hp as [-> | ->]; [reflexivity | now rewrite andb_false_r].
  - unfold Viz.healthUrl, api.
    destruct (Js.truthy (apiBase e)); reflexivity.
  - reflexivity.
Qed.

Lemma api_fixed_points_witness :
  apiBase env_relative = ""
  /\ api env_relative (api env_relative "jobs/7/findings")
     = "/api/jobs/7/findings".
Proof.
  split; [reflexivity|].
  exact (proj1 (api_fixed_points env_relative "jobs/7/findings") eq_refl).
Defined.

(** With a base URL in force a second pass does not give the URL
    back. *)
Example api_twice_with_base :
  api (mkEnv (Some "https://b.example") false None false)
    (api (mkEnv (Some "https://b.example") false None false) "/jobs")
  = "https://b.example/api/https://b.example/api/jobs".
Proof. reflexivity. Qed.

End UrlMore.
